(** * Structure-analyzer-featurizer: coordination and environment features

    A shallow embedding of [SAF/features/coordination/helper.py] and of
    [SAF/features/environment/ternary.py], with the properties of the
    CN-metrics-and-aggregation pipeline stated over it.

    Conventions of the embedding:
    - a Python [dict] is an insertion-ordered association list with the
      update-in-place-or-append behaviour of [d[k] = v];
    - Python numbers are [num]: an [int] carries a [Z], a [float] carries an
      exact rational ([Qc]); rounding of binary floating point is not part of
      the model, every arithmetic operation is exact, and no number is too
      large to be converted to [float] (the [OverflowError] of an [int]
      beyond the range of [float] is outside the model). What depends on
      rounding is evaluated in [Binary64], which has the two reductions
      again over binary64 floats;
    - a raised exception is the [Raise] result of the [res] monad; the text
      written by [print] is the log of the [io] monad;
    - functions of other packages (cifkit, scipy) and of modules of this
      package that are not part of the sources at hand are parameters. *)

From Stdlib Require Import ZArith QArith Qcanon Lia.
From Stdlib Require PrimFloat Uint63.
From stdpp Require Import base decidable option list numbers strings.

Local Open Scope Z_scope.

(** ** Exceptions and the two monads *)

Inductive exn : Type :=
  | TypeError
  | KeyError
  | IndexError
  | ValueError
  | ZeroDivisionError
  | UnboundLocalError
  | CustomError (name : string).

#[global] Instance exn_eq_dec : EqDecision exn.
Proof. solve_decision. Defined.

Inductive res (A : Type) : Type :=
  | Ok (a : A)
  | Raise (e : exn).
Arguments Ok {A} a.
Arguments Raise {A} e.

#[global] Instance res_ret : MRet res := fun _ a => Ok a.
#[global] Instance res_bind : MBind res := fun _ _ f m =>
  match m with
  | Ok a => f a
  | Raise e => Raise e
  end.

Definition is_Ok {A} (r : res A) : Prop := ∃ a, r = Ok a.
Definition is_Raise {A} (r : res A) : Prop := ∃ e, r = Raise e.

(** [io A]: what was printed, and the outcome. *)
Definition io (A : Type) : Type := list string * res A.

#[global] Instance io_ret : MRet io := fun _ a => ([], Ok a).
#[global] Instance io_bind : MBind io := fun _ _ f m =>
  match m with
  | (out, Ok a) => let '(out', r) := f a in (out ++ out', r)
  | (out, Raise e) => (out, Raise e)
  end.

#[global] Instance res_fmap : FMap res := fun _ _ f m =>
  match m with
  | Ok a => Ok (f a)
  | Raise e => Raise e
  end.
#[global] Instance io_fmap : FMap io := fun _ _ f m => (m.1, f <$> m.2).

Definition lift {A} (r : res A) : io A := ([], r).
Definition print (s : string) : io unit := ([s], Ok tt).
Definition printed {A} (m : io A) : list string := m.1.
Definition outcome {A} (m : io A) : res A := m.2.

(** A Python [for] loop whose body may raise: a left fold that stops at the
    first exception. *)
Fixpoint for_res {A S} (l : list A) (body : S → A → res S) (s : S) : res S :=
  match l with
  | [] => Ok s
  | x :: l' =>
      match body s x with
      | Ok s' => for_res l' body s'
      | Raise e => Raise e
      end
  end.

Fixpoint for_io {A S} (l : list A) (body : S → A → io S) (s : S) : io S :=
  match l with
  | [] => mret s
  | x :: l' => s' ← body s x; for_io l' body s'
  end.

(** ** Numbers *)

Inductive num : Type :=
  | PyInt (z : Z)
  | PyFloat (q : Qc).

Definition num_val (n : num) : Qc :=
  match n with
  | PyInt z => Qc_of_Z z
  | PyFloat q => q
  end.

(** [a + b]: an [int] when both are, a [float] otherwise. *)
Definition num_add (a b : num) : num :=
  match a, b with
  | PyInt x, PyInt y => PyInt (x + y)
  | _, _ => PyFloat (num_val a + num_val b)
  end.

Definition num_lt (a b : num) : bool := bool_decide (num_val a < num_val b)%Qc.

(** [a / b]: true division, always a [float]. *)
Definition true_div (a b : num) : res num :=
  if decide (num_val b = 0%Qc) then Raise ZeroDivisionError
  else Ok (PyFloat (num_val a / num_val b)).

(** [float(x)] *)
Definition float (a : num) : num := PyFloat (num_val a).

(** [sum(l)]: starts from the [int] 0. *)
Definition py_sum (l : list num) : num := foldl num_add (PyInt 0) l.

(** [len(l)] *)
Definition py_len {A} (l : list A) : num := PyInt (Z.of_nat (length l)).

(** The exact sum and the arithmetic mean of the values of a list. *)
Definition Qc_sum (l : list Qc) : Qc := foldr Qcplus 0%Qc l.

Definition mean (l : list num) : Qc :=
  (Qc_sum (num_val <$> l) / Qc_of_Z (Z.of_nat (length l)))%Qc.

(** [min(l)], [max(l)]: the first smallest (largest) element; [ValueError] on
    an empty sequence. *)
Definition py_min (l : list num) : res num :=
  match l with
  | [] => Raise ValueError
  | x :: l' => Ok (foldl (λ m y, if num_lt y m then y else m) x l')
  end.

Definition py_max (l : list num) : res num :=
  match l with
  | [] => Raise ValueError
  | x :: l' => Ok (foldl (λ m y, if num_lt m y then y else m) x l')
  end.

(** [l[:n]] for a list and an [int] bound, negative bounds counting from the
    end. *)
Definition py_slice_to {A} (l : list A) (n : Z) : list A :=
  if 0 <=? n then take (Z.to_nat n) l
  else take (Z.to_nat (Z.of_nat (length l) + n)) l.

(** ** Dictionaries *)

Abbreviation dict K V := (list (K * V)).

Section dict.
Context {K V : Type} `{EqDecision K}.

Fixpoint dict_get (d : dict K V) (k : K) : option V :=
  match d with
  | [] => None
  | (k', v) :: d' => if decide (k = k') then Some v else dict_get d' k
  end.

(** [d[k] = v] *)
Fixpoint dict_set (k : K) (v : V) (d : dict K V) : dict K V :=
  match d with
  | [] => [(k, v)]
  | (k', v') :: d' =>
      if decide (k = k') then (k', v) :: d' else (k', v') :: dict_set k v d'
  end.

(** [d[k]] *)
Definition dict_item (d : dict K V) (k : K) : res V :=
  match dict_get d k with
  | Some v => Ok v
  | None => Raise KeyError
  end.

Definition keys (d : dict K V) : list K := d.*1.
Definition values (d : dict K V) : list V := d.*2.
Definition dict_wf (d : dict K V) : Prop := NoDup (keys d).
End dict.

(** Dictionaries with the same keys in the same order and related values. *)
Definition dict_rel {K V W} (R : K → V → W → Prop)
    (d : dict K V) (d' : dict K W) : Prop :=
  Forall2 (λ x y, x.1 = y.1 ∧ R x.1 x.2 y.2) d d'.

(** ** [SAF/features/coordination/helper.py] *)

Module Helper.

(** A position is a sequence of coordinates. *)
Definition point : Type := list Qc.

(** One entry of [cif.connections[label]]: the tuple
    [(neighbour label, distance, position of the site, position of the
    neighbour)], read by index in the source. *)
Record connection : Type := {
  conn_0 : string;   (* connection[0] *)
  conn_1 : Qc;       (* connection[1] *)
  conn_2 : point;    (* connection[2] *)
  conn_3 : point;    (* connection[3] *)
}.

(** What is stored for a (site, method) pair: [None] or a mapping from
    metric names to numbers. *)
Inductive pyval : Type :=
  | PyNone
  | PyDict (d : dict string num).

#[global] Instance num_eq_dec : EqDecision num.
Proof. solve_decision. Defined.
#[global] Instance pyval_eq_dec : EqDecision pyval.
Proof. solve_decision. Defined.

(** An entry of [cif.CN_max_gap_per_site[label]]; only ["CN"] is read. *)
Record CN_data : Type := { CN : Z }.

Record Cif : Type := {
  unique_elements : list string;
  connections : dict string (list connection);
  CN_max_gap_per_site : dict string (dict string CN_data);
}.

(** The three statistics of a metric at one site, the dict
    [{"min": _, "max": _, "avg": _}]. *)
Record stats : Type := { s_min : num; s_max : num; s_avg : num }.

Inductive stat : Type := Min | Max | Avg.

#[global] Instance stat_eq_dec : EqDecision stat.
Proof. solve_decision. Defined.

(** [values[stat]] *)
Definition stats_item (values : stats) (st : stat) : num :=
  match st with
  | Min => s_min values
  | Max => s_max values
  | Avg => s_avg values
  end.

(** A dict with exactly the keys ["min"], ["max"], ["avg"]. *)
Record by_stat (A : Type) : Type := { of_min : A; of_max : A; of_avg : A }.
Arguments of_min {A} _.
Arguments of_max {A} _.
Arguments of_avg {A} _.

Definition by_stat_item {A} (b : by_stat A) (st : stat) : A :=
  match st with
  | Min => of_min b
  | Max => of_max b
  | Avg => of_avg b
  end.

Definition by_stat_set {A} (st : stat) (a : A) (b : by_stat A) : by_stat A :=
  match st with
  | Min => {| of_min := a; of_max := of_max b; of_avg := of_avg b |}
  | Max => {| of_min := of_min b; of_max := a; of_avg := of_avg b |}
  | Avg => {| of_min := of_min b; of_max := of_max b; of_avg := a |}
  end.

(** [data[key]] for the value of a (site, method) pair. *)
Definition subscript (data : pyval) (key : string) : res num :=
  match data with
  | PyNone => Raise TypeError
  | PyDict d => dict_item d key
  end.

(** [l[:n]] where [n] is any number: a [float] bound is a [TypeError]. *)
Definition slice_to {A} (l : list A) (n : num) : res (list A) :=
  match n with
  | PyInt z => Ok (py_slice_to l z)
  | PyFloat _ => Raise TypeError
  end.

Definition diagnostic (label method : string) : string :=
  "Error in determining polyhedron for " +:+ label +:+ " using " +:+ method
  +:+ " - skipped".

Section helper.
(** The collaborators: [scipy.spatial.ConvexHull],
    [cifkit]'s [compute_polyhedron_metrics] and
    [string_parser.get_atom_type_from_label], and the role classifiers of
    [SAF.utils.element_order]. Each may raise. *)
Context {hull : Type}.
Variable ConvexHull : list point → res hull.
Variable compute_polyhedron_metrics : list point → hull → res pyval.
Variable get_atom_type_from_label : string → res string.
Variable get_binary_AB_elements : list string → res (string * string).
Variable get_ternary_RMX_elements :
  list string → res (string * string * string).
Variable get_quaternary_ABCD_elements :
  list string → res (string * string * string * string).

(** The point set of a shell of more than three neighbours: the positions
    of the neighbours, then the central atom as the last element. *)
Definition polyhedron_points_of (connection_data : list connection)
  : res (list point) :=
  let polyhedron_points := conn_3 <$> connection_data in
  match connection_data with
  | [] => Raise IndexError
  | c :: _ => Ok (polyhedron_points ++ [conn_2 c])
  end.

(** Body of the loop over the methods of a site. *)
Definition CN_metrics_of_method (connections : dict string (list connection))
    (label : string) (site_data_label : dict string pyval)
    (item : string * CN_data) : io (dict string pyval) :=
  let '(method, CN_data) := item in
  of_label ← lift (dict_item connections label);
  let connection_data := py_slice_to of_label (CN CN_data) in
  if decide (3 < length connection_data)%nat then
    polyhedron_points ← lift (polyhedron_points_of connection_data);
    match ConvexHull polyhedron_points with
    | Raise _ =>
        _ ← print (diagnostic label method);
        mret (dict_set method PyNone site_data_label)
    | Ok hull =>
        polyhedron_metrics ←
          lift (compute_polyhedron_metrics polyhedron_points hull);
        mret (dict_set method polyhedron_metrics site_data_label)
    end
  else mret site_data_label.

Definition get_CN_metrics_per_method (cif : Cif)
  : io (dict string (dict string pyval)) :=
  let max_gaps_per_label := CN_max_gap_per_site cif in
  let connections := connections cif in
  for_io max_gaps_per_label (λ site_data '(label, CN_data_per_method),
    site_data_label ←
      for_io CN_data_per_method (CN_metrics_of_method connections label) [];
    mret (dict_set label site_data_label site_data)) [].

Definition _compute_number_of_atoms_in_binary_CN
    (label_connections : dict string (list connection))
    (CN_metrics : dict string (dict string pyval)) (A B : string)
  : res (dict string (dict string pyval)) :=
  for_res CN_metrics (λ CN_atom_count_data '(site_label, method_data),
    of_site ← for_res method_data (λ of_site '(method, data),
      CN ← subscript data "number_of_vertices";
      of_label ← dict_item label_connections site_label;
      CN_connections ← slice_to of_label CN;
      '(A_element_count, B_element_count) ←
        for_res CN_connections (λ '(A_element_count, B_element_count) connection,
          let connected_label := conn_0 connection in
          parsed_label ← get_atom_type_from_label connected_label;
          if decide (parsed_label = A) then
            mret (A_element_count + 1, B_element_count)
          else if decide (parsed_label = B) then
            mret (A_element_count, B_element_count + 1)
          else mret (A_element_count, B_element_count)) (0, 0);
      mret (dict_set method
              (PyDict [("A_count", PyInt A_element_count); ("B_count", PyInt B_element_count)])
              of_site)) [];
    mret (dict_set site_label of_site CN_atom_count_data)) [].

Definition _compute_number_of_atoms_in_ternary_CN
    (label_connections : dict string (list connection))
    (CN_metrics : dict string (dict string pyval)) (R M X : string)
  : res (dict string (dict string pyval)) :=
  for_res CN_metrics (λ CN_atom_count_data '(site_label, method_data),
    of_site ← for_res method_data (λ of_site '(method, data),
      CN ← subscript data "number_of_vertices";
      of_label ← dict_item label_connections site_label;
      CN_connections ← slice_to of_label CN;
      '(R_element_count, M_element_count, X_element_count) ←
        for_res CN_connections (λ '(R_element_count, M_element_count, X_element_count) connection,
          let connected_label := conn_0 connection in
          parsed_label ← get_atom_type_from_label connected_label;
          if decide (parsed_label = R) then
            mret (R_element_count + 1, M_element_count, X_element_count)
          else if decide (parsed_label = M) then
            mret (R_element_count, M_element_count + 1, X_element_count)
          else if decide (parsed_label = X) then
            mret (R_element_count, M_element_count, X_element_count + 1)
          else mret (R_element_count, M_element_count, X_element_count)) (0, 0, 0);
      mret (dict_set method
              (PyDict [("R_count", PyInt R_element_count); ("M_count", PyInt M_element_count); ("X_count", PyInt X_element_count)])
              of_site)) [];
    mret (dict_set site_label of_site CN_atom_count_data)) [].

Definition _compute_number_of_atoms_in_quaternary_CN
    (label_connections : dict string (list connection))
    (CN_metrics : dict string (dict string pyval)) (A B C D : string)
  : res (dict string (dict string pyval)) :=
  for_res CN_metrics (λ CN_atom_count_data '(site_label, method_data),
    of_site ← for_res method_data (λ of_site '(method, data),
      CN ← subscript data "number_of_vertices";
      of_label ← dict_item label_connections site_label;
      CN_connections ← slice_to of_label CN;
      '(A_element_count, B_element_count, C_element_count, D_element_count) ←
        for_res CN_connections (λ '(A_element_count, B_element_count, C_element_count, D_element_count) connection,
          let connected_label := conn_0 connection in
          parsed_label ← get_atom_type_from_label connected_label;
          if decide (parsed_label = A) then
            mret (A_element_count + 1, B_element_count, C_element_count, D_element_count)
          else if decide (parsed_label = B) then
            mret (A_element_count, B_element_count + 1, C_element_count, D_element_count)
          else if decide (parsed_label = C) then
            mret (A_element_count, B_element_count, C_element_count + 1, D_element_count)
          else if decide (parsed_label = D) then
            mret (A_element_count, B_element_count, C_element_count, D_element_count + 1)
          else mret (A_element_count, B_element_count, C_element_count, D_element_count)) (0, 0, 0, 0);
      mret (dict_set method
              (PyDict [("A_count", PyInt A_element_count); ("B_count", PyInt B_element_count); ("C_count", PyInt C_element_count); ("D_count", PyInt D_element_count)])
              of_site)) [];
    mret (dict_set site_label of_site CN_atom_count_data)) [].

(** The records of one method appended to the per-metric lists of a
    site; iterating [None] is a [TypeError]. *)
Definition collect (metrics : dict string (list num)) (data : pyval)
  : res (dict string (list num)) :=
  match data with
  | PyNone => Raise TypeError
  | PyDict d =>
      Ok (foldl (λ metrics '(key, value),
            let metrics :=
              match dict_get metrics key with
              | None => dict_set key [] metrics
              | Some _ => metrics
              end in
            dict_set key (default [] (dict_get metrics key) ++ [value]) metrics)
          metrics d)
  end.

Definition _compute_min_max_avg_per_atomic_label
    (site_data : dict string (dict string pyval))
  : res (dict string (dict string stats)) :=
  for_res site_data (λ min_max_avg_per_site '(label, of_label),
    metrics ← for_res of_label (λ metrics '(method, data),
      collect metrics data) [];
    of_site ← for_res metrics (λ of_site '(key, collected),
      minimum ← py_min collected;
      maximum ← py_max collected;
      average ← true_div (py_sum collected) (py_len collected);
      mret (dict_set key
              {| s_min := minimum; s_max := maximum; s_avg := average |}
              of_site)) [];
    mret (dict_set label of_site min_max_avg_per_site)) [].

Definition no_stats : by_stat (dict string num) :=
  {| of_min := []; of_max := []; of_avg := [] |}.

(** [d[stat][metric] = v] *)
Definition set_stat_metric (stat : stat) (metric : string) (v : num)
    (d : by_stat (dict string num)) : by_stat (dict string num) :=
  by_stat_set stat (dict_set metric v (by_stat_item d stat)) d.

(** Body of the summing loop for one metric of one label and one
    statistic. *)
Definition add_to_global (metric : string) (values : stats)
    (acc : by_stat (dict string num) * by_stat (dict string num))
    (stat : stat)
  : res (by_stat (dict string num) * by_stat (dict string num)) :=
  let '(global_sums, global_counts) := acc in
  let '(global_sums, global_counts) :=
    match dict_get (by_stat_item global_sums stat) metric with
    | None => (set_stat_metric stat metric (PyInt 0) global_sums,
               set_stat_metric stat metric (PyInt 0) global_counts)
    | Some _ => (global_sums, global_counts)
    end in
  sum_value ← dict_item (by_stat_item global_sums stat) metric;
  let global_sums :=
    set_stat_metric stat metric (num_add sum_value (stats_item values stat))
      global_sums in
  count ← dict_item (by_stat_item global_counts stat) metric;
  let global_counts :=
    set_stat_metric stat metric (num_add count (PyInt 1)) global_counts in
  mret (global_sums, global_counts).

Definition _compute_global_avg_for_min_max_avg_metrics
    (min_max_avg_result : dict string (dict string stats))
  : res (by_stat (dict string num)) :=
  '(global_sums, global_counts) ←
    for_res (values min_max_avg_result) (λ acc label_data,
      for_res label_data (λ acc '(metric, values),
        for_res [Min; Max; Avg] (add_to_global metric values) acc) acc)
      (no_stats, no_stats);
  for_res [Min; Max; Avg] (λ global_avg stat,
    for_res (by_stat_item global_sums stat) (λ global_avg '(metric, sum_value),
      count ← dict_item (by_stat_item global_counts stat) metric;
      quotient ← true_div sum_value count;
      mret (set_stat_metric stat metric (float quotient) global_avg))
      global_avg) no_stats.

(** A local variable that may not have been assigned yet: reading it
    before any assignment is an [UnboundLocalError]. *)
Definition read_local {A} (x : option A) : res A :=
  match x with
  | Some a => Ok a
  | None => Raise UnboundLocalError
  end.

Definition get_CN_atom_count_data (cif : Cif)
  : io (by_stat (dict string num) * by_stat (dict string num)) :=
  CN_metrics ← get_CN_metrics_per_method cif;
  min_max_avg_CN_metrics ← lift (_compute_min_max_avg_per_atomic_label CN_metrics);
  let CN_atom_count_data := None in
  CN_atom_count_data ←
    (if decide (length (unique_elements cif) = 2%nat) then
       '(A, B) ← lift (get_binary_AB_elements (unique_elements cif));
       Some <$> lift (_compute_number_of_atoms_in_binary_CN
                        (connections cif) CN_metrics A B)
     else mret CN_atom_count_data);
  CN_atom_count_data ←
    (if decide (length (unique_elements cif) = 3%nat) then
       '(R, M, X) ← lift (get_ternary_RMX_elements (unique_elements cif));
       Some <$> lift (_compute_number_of_atoms_in_ternary_CN
                        (connections cif) CN_metrics R M X)
     else mret CN_atom_count_data);
  CN_atom_count_data ←
    (if decide (length (unique_elements cif) = 4%nat) then
       '(A, B, C, D) ← lift (get_quaternary_ABCD_elements (unique_elements cif));
       Some <$> lift (_compute_number_of_atoms_in_quaternary_CN
                        (connections cif) CN_metrics A B C D)
     else mret CN_atom_count_data);
  CN_atom_count_data ← lift (read_local CN_atom_count_data);
  min_max_avg_CN_count ←
    lift (_compute_min_max_avg_per_atomic_label CN_atom_count_data);
  avg_CN_metrics ←
    lift (_compute_global_avg_for_min_max_avg_metrics min_max_avg_CN_metrics);
  avg_CN_atom_count ←
    lift (_compute_global_avg_for_min_max_avg_metrics min_max_avg_CN_count);
  mret (avg_CN_metrics, avg_CN_atom_count).
End helper.

End Helper.

(** ** The two reductions over binary64 floats *)

Module Binary64.
Import Helper.

(** Python's [float] is IEEE 754 binary64, and its operations round to the
    nearest value. Here a [float] carries a primitive binary64 float, and
    the two reductions of [helper.py] are written again over these numbers,
    so that results that depend on rounding can be evaluated. An [int] is
    meant to be of absolute value below 2^53, as the counts and the 0 that
    sums start from are: it is then converted without rounding. *)
Inductive num : Type :=
  | PyInt (z : Z)
  | PyFloat (f : PrimFloat.float).

(** [float(z)] *)
Definition of_int (z : Z) : PrimFloat.float :=
  if (z <? 0)%Z
  then PrimFloat.opp (PrimFloat.of_uint63 (Uint63.of_Z (- z)))
  else PrimFloat.of_uint63 (Uint63.of_Z z).

(** [float(x)] *)
Definition float (a : num) : PrimFloat.float :=
  match a with
  | PyInt z => of_int z
  | PyFloat f => f
  end.

(** [a + b]: an [int] when both are, otherwise the rounded sum of the two
    as floats. *)
Definition num_add (a b : num) : num :=
  match a, b with
  | PyInt x, PyInt y => PyInt (x + y)
  | _, _ => PyFloat (PrimFloat.add (float a) (float b))
  end.

Definition num_lt (a b : num) : bool :=
  match a, b with
  | PyInt x, PyInt y => (x <? y)%Z
  | _, _ => PrimFloat.ltb (float a) (float b)
  end.

Definition is_zero (a : num) : bool :=
  match a with
  | PyInt z => (z =? 0)%Z
  | PyFloat f => PrimFloat.eqb f PrimFloat.zero
  end.

(** [a / b]: true division, the rounded quotient of the two as floats. *)
Definition true_div (a b : num) : res num :=
  if is_zero b then Raise ZeroDivisionError
  else Ok (PyFloat (PrimFloat.div (float a) (float b))).

(** [sum(l)]: starts from the [int] 0 and adds from left to right. (Since
    Python 3.12 [sum] compensates the rounding errors of the additions; the
    two agree on a list of one element.) *)
Definition py_sum (l : list num) : num := foldl num_add (PyInt 0) l.

Definition py_len {A} (l : list A) : num := PyInt (Z.of_nat (length l)).

Definition py_min (l : list num) : res num :=
  match l with
  | [] => Raise ValueError
  | x :: l' => Ok (foldl (λ m y, if num_lt y m then y else m) x l')
  end.

Definition py_max (l : list num) : res num :=
  match l with
  | [] => Raise ValueError
  | x :: l' => Ok (foldl (λ m y, if num_lt m y then y else m) x l')
  end.

Inductive pyval : Type :=
  | PyNone
  | PyDict (d : dict string num).

Record stats : Type := { s_min : num; s_max : num; s_avg : num }.

Definition stats_item (values : stats) (st : stat) : num :=
  match st with
  | Min => s_min values
  | Max => s_max values
  | Avg => s_avg values
  end.

Definition collect (metrics : dict string (list num)) (data : pyval)
  : res (dict string (list num)) :=
  match data with
  | PyNone => Raise TypeError
  | PyDict d =>
      Ok (foldl (λ metrics '(key, value),
            let metrics :=
              match dict_get metrics key with
              | None => dict_set key [] metrics
              | Some _ => metrics
              end in
            dict_set key (default [] (dict_get metrics key) ++ [value]) metrics)
          metrics d)
  end.

Definition _compute_min_max_avg_per_atomic_label
    (site_data : dict string (dict string pyval))
  : res (dict string (dict string stats)) :=
  for_res site_data (λ min_max_avg_per_site '(label, of_label),
    metrics ← for_res of_label (λ metrics '(method, data),
      collect metrics data) [];
    of_site ← for_res metrics (λ of_site '(key, collected),
      minimum ← py_min collected;
      maximum ← py_max collected;
      average ← true_div (py_sum collected) (py_len collected);
      mret (dict_set key
              {| s_min := minimum; s_max := maximum; s_avg := average |}
              of_site)) [];
    mret (dict_set label of_site min_max_avg_per_site)) [].

Definition no_stats : by_stat (dict string num) :=
  {| of_min := []; of_max := []; of_avg := [] |}.

Definition set_stat_metric (stat : stat) (metric : string) (v : num)
    (d : by_stat (dict string num)) : by_stat (dict string num) :=
  by_stat_set stat (dict_set metric v (by_stat_item d stat)) d.

Definition add_to_global (metric : string) (values : stats)
    (acc : by_stat (dict string num) * by_stat (dict string num))
    (stat : stat)
  : res (by_stat (dict string num) * by_stat (dict string num)) :=
  let '(global_sums, global_counts) := acc in
  let '(global_sums, global_counts) :=
    match dict_get (by_stat_item global_sums stat) metric with
    | None => (set_stat_metric stat metric (PyInt 0) global_sums,
               set_stat_metric stat metric (PyInt 0) global_counts)
    | Some _ => (global_sums, global_counts)
    end in
  sum_value ← dict_item (by_stat_item global_sums stat) metric;
  let global_sums :=
    set_stat_metric stat metric (num_add sum_value (stats_item values stat))
      global_sums in
  count ← dict_item (by_stat_item global_counts stat) metric;
  let global_counts :=
    set_stat_metric stat metric (num_add count (PyInt 1)) global_counts in
  mret (global_sums, global_counts).

Definition _compute_global_avg_for_min_max_avg_metrics
    (min_max_avg_result : dict string (dict string stats))
  : res (by_stat (dict string num)) :=
  '(global_sums, global_counts) ←
    for_res (values min_max_avg_result) (λ acc label_data,
      for_res label_data (λ acc '(metric, values),
        for_res [Min; Max; Avg] (add_to_global metric values) acc) acc)
      (no_stats, no_stats);
  for_res [Min; Max; Avg] (λ global_avg stat,
    for_res (by_stat_item global_sums stat) (λ global_avg '(metric, sum_value),
      count ← dict_item (by_stat_item global_counts stat) metric;
      quotient ← true_div sum_value count;
      mret (set_stat_metric stat metric (PyFloat (float quotient)) global_avg))
      global_avg) no_stats.

(** The values of one statistic of [metric] at the sites that report it, in
    the order of the sites. *)
Definition reported (st : stat) (metric : string)
    (min_max_avg_result : dict string (dict string stats)) : list num :=
  (λ values, stats_item values st)
  <$> omap (λ item, dict_get item.2 metric) min_max_avg_result.



End Binary64.

(** ** [SAF/features/environment/ternary.py] *)

Module Ternary.
Import Helper.

(** The results of the helpers of [SAF.features.environment], which are not
    part of the sources at hand, are records with the fields that
    [compute_features] reads; the mappings keyed by element or by distance
    are dicts. Distances are floats. *)
Record best_label_details_t : Type := {
  shortest_dist : Qc;
  second_shortest_dist : Qc;
  counts : dict Qc num;
}.

Record best_site : Type := {
  best_label : string;
  best_label_details : best_label_details_t;
  avg_shortest_dist : num;
  avg_second_shortest_dist_count : num;
}.

Record tol_result : Type := { shortest_dist_count_within_tol : num }.
Record avg_tol_result : Type := { avg_shortest_dist_within_tol_count : num }.
Record avg_ratio : Type := { avg_second_by_first_shortest_dist : num }.

Definition num3 : Type := num * num * num.
Definition num9 : Type := num * num * num * num * num * num * num * num * num.

(** [a / b] for two distances of Python's built-in type [float]: a zero
    divisor is a [ZeroDivisionError]. *)
Definition float_div (a b : Qc) : res num :=
  if decide (b = 0%Qc) then Raise ZeroDivisionError
  else Ok (PyFloat (a / b)%Qc).

Section ternary.
Context {first_second : Type}.
Variable get_ternary_RMX_elements :
  list string → res (string * string * string).
Variable compute_avg_homoatomic_dist_by_site_shortest_dist :
  dict string (list connection) → string → string → string → res num3.
Variable get_R_and_M_and_X_count_in_best_label_per_element :
  dict string (list connection) → string → string → string → res num9.
Variable get_avg_R_and_M_and_X_count_in_per_element :
  dict string (list connection) → string → string → string → res num9.
Variable count_first_second_min_dist :
  dict string (list connection) → res first_second.
Variable extract_best_labels : first_second → res (dict string best_site).
Variable extract_shortest_dist_with_tol :
  dict string best_site → dict string (list connection) →
  res (dict string tol_result).
Variable extract_avg_shortest_dist_with_tol :
  dict string (list connection) → res (dict string avg_tol_result).
Variable get_avg_second_by_first_shortest_dist_ratio :
  first_second → dict string (list connection) → res (dict string avg_ratio).
Variable compute_homoatomic_dist_by_site_shortest_dist :
  dict string (list connection) → string → string → string → res num3.
(** [a / b] for two distances. The distances are made by the helpers, and
    so is their type, on which the division of a zero divisor depends: that
    of the built-in floats raises ([float_div]), that of NumPy's floats
    returns. *)
Variable distance_truediv : Qc → Qc → res num.

(** The local variables of [compute_features] once its assignments are done
    (lines 20 to 98); [the_X] is the variable [X]. *)
Record locals : Type := {
  the_connections : dict string (list connection);
  the_R : string;
  the_M : string;
  the_X : string;
  the_R_avg_homoatomic_dist_by_shortest_dist : num;
  the_M_avg_homoatomic_dist_by_shortest_dist : num;
  the_X_avg_homoatomic_dist_by_shortest_dist : num;
  the_R_count_at_R_shortest_dist : num;
  the_R_count_at_M_shortest_dist : num;
  the_R_count_at_X_shortest_dist : num;
  the_M_count_at_R_shortest_dist : num;
  the_M_count_at_M_shortest_dist : num;
  the_M_count_at_X_shortest_dist : num;
  the_X_count_at_R_shortest_dist : num;
  the_X_count_at_M_shortest_dist : num;
  the_X_count_at_X_shortest_dist : num;
  the_R_avg_count_at_R_shorest_dist : num;
  the_R_avg_count_at_M_shorest_dist : num;
  the_R_avg_count_at_X_shorest_dist : num;
  the_M_avg_count_at_R_shorest_dist : num;
  the_M_avg_count_at_M_shorest_dist : num;
  the_M_avg_count_at_X_shorest_dist : num;
  the_X_avg_count_at_R_shorest_dist : num;
  the_X_avg_count_at_M_shorest_dist : num;
  the_X_avg_count_at_X_shorest_dist : num;
  the_first_second_dist_per_site_data : first_second;
  the_best_site_data : dict string best_site;
  the_tol_results : dict string tol_result;
  the_R_shortest_dist_count_within_tol : num;
  the_M_shortest_dist_count_within_tol : num;
  the_X_shortest_dist_count_within_tol : num;
  the_avg_tol_results : dict string avg_tol_result;
  the_R_avg_shortest_dist_within_tol_count : num;
  the_M_avg_shortest_dist_within_tol_count : num;
  the_X_avg_shortest_dist_within_tol_count : num;
  the_R_best_label : string;
  the_M_best_label : string;
  the_X_best_label : string;
  the_R_homoatomic_dist_by_shortest_dist : num;
  the_M_homoatomic_dist_by_shortest_dist : num;
  the_X_homoatomic_dist_by_shortest_dist : num;
  the_R_shortest_dist : Qc;
  the_M_shortest_dist : Qc;
  the_X_shortest_dist : Qc;
  the_R_second_shortest_dist : Qc;
  the_M_second_shortest_dist : Qc;
  the_X_second_shortest_dist : Qc;
  the_R_shortest_dist_count : num;
  the_M_shortest_dist_count : num;
  the_X_shortest_dist_count : num;
  the_R_second_shortest_dist_count : num;
  the_M_second_shortest_dist_count : num;
  the_X_second_shortest_dist_count : num;
  the_R_avg_shortest_dist_count : num;
  the_M_avg_shortest_dist_count : num;
  the_X_avg_shortest_dist_count : num;
  the_R_avg_second_shortest_dist_count : num;
  the_M_avg_second_shortest_dist_count : num;
  the_X_avg_second_shortest_dist_count : num;
  the_avg_second_by_first_dist : dict string avg_ratio;
  the_R_avg_second_by_first_shortest_dist : num;
  the_M_avg_second_by_first_shortest_dist : num;
  the_X_avg_second_by_first_shortest_dist : num;
}.

(** The assignments, in order; each of them may raise. *)
Definition assignments (cif : Cif) : res locals :=
  let connections := connections cif in
  '(R, M, X) ← get_ternary_RMX_elements (unique_elements cif);
  '(R_avg_homoatomic_dist_by_shortest_dist,
    M_avg_homoatomic_dist_by_shortest_dist,
    X_avg_homoatomic_dist_by_shortest_dist) ←
    compute_avg_homoatomic_dist_by_site_shortest_dist connections R M X;
  '(R_count_at_R_shortest_dist,
    R_count_at_M_shortest_dist,
    R_count_at_X_shortest_dist,
    M_count_at_R_shortest_dist,
    M_count_at_M_shortest_dist,
    M_count_at_X_shortest_dist,
    X_count_at_R_shortest_dist,
    X_count_at_M_shortest_dist,
    X_count_at_X_shortest_dist) ←
    get_R_and_M_and_X_count_in_best_label_per_element connections R M X;
  '(R_avg_count_at_R_shorest_dist,
    R_avg_count_at_M_shorest_dist,
    R_avg_count_at_X_shorest_dist,
    M_avg_count_at_R_shorest_dist,
    M_avg_count_at_M_shorest_dist,
    M_avg_count_at_X_shorest_dist,
    X_avg_count_at_R_shorest_dist,
    X_avg_count_at_M_shorest_dist,
    X_avg_count_at_X_shorest_dist) ←
    get_avg_R_and_M_and_X_count_in_per_element connections R M X;
  first_second_dist_per_site_data ← count_first_second_min_dist connections;
  best_site_data ← extract_best_labels first_second_dist_per_site_data;
  tol_results ← extract_shortest_dist_with_tol best_site_data connections;
  R_shortest_dist_count_within_tol ←
    shortest_dist_count_within_tol <$> dict_item tol_results R;
  M_shortest_dist_count_within_tol ←
    shortest_dist_count_within_tol <$> dict_item tol_results M;
  X_shortest_dist_count_within_tol ←
    shortest_dist_count_within_tol <$> dict_item tol_results X;
  avg_tol_results ← extract_avg_shortest_dist_with_tol connections;
  R_avg_shortest_dist_within_tol_count ←
    avg_shortest_dist_within_tol_count <$> dict_item avg_tol_results R;
  M_avg_shortest_dist_within_tol_count ←
    avg_shortest_dist_within_tol_count <$> dict_item avg_tol_results M;
  X_avg_shortest_dist_within_tol_count ←
    avg_shortest_dist_within_tol_count <$> dict_item avg_tol_results X;
  R_best_label ← best_label <$> dict_item best_site_data R;
  M_best_label ← best_label <$> dict_item best_site_data M;
  X_best_label ← best_label <$> dict_item best_site_data X;
  '(R_homoatomic_dist_by_shortest_dist,
    M_homoatomic_dist_by_shortest_dist,
    X_homoatomic_dist_by_shortest_dist) ←
    compute_homoatomic_dist_by_site_shortest_dist connections
      R_best_label M_best_label X_best_label;
  R_shortest_dist ←
    (λ of_R, shortest_dist (best_label_details of_R))
    <$> dict_item best_site_data R;
  M_shortest_dist ←
    (λ of_M, shortest_dist (best_label_details of_M))
    <$> dict_item best_site_data M;
  X_shortest_dist ←
    (λ of_X, shortest_dist (best_label_details of_X))
    <$> dict_item best_site_data X;
  R_second_shortest_dist ←
    (λ of_R, second_shortest_dist (best_label_details of_R))
    <$> dict_item best_site_data R;
  M_second_shortest_dist ←
    (λ of_M, second_shortest_dist (best_label_details of_M))
    <$> dict_item best_site_data M;
  X_second_shortest_dist ←
    (λ of_X, second_shortest_dist (best_label_details of_X))
    <$> dict_item best_site_data X;
  R_shortest_dist_count ←
    (of_R ← dict_item best_site_data R;
     dict_item (counts (best_label_details of_R)) R_shortest_dist);
  M_shortest_dist_count ←
    (of_M ← dict_item best_site_data M;
     dict_item (counts (best_label_details of_M)) M_shortest_dist);
  X_shortest_dist_count ←
    (of_X ← dict_item best_site_data X;
     dict_item (counts (best_label_details of_X)) X_shortest_dist);
  R_second_shortest_dist_count ←
    (of_R ← dict_item best_site_data R;
     dict_item (counts (best_label_details of_R)) R_second_shortest_dist);
  M_second_shortest_dist_count ←
    (of_M ← dict_item best_site_data M;
     dict_item (counts (best_label_details of_M)) M_second_shortest_dist);
  X_second_shortest_dist_count ←
    (of_X ← dict_item best_site_data X;
     dict_item (counts (best_label_details of_X)) X_second_shortest_dist);
  R_avg_shortest_dist_count ←
    avg_shortest_dist <$> dict_item best_site_data R;
  M_avg_shortest_dist_count ←
    avg_shortest_dist <$> dict_item best_site_data M;
  X_avg_shortest_dist_count ←
    avg_shortest_dist <$> dict_item best_site_data X;
  R_avg_second_shortest_dist_count ←
    avg_second_shortest_dist_count <$> dict_item best_site_data R;
  M_avg_second_shortest_dist_count ←
    avg_second_shortest_dist_count <$> dict_item best_site_data M;
  X_avg_second_shortest_dist_count ←
    avg_second_shortest_dist_count <$> dict_item best_site_data M;
  avg_second_by_first_dist ←
    get_avg_second_by_first_shortest_dist_ratio
      first_second_dist_per_site_data connections;
  R_avg_second_by_first_shortest_dist ←
    avg_second_by_first_shortest_dist <$> dict_item avg_second_by_first_dist R;
  M_avg_second_by_first_shortest_dist ←
    avg_second_by_first_shortest_dist <$> dict_item avg_second_by_first_dist M;
  X_avg_second_by_first_shortest_dist ←
    avg_second_by_first_shortest_dist <$> dict_item avg_second_by_first_dist X;
  mret {|
    the_connections := connections;
    the_R := R;
    the_M := M;
    the_X := X;
    the_R_avg_homoatomic_dist_by_shortest_dist := R_avg_homoatomic_dist_by_shortest_dist;
    the_M_avg_homoatomic_dist_by_shortest_dist := M_avg_homoatomic_dist_by_shortest_dist;
    the_X_avg_homoatomic_dist_by_shortest_dist := X_avg_homoatomic_dist_by_shortest_dist;
    the_R_count_at_R_shortest_dist := R_count_at_R_shortest_dist;
    the_R_count_at_M_shortest_dist := R_count_at_M_shortest_dist;
    the_R_count_at_X_shortest_dist := R_count_at_X_shortest_dist;
    the_M_count_at_R_shortest_dist := M_count_at_R_shortest_dist;
    the_M_count_at_M_shortest_dist := M_count_at_M_shortest_dist;
    the_M_count_at_X_shortest_dist := M_count_at_X_shortest_dist;
    the_X_count_at_R_shortest_dist := X_count_at_R_shortest_dist;
    the_X_count_at_M_shortest_dist := X_count_at_M_shortest_dist;
    the_X_count_at_X_shortest_dist := X_count_at_X_shortest_dist;
    the_R_avg_count_at_R_shorest_dist := R_avg_count_at_R_shorest_dist;
    the_R_avg_count_at_M_shorest_dist := R_avg_count_at_M_shorest_dist;
    the_R_avg_count_at_X_shorest_dist := R_avg_count_at_X_shorest_dist;
    the_M_avg_count_at_R_shorest_dist := M_avg_count_at_R_shorest_dist;
    the_M_avg_count_at_M_shorest_dist := M_avg_count_at_M_shorest_dist;
    the_M_avg_count_at_X_shorest_dist := M_avg_count_at_X_shorest_dist;
    the_X_avg_count_at_R_shorest_dist := X_avg_count_at_R_shorest_dist;
    the_X_avg_count_at_M_shorest_dist := X_avg_count_at_M_shorest_dist;
    the_X_avg_count_at_X_shorest_dist := X_avg_count_at_X_shorest_dist;
    the_first_second_dist_per_site_data := first_second_dist_per_site_data;
    the_best_site_data := best_site_data;
    the_tol_results := tol_results;
    the_R_shortest_dist_count_within_tol := R_shortest_dist_count_within_tol;
    the_M_shortest_dist_count_within_tol := M_shortest_dist_count_within_tol;
    the_X_shortest_dist_count_within_tol := X_shortest_dist_count_within_tol;
    the_avg_tol_results := avg_tol_results;
    the_R_avg_shortest_dist_within_tol_count := R_avg_shortest_dist_within_tol_count;
    the_M_avg_shortest_dist_within_tol_count := M_avg_shortest_dist_within_tol_count;
    the_X_avg_shortest_dist_within_tol_count := X_avg_shortest_dist_within_tol_count;
    the_R_best_label := R_best_label;
    the_M_best_label := M_best_label;
    the_X_best_label := X_best_label;
    the_R_homoatomic_dist_by_shortest_dist := R_homoatomic_dist_by_shortest_dist;
    the_M_homoatomic_dist_by_shortest_dist := M_homoatomic_dist_by_shortest_dist;
    the_X_homoatomic_dist_by_shortest_dist := X_homoatomic_dist_by_shortest_dist;
    the_R_shortest_dist := R_shortest_dist;
    the_M_shortest_dist := M_shortest_dist;
    the_X_shortest_dist := X_shortest_dist;
    the_R_second_shortest_dist := R_second_shortest_dist;
    the_M_second_shortest_dist := M_second_shortest_dist;
    the_X_second_shortest_dist := X_second_shortest_dist;
    the_R_shortest_dist_count := R_shortest_dist_count;
    the_M_shortest_dist_count := M_shortest_dist_count;
    the_X_shortest_dist_count := X_shortest_dist_count;
    the_R_second_shortest_dist_count := R_second_shortest_dist_count;
    the_M_second_shortest_dist_count := M_second_shortest_dist_count;
    the_X_second_shortest_dist_count := X_second_shortest_dist_count;
    the_R_avg_shortest_dist_count := R_avg_shortest_dist_count;
    the_M_avg_shortest_dist_count := M_avg_shortest_dist_count;
    the_X_avg_shortest_dist_count := X_avg_shortest_dist_count;
    the_R_avg_second_shortest_dist_count := R_avg_second_shortest_dist_count;
    the_M_avg_second_shortest_dist_count := M_avg_second_shortest_dist_count;
    the_X_avg_second_shortest_dist_count := X_avg_second_shortest_dist_count;
    the_avg_second_by_first_dist := avg_second_by_first_dist;
    the_R_avg_second_by_first_shortest_dist := R_avg_second_by_first_shortest_dist;
    the_M_avg_second_by_first_shortest_dist := M_avg_second_by_first_shortest_dist;
    the_X_avg_second_by_first_shortest_dist := X_avg_second_by_first_shortest_dist;
  |}.

(** The dict of results (lines 100 to 161); its entries are evaluated in
    order, and the three quotients may raise. *)
Definition results_of (l : locals) : res (dict string num) :=
  R_second_by_first_shortest_dist ←
    distance_truediv (the_R_second_shortest_dist l) (the_R_shortest_dist l);
  M_second_by_first_shortest_dist ←
    distance_truediv (the_M_second_shortest_dist l) (the_M_shortest_dist l);
  X_second_by_first_shortest_dist ←
    distance_truediv (the_X_second_shortest_dist l) (the_X_shortest_dist l);
  mret [
    ("ENV_R_shortest_dist_count", the_R_shortest_dist_count l);
    ("ENV_M_shortest_dist_count", the_M_shortest_dist_count l);
    ("ENV_X_shortest_dist_count", the_X_shortest_dist_count l);
    ("ENV_R_avg_shortest_dist_count", the_R_avg_shortest_dist_count l);
    ("ENV_M_avg_shortest_dist_count", the_M_avg_shortest_dist_count l);
    ("ENV_X_avg_shortest_dist_count", the_X_avg_shortest_dist_count l);
    ("ENV_R_shortest_tol_dist_count", the_R_shortest_dist_count_within_tol l);
    ("ENV_M_shortest_tol_dist_count", the_M_shortest_dist_count_within_tol l);
    ("ENV_X_shortest_tol_dist_count", the_X_shortest_dist_count_within_tol l);
    ("ENV_R_avg_shortest_dist_within_tol_count", the_R_avg_shortest_dist_within_tol_count l);
    ("ENV_M_avg_shortest_dist_within_tol_count", the_M_avg_shortest_dist_within_tol_count l);
    ("ENV_X_avg_shortest_dist_within_tol_count", the_X_avg_shortest_dist_within_tol_count l);
    ("ENV_R_second_by_first_shortest_dist", R_second_by_first_shortest_dist);
    ("ENV_M_second_by_first_shortest_dist", M_second_by_first_shortest_dist);
    ("ENV_X_second_by_first_shortest_dist", X_second_by_first_shortest_dist);
    ("ENV_R_avg_second_by_first_shortest_dist", the_R_avg_second_by_first_shortest_dist l);
    ("ENV_M_avg_second_by_first_shortest_dist", the_M_avg_second_by_first_shortest_dist l);
    ("ENV_X_avg_second_by_first_shortest_dist", the_X_avg_second_by_first_shortest_dist l);
    ("ENV_R_second_shortest_dist_count", the_R_second_shortest_dist_count l);
    ("ENV_M_second_shortest_dist_count", the_M_second_shortest_dist_count l);
    ("ENV_X_second_shortest_dist_count", the_X_second_shortest_dist_count l);
    ("ENV_R_avg_second_shortest_dist_count", the_R_avg_second_shortest_dist_count l);
    ("ENV_M_avg_second_shortest_dist_count", the_M_avg_second_shortest_dist_count l);
    ("ENV_X_avg_second_shortest_dist_count", the_X_avg_second_shortest_dist_count l);
    ("ENV_R_homoatomic_dist_by_shortest_dist", the_R_homoatomic_dist_by_shortest_dist l);
    ("ENV_M_homoatomic_dist_by_shortest_dist", the_M_homoatomic_dist_by_shortest_dist l);
    ("ENV_X_homoatomic_dist_by_shortest_dist", the_X_homoatomic_dist_by_shortest_dist l);
    ("ENV_R_avg_homoatomic_dist_by_shortest_dist", the_R_avg_homoatomic_dist_by_shortest_dist l);
    ("ENV_M_avg_homoatomic_dist_by_shortest_dist", the_M_avg_homoatomic_dist_by_shortest_dist l);
    ("ENV_X_avg_homoatomic_dist_by_shortest_dist", the_X_avg_homoatomic_dist_by_shortest_dist l);
    ("ENV_R_count_at_R_shortest_dist", the_R_count_at_R_shortest_dist l);
    ("ENV_M_count_at_R_shortest_dist", the_M_count_at_R_shortest_dist l);
    ("ENV_X_count_at_R_shortest_dist", the_X_count_at_R_shortest_dist l);
    ("ENV_R_avg_count_at_R_shortest_dist", the_R_avg_count_at_R_shorest_dist l);
    ("ENV_M_avg_count_at_R_shortest_dist", the_M_avg_count_at_R_shorest_dist l);
    ("ENV_X_avg_count_at_R_shortest_dist", the_X_avg_count_at_R_shorest_dist l);
    ("ENV_R_count_at_M_shortest_dist", the_R_count_at_M_shortest_dist l);
    ("ENV_M_count_at_M_shortest_dist", the_M_count_at_M_shortest_dist l);
    ("ENV_X_count_at_M_shortest_dist", the_X_count_at_M_shortest_dist l);
    ("ENV_R_avg_count_at_M_shortest_dist", the_R_avg_count_at_M_shorest_dist l);
    ("ENV_M_avg_count_at_M_shortest_dist", the_M_avg_count_at_M_shorest_dist l);
    ("ENV_X_avg_count_at_M_shortest_dist", the_X_avg_count_at_M_shorest_dist l);
    ("ENV_R_count_at_X_shortest_dist", the_R_count_at_X_shortest_dist l);
    ("ENV_M_count_at_X_shortest_dist", the_M_count_at_X_shortest_dist l);
    ("ENV_X_count_at_X_shortest_dist", the_X_count_at_X_shortest_dist l);
    ("ENV_R_avg_count_at_X_shortest_dist", the_R_avg_count_at_X_shorest_dist l);
    ("ENV_M_avg_count_at_X_shortest_dist", the_M_avg_count_at_X_shorest_dist l);
    ("ENV_X_avg_count_at_X_shortest_dist", the_X_avg_count_at_X_shorest_dist l)
  ].

Definition compute_features (cif : Cif) : res (dict string num) :=
  l ← assignments cif;
  results_of l.
End ternary.

End Ternary.

(** ** Vocabulary of the statements *)

Module HelperSpec.
Import Helper.

(** A present record: a mapping holding an integer ["number_of_vertices"]. *)
Definition present (data : pyval) : Prop :=
  ∃ d z, data = PyDict d ∧ dict_get d "number_of_vertices" = Some (PyInt z).

Definition all_present (CN_metrics : dict string (dict string pyval)) : Prop :=
  ∀ site_label method_data method data,
    (site_label, method_data) ∈ CN_metrics → (method, data) ∈ method_data →
    present data.

(** Keys are unique at both levels, as in any Python dict. *)
Definition nested_wf {V} (d : dict string (dict string V)) : Prop :=
  dict_wf d ∧ ∀ k inner, (k, inner) ∈ d → dict_wf inner.

(** Every site of [CN_metrics] has its connections, and the labels of its
    neighbours are understood by the label parser. *)
Definition connections_cover (get_atom_type_from_label : string → res string)
    (label_connections : dict string (list connection))
    (CN_metrics : dict string (dict string pyval)) : Prop :=
  ∀ site_label method_data, (site_label, method_data) ∈ CN_metrics →
    ∃ of_label, dict_get label_connections site_label = Some of_label ∧
      Forall (λ c, is_Ok (get_atom_type_from_label (conn_0 c))) of_label.

(** The same site labels and, under each site label, the same method keys. *)
Definition same_keys {V W} (d : dict string (dict string V))
    (d' : dict string (dict string W)) : Prop :=
  keys d' = keys d ∧
  ∀ site_label, keys <$> dict_get d' site_label = keys <$> dict_get d site_label.

(** A counting run keeps the sites and methods: whenever it returns, its
    output has the keys of [CN_metrics], and it does return when every entry
    is a present record and the connections cover the sites. *)
Definition keeps_sites_and_methods
    (get_atom_type_from_label : string → res string)
    (label_connections : dict string (list connection))
    (CN_metrics : dict string (dict string pyval))
    (run : res (dict string (dict string pyval))) : Prop :=
  (∀ out, run = Ok out → same_keys CN_metrics out) ∧
  (all_present CN_metrics →
   connections_cover get_atom_type_from_label label_connections CN_metrics →
   is_Ok run).

(** The loops that the three counting functions have in common; [record_of]
    stands for the innermost loop and the record built from its counters. *)
Definition count_per_site_and_method
    (record_of : list connection → res (dict string num))
    (label_connections : dict string (list connection))
    (CN_metrics : dict string (dict string pyval))
  : res (dict string (dict string pyval)) :=
  for_res CN_metrics (λ CN_atom_count_data '(site_label, method_data),
    of_site ← for_res method_data (λ of_site '(method, data),
      CN ← subscript data "number_of_vertices";
      of_label ← dict_item label_connections site_label;
      CN_connections ← slice_to of_label CN;
      counts ← record_of CN_connections;
      mret (dict_set method (PyDict counts) of_site)) [];
    mret (dict_set site_label of_site CN_atom_count_data)) [].

(** What [get_CN_metrics_per_method] does with one (site, method) pair, as
    far as its result is concerned: the pair is skipped, or it is given
    [None] after a failed hull construction, or it is given the metrics. *)
Section pairs.
Context {hull : Type}.
Variable ConvexHull : list point → res hull.
Variable compute_polyhedron_metrics : list point → hull → res pyval.

(** The hull construction is attempted for the shell and raises. *)
Definition hull_fails (connection_data : list connection) : Prop :=
  (3 < length connection_data)%nat ∧
  ∃ polyhedron_points,
    polyhedron_points_of connection_data = Ok polyhedron_points ∧
    is_Raise (ConvexHull polyhedron_points).

#[global] Instance hull_fails_dec connection_data :
  Decision (hull_fails connection_data).
Proof.
  unfold hull_fails.
  destruct (decide (3 < length connection_data)%nat) as [Hlen|Hlen];
    [|right; tauto].
  destruct (polyhedron_points_of connection_data) as [pts|e] eqn:Hpts.
  - destruct (ConvexHull pts) as [h|e] eqn:Hhull.
    + right. intros (_ & pts' & [= <-] & e & He). congruence.
    + left. split; [done|]. exists pts. split; [done|]. by exists e.
  - right. by intros (_ & pts' & ? & _).
Defined.

(** The entry stored for a pair, if one is stored. *)
Definition entry_of (connection_data : list connection) : option pyval :=
  if decide (3 < length connection_data)%nat then
    match polyhedron_points_of connection_data with
    | Ok polyhedron_points =>
        match ConvexHull polyhedron_points with
        | Ok hull =>
            match compute_polyhedron_metrics polyhedron_points hull with
            | Ok polyhedron_metrics => Some polyhedron_metrics
            | Raise _ => None
            end
        | Raise _ => Some PyNone
        end
    | Raise _ => None
    end
  else None.

(** The entries of one site after the loop over its methods. *)
Definition entries_of_site (connections : dict string (list connection))
    (label : string) (CN_data_per_method : dict string CN_data)
  : dict string pyval :=
  foldl (λ site_data_label item,
           match entry_of (py_slice_to (default [] (dict_get connections label))
                             (CN item.2)) with
           | Some polyhedron_metrics =>
               dict_set item.1 polyhedron_metrics site_data_label
           | None => site_data_label
           end) [] CN_data_per_method.

(** The diagnostics of a run, in the order of the sites and of their
    methods: one for each pair whose hull construction fails. *)
Definition diagnostics_of_site (connections : dict string (list connection))
    (label : string) (CN_data_per_method : dict string CN_data)
  : list string :=
  '(method, CN_data) ← CN_data_per_method;
  of_label ← option_list (dict_get connections label);
  if decide (hull_fails (py_slice_to of_label (CN CN_data)))
  then [diagnostic label method] else [].

Definition diagnostics (cif : Cif) : list string :=
  '(label, CN_data_per_method) ← CN_max_gap_per_site cif;
  diagnostics_of_site (connections cif) label CN_data_per_method.
End pairs.

(** The innermost loop of each counting function, with the record that is
    stored for the pair. *)
Section records.
Variable get_atom_type_from_label : string → res string.

Definition binary_record (A B : string)
    (CN_connections : list connection) : res (dict string num) :=
  '(A_element_count, B_element_count) ←
    for_res CN_connections (λ '(A_element_count, B_element_count) connection,
      let connected_label := conn_0 connection in
      parsed_label ← get_atom_type_from_label connected_label;
      if decide (parsed_label = A) then
        mret (A_element_count + 1, B_element_count)
      else if decide (parsed_label = B) then
        mret (A_element_count, B_element_count + 1)
      else mret (A_element_count, B_element_count)) (0, 0);
  mret [("A_count", PyInt A_element_count); ("B_count", PyInt B_element_count)].

Definition ternary_record (R M X : string)
    (CN_connections : list connection) : res (dict string num) :=
  '(R_element_count, M_element_count, X_element_count) ←
    for_res CN_connections (λ '(R_element_count, M_element_count, X_element_count) connection,
      let connected_label := conn_0 connection in
      parsed_label ← get_atom_type_from_label connected_label;
      if decide (parsed_label = R) then
        mret (R_element_count + 1, M_element_count, X_element_count)
      else if decide (parsed_label = M) then
        mret (R_element_count, M_element_count + 1, X_element_count)
      else if decide (parsed_label = X) then
        mret (R_element_count, M_element_count, X_element_count + 1)
      else mret (R_element_count, M_element_count, X_element_count)) (0, 0, 0);
  mret [("R_count", PyInt R_element_count); ("M_count", PyInt M_element_count); ("X_count", PyInt X_element_count)].

Definition quaternary_record (A B C D : string)
    (CN_connections : list connection) : res (dict string num) :=
  '(A_element_count, B_element_count, C_element_count, D_element_count) ←
    for_res CN_connections (λ '(A_element_count, B_element_count, C_element_count, D_element_count) connection,
      let connected_label := conn_0 connection in
      parsed_label ← get_atom_type_from_label connected_label;
      if decide (parsed_label = A) then
        mret (A_element_count + 1, B_element_count, C_element_count, D_element_count)
      else if decide (parsed_label = B) then
        mret (A_element_count, B_element_count + 1, C_element_count, D_element_count)
      else if decide (parsed_label = C) then
        mret (A_element_count, B_element_count, C_element_count + 1, D_element_count)
      else if decide (parsed_label = D) then
        mret (A_element_count, B_element_count, C_element_count, D_element_count + 1)
      else mret (A_element_count, B_element_count, C_element_count, D_element_count)) (0, 0, 0, 0);
  mret [("A_count", PyInt A_element_count); ("B_count", PyInt B_element_count); ("C_count", PyInt C_element_count); ("D_count", PyInt D_element_count)].

End records.

(** The scenario of a two-element structure: site Th1 with the neighbours
    Sb1, Sb2, Sb3, Sb4 and Th2, nearest first, and CN = 4 under method m1.
    The positions are arbitrary. *)
Definition scenario_connections (center p1 p2 p3 p4 p5 : point)
  : list connection :=
  [{| conn_0 := "Sb1"; conn_1 := Q2Qc (29 # 10); conn_2 := center; conn_3 := p1 |};
   {| conn_0 := "Sb2"; conn_1 := Q2Qc 3; conn_2 := center; conn_3 := p2 |};
   {| conn_0 := "Sb3"; conn_1 := Q2Qc (305 # 100); conn_2 := center; conn_3 := p3 |};
   {| conn_0 := "Sb4"; conn_1 := Q2Qc (31 # 10); conn_2 := center; conn_3 := p4 |};
   {| conn_0 := "Th2"; conn_1 := Q2Qc (33 # 10); conn_2 := center; conn_3 := p5 |}].

Definition scenario (center p1 p2 p3 p4 p5 : point) : Cif :=
  {| unique_elements := ["Th"; "Sb"];
     connections := [("Th1", scenario_connections center p1 p2 p3 p4 p5)];
     CN_max_gap_per_site := [("Th1", [("m1", {| CN := 4 |})])] |}.

(** The label parser reads the five labels of the scenario as expected. *)
Definition parses_scenario (get_atom_type_from_label : string → res string)
  : Prop :=
  get_atom_type_from_label "Sb1" = Ok "Sb" ∧
  get_atom_type_from_label "Sb2" = Ok "Sb" ∧
  get_atom_type_from_label "Sb3" = Ok "Sb" ∧
  get_atom_type_from_label "Sb4" = Ok "Sb" ∧
  get_atom_type_from_label "Th2" = Ok "Th".

(** The record of a (site, method) pair in a role count of a two-element
    structure. *)
Definition role_count (A_count B_count : Z) : pyval :=
  PyDict [("A_count", PyInt A_count); ("B_count", PyInt B_count)].

(** The statistics of [metric] at the sites that report it, in the order of
    the sites, and the values of one statistic among them. *)
Definition sites_reporting (metric : string)
    (min_max_avg_result : dict string (dict string stats)) : list stats :=
  omap (λ item, dict_get item.2 metric) min_max_avg_result.

Definition reported (st : stat) (metric : string)
    (min_max_avg_result : dict string (dict string stats)) : list num :=
  (λ values, stats_item values st) <$> sites_reporting metric min_max_avg_result.

(** The mean of a list of reported values as it is stored, absent when
    nothing is reported. *)
Definition mean_of (l : list num) : option num :=
  match l with
  | [] => None
  | _ => Some (PyFloat (mean l))
  end.


(** The same values read off the sequence of (metric, statistics) items that
    the summing loop goes through, and the running sum and count that the
    loop keeps for them. *)
Definition contributions (st : stat) (metric : string)
    (items : list (string * stats)) : list num :=
  (λ item, stats_item item.2 st) <$> filter (λ item, item.1 = metric) items.

Definition sum_of (l : list num) : option num :=
  match l with
  | [] => None
  | _ => Some (py_sum l)
  end.

Definition count_of (l : list num) : option num :=
  match l with
  | [] => None
  | _ => Some (py_len l)
  end.

(** What the summing loop holds for one statistic after the items [items]. *)
Definition sums_after (st : stat) (items : list (string * stats))
    (sums counts : dict string num) : Prop :=
  dict_wf sums ∧
  ∀ metric,
    dict_get sums metric = sum_of (contributions st metric items) ∧
    dict_get counts metric = count_of (contributions st metric items).

Definition all_sums_after (items : list (string * stats))
    (acc : by_stat (dict string num) * by_stat (dict string num)) : Prop :=
  ∀ st, sums_after st items (by_stat_item acc.1 st) (by_stat_item acc.2 st).

(** The values of [key] in the records of the methods of a site, in the
    order of the methods; a method without entry or without the key
    contributes nothing. *)
Definition collected (key : string) (of_label : dict string pyval) : list num :=
  omap (λ item, match item.2 with
                | PyDict d => dict_get d key
                | PyNone => None
                end) of_label.






End HelperSpec.

(** ** Sample collaborators and inputs *)

Module Samples.
Import Helper.

Definition is_letter (a : Ascii.ascii) : bool :=
  let n := Ascii.nat_of_ascii a in
  ((65 <=? n)%nat && (n <=? 90)%nat) || ((97 <=? n)%nat && (n <=? 122)%nat).

(** A label parser: the leading letters of the label. *)
Fixpoint leading_letters (s : string) : string :=
  match s with
  | EmptyString => EmptyString
  | String a s' =>
      if is_letter a then String a (leading_letters s') else EmptyString
  end.

Definition atom_type (s : string) : res string := Ok (leading_letters s).

(** A hull construction that always succeeds, and one that never does. *)
Definition hull_ok (pts : list point) : res unit := Ok tt.
Definition hull_fail (pts : list point) : res unit :=
  Raise (CustomError "QhullError").

(** Metrics that report every point but the last as a vertex. *)
Definition metrics_ok (pts : list point) (h : unit) : res pyval :=
  Ok (PyDict [("volume", PyFloat 1%Qc);
              ("number_of_vertices", PyInt (Z.of_nat (length pts) - 1))]).

Definition two (l : list string) : res (string * string) :=
  match l with
  | [a; b] => Ok (a, b)
  | _ => Raise ValueError
  end.
Definition three (l : list string) : res (string * string * string) :=
  match l with
  | [a; b; c] => Ok (a, b, c)
  | _ => Raise ValueError
  end.
Definition four (l : list string) : res (string * string * string * string) :=
  match l with
  | [a; b; c; d] => Ok (a, b, c, d)
  | _ => Raise ValueError
  end.

Definition origin : point := [0%Qc; 0%Qc; 0%Qc].
Definition east : point := [1%Qc; 0%Qc; 0%Qc].
Definition north : point := [0%Qc; 1%Qc; 0%Qc].
Definition up : point := [0%Qc; 0%Qc; 1%Qc].
Definition west : point := [(- 1)%Qc; 0%Qc; 0%Qc].
Definition south : point := [0%Qc; (- 1)%Qc; 0%Qc].

Definition neighbour (label : string) (d : Q) (position : list Q) : connection :=
  {| conn_0 := label; conn_1 := Q2Qc d; conn_2 := origin;
     conn_3 := Q2Qc <$> position |}.

(** The neighbours of site Th1, nearest first. *)
Definition Th1_connections : list connection :=
  [neighbour "Sb1" (29 # 10) [29 # 10; 0; 0]%Q;
   neighbour "Sb2" 3 [0; 3; 0]%Q;
   neighbour "Sb3" (305 # 100) [0; 0; 305 # 100]%Q;
   neighbour "Sb4" (31 # 10) [- (31 # 10); 0; 0]%Q;
   neighbour "Th2" (33 # 10) [0; - (33 # 10); 0]%Q].

Definition Th_Sb (CN_of_m1 : Z) (elements : list string) : Cif :=
  {| unique_elements := elements;
     connections := [("Th1", Th1_connections)];
     CN_max_gap_per_site := [("Th1", [("m1", {| CN := CN_of_m1 |})])] |}.

Definition Th_Sb_two_methods (CN_of_m1 CN_of_m2 : Z) : Cif :=
  {| unique_elements := ["Th"; "Sb"];
     connections := [("Th1", Th1_connections)];
     CN_max_gap_per_site :=
       [("Th1", [("m1", {| CN := CN_of_m1 |}); ("m2", {| CN := CN_of_m2 |})])] |}.

Definition Th1_label_connections : dict string (list connection) :=
  [("Th1", Th1_connections)].

(** Metrics with a present record for the pair (Th1, m1). *)
Definition present_CN_metrics (number_of_vertices : Z)
  : dict string (dict string pyval) :=
  [("Th1", [("m1", PyDict [("volume", PyFloat 1%Qc);
                           ("number_of_vertices", PyInt number_of_vertices)])])].

(** Metrics as they are after a failed hull construction for (Th1, m1) and a
    successful one for (Th1, m2). *)
Definition absent_CN_metrics : dict string (dict string pyval) :=
  [("Th1", [("m1", PyNone);
            ("m2", PyDict [("volume", PyFloat 1%Qc);
                           ("number_of_vertices", PyInt 4)])])].

(** Raw data of two sites, the second of which reports no volume. *)
Definition two_sites : dict string (dict string pyval) :=
  [("Th1", [("m1", PyDict [("volume", PyFloat 1%Qc);
                           ("number_of_vertices", PyInt 4)]);
            ("m2", PyDict [("volume", PyFloat 2%Qc);
                           ("number_of_vertices", PyInt 5)])]);
   ("Sb1", [("m1", PyDict [("number_of_vertices", PyInt 6)])])].

(** A level-1 output for the same two sites. *)
Definition two_sites_min_max_avg : dict string (dict string stats) :=
  [("Th1", [("volume",
             {| s_min := PyFloat 1%Qc; s_max := PyFloat 2%Qc;
                s_avg := PyFloat 1%Qc |});
            ("number_of_vertices",
             {| s_min := PyInt 4; s_max := PyInt 5; s_avg := PyFloat 2%Qc |})]);
   ("Sb1", [("number_of_vertices",
             {| s_min := PyInt 6; s_max := PyInt 6; s_avg := PyInt 6 |})])].

End Samples.

(** ** Vocabulary and samples for [ternary.py] *)

Module TernarySpec.
Import Helper Ternary.

(** The three divisors of the second-by-first ratios are nonzero. *)
Definition shortest_dists_nonzero {first_second} (l : @locals first_second)
  : Prop :=
  the_R_shortest_dist l ≠ 0%Qc ∧ the_M_shortest_dist l ≠ 0%Qc ∧
  the_X_shortest_dist l ≠ 0%Qc.

(** The shortest distance of the best label of an element. *)
Definition best_label_shortest_dist (best_site_data : dict string best_site)
    (element : string) : option Qc :=
  (λ of_element, shortest_dist (best_label_details of_element))
  <$> dict_get best_site_data element.

End TernarySpec.

Module TernarySamples.
Import Helper Ternary.

Definition La_Ni_Ge : Cif :=
  {| unique_elements := ["La"; "Ni"; "Ge"];
     connections := [];
     CN_max_gap_per_site := [] |}.

Definition three_of (n : num) : res num3 := Ok (n, n, n).
Definition nine_of (n : num) : res num9 := Ok (n, n, n, n, n, n, n, n, n).

(** The best site of an element: its shortest distance, its second shortest
    distance (3) and the average count at the second shortest distance. *)
Definition site_with (label : string) (shortest : Qc)
    (avg_second_count : num) : best_site :=
  {| best_label := label;
     best_label_details :=
       {| shortest_dist := shortest;
          second_shortest_dist := Qc_of_Z 3;
          counts := [(shortest, PyInt 4); (Qc_of_Z 3, PyInt 2)] |};
     avg_shortest_dist := PyFloat 1%Qc;
     avg_second_shortest_dist_count := avg_second_count |}.

(** Best sites where the values of M (Ni) and X (Ge) differ. *)
Definition best_sites (shortest_of_Ge : Qc) : dict string best_site :=
  [("La", site_with "La1" 2%Qc (PyFloat 1%Qc));
   ("Ni", site_with "Ni1" 2%Qc (PyFloat 2%Qc));
   ("Ge", site_with "Ge1" shortest_of_Ge (PyFloat (Qc_of_Z 5)))].

Definition per_element {A} (a : A) : dict string A :=
  [("La", a); ("Ni", a); ("Ge", a)].

(** A run with the division [distance_truediv] of the distances. *)
Definition run_with (distance_truediv : Qc → Qc → res num)
    (shortest_of_Ge : Qc) : res (dict string num) :=
  compute_features (first_second := unit)
    Samples.three
    (λ _ _ _ _, three_of (PyFloat 1%Qc))
    (λ _ _ _ _, nine_of (PyInt 1))
    (λ _ _ _ _, nine_of (PyFloat 1%Qc))
    (λ _, Ok tt)
    (λ _, Ok (best_sites shortest_of_Ge))
    (λ _ _, Ok (per_element {| shortest_dist_count_within_tol := PyInt 4 |}))
    (λ _, Ok (per_element {| avg_shortest_dist_within_tol_count := PyFloat 1%Qc |}))
    (λ _ _, Ok (per_element {| avg_second_by_first_shortest_dist := PyFloat 1%Qc |}))
    (λ _ _ _ _, three_of (PyFloat 1%Qc))
    distance_truediv
    La_Ni_Ge.

(** A run with distances of the built-in type [float]. *)
Definition run : Qc → res (dict string num) := run_with float_div.

(** A division that returns on every divisor, as that of NumPy's floats
    does; [at_zero] stands for what it returns on a zero divisor (NumPy's
    is [inf] or [nan], which the numbers at hand do not have). *)
Definition returning_div (at_zero : num) (a b : Qc) : res num :=
  Ok (if decide (b = 0%Qc) then at_zero else PyFloat (a / b)%Qc).

End TernarySamples.

(** ** Vocabulary for the further properties *)

Module ExtraSpec.
Import Helper HelperSpec.

(** Some (site, method) entry is [None]. *)
Definition has_None (site_data : dict string (dict string pyval)) : Prop :=
  ∃ label of_label method,
    (label, of_label) ∈ site_data ∧ (method, PyNone) ∈ of_label.

(** The [int] values are within the range of [float], also when those of
    the methods of a site are added up: no sum of them is too large to be
    converted to [float] or divided. *)
Definition ints_within_float_range
    (site_data : dict string (dict string pyval)) : Prop :=
  ∀ label of_label method d key z,
    (label, of_label) ∈ site_data → (method, PyDict d) ∈ of_label →
    (key, PyInt z) ∈ d →
    Z.abs z * Z.of_nat (length of_label) < 2 ^ 1023.

(** The lists of a site while they are collected: unique names, and no
    empty list. *)
Definition collecting (metrics : dict string (list num)) : Prop :=
  dict_wf metrics ∧ ∀ key l, dict_get metrics key = Some l → l ≠ [].

(** Some site reports [metric]. *)
Definition reported_somewhere (metric : string)
    (min_max_avg_result : dict string (dict string stats)) : Prop :=
  ∃ label label_data,
    (label, label_data) ∈ min_max_avg_result ∧ metric ∈ keys label_data.


(** A neighbour counts for [role] when its label is parsed as [role] and
    as none of the roles tested before it. *)
Definition counts_as (get_atom_type_from_label : string → res string)
    (role : string) (earlier : list string) (c : connection) : bool :=
  match get_atom_type_from_label (conn_0 c) with
  | Ok parsed_label =>
      bool_decide (parsed_label = role) && bool_decide (parsed_label ∉ earlier)
  | Raise _ => false
  end.

Definition counted (get_atom_type_from_label : string → res string)
    (role : string) (earlier : list string) (cs : list connection) : Z :=
  Z.of_nat (length (filter (counts_as get_atom_type_from_label role earlier) cs)).

(** A (site, method) entry that the counting functions can use: a record
    with an integer ["number_of_vertices"], at a site that has connections,
    the labels of the neighbours that are counted being understood by the
    label parser. *)
Definition usable (get_atom_type_from_label : string → res string)
    (label_connections : dict string (list connection))
    (site_label : string) (data : pyval) : Prop :=
  ∃ d z of_label,
    data = PyDict d ∧
    dict_get d "number_of_vertices" = Some (PyInt z) ∧
    dict_get label_connections site_label = Some of_label ∧
    Forall (λ c, is_Ok (get_atom_type_from_label (conn_0 c)))
      (py_slice_to of_label z).

Definition all_usable (get_atom_type_from_label : string → res string)
    (label_connections : dict string (list connection))
    (CN_metrics : dict string (dict string pyval)) : Prop :=
  ∀ site_label method_data method data,
    (site_label, method_data) ∈ CN_metrics → (method, data) ∈ method_data →
    usable get_atom_type_from_label label_connections site_label data.

Section engine.
Context {hull : Type}.
Variable ConvexHull : list point → res hull.
Variable compute_polyhedron_metrics : list point → hull → res pyval.

(** A (site, method) pair that the metrics engine gets through: the site
    has connections and, when the shell has more than three neighbours and
    its hull is built, the metrics primitive returns. *)
Definition computable (connections : dict string (list connection))
    (label : string) (CN_data : CN_data) : Prop :=
  ∃ of_label,
    dict_get connections label = Some of_label ∧
    ∀ polyhedron_points hull,
      (3 < length (py_slice_to of_label (CN CN_data)))%nat →
      polyhedron_points_of (py_slice_to of_label (CN CN_data))
      = Ok polyhedron_points →
      ConvexHull polyhedron_points = Ok hull →
      is_Ok (compute_polyhedron_metrics polyhedron_points hull).

Definition all_computable (cif : Cif) : Prop :=
  ∀ label CN_data_per_method method CN_data,
    (label, CN_data_per_method) ∈ CN_max_gap_per_site cif →
    (method, CN_data) ∈ CN_data_per_method →
    computable (connections cif) label CN_data.
End engine.


End ExtraSpec.

Module ExtraSamples.
Import Helper.

(** A structure whose two sites have no method. *)
Definition no_methods : Cif :=
  {| unique_elements := ["Th"; "Sb"];
     connections := [];
     CN_max_gap_per_site := [("Th1", []); ("Sb1", [])] |}.

End ExtraSamples.

Module TernaryExtraSpec.
Import Helper Ternary.

(** The names of the features, in the order of the dict of results
    (lines 100 to 160). *)
Definition feature_names : list string :=
  [
   "ENV_R_shortest_dist_count";
   "ENV_M_shortest_dist_count";
   "ENV_X_shortest_dist_count";
   "ENV_R_avg_shortest_dist_count";
   "ENV_M_avg_shortest_dist_count";
   "ENV_X_avg_shortest_dist_count";
   "ENV_R_shortest_tol_dist_count";
   "ENV_M_shortest_tol_dist_count";
   "ENV_X_shortest_tol_dist_count";
   "ENV_R_avg_shortest_dist_within_tol_count";
   "ENV_M_avg_shortest_dist_within_tol_count";
   "ENV_X_avg_shortest_dist_within_tol_count";
   "ENV_R_second_by_first_shortest_dist";
   "ENV_M_second_by_first_shortest_dist";
   "ENV_X_second_by_first_shortest_dist";
   "ENV_R_avg_second_by_first_shortest_dist";
   "ENV_M_avg_second_by_first_shortest_dist";
   "ENV_X_avg_second_by_first_shortest_dist";
   "ENV_R_second_shortest_dist_count";
   "ENV_M_second_shortest_dist_count";
   "ENV_X_second_shortest_dist_count";
   "ENV_R_avg_second_shortest_dist_count";
   "ENV_M_avg_second_shortest_dist_count";
   "ENV_X_avg_second_shortest_dist_count";
   "ENV_R_homoatomic_dist_by_shortest_dist";
   "ENV_M_homoatomic_dist_by_shortest_dist";
   "ENV_X_homoatomic_dist_by_shortest_dist";
   "ENV_R_avg_homoatomic_dist_by_shortest_dist";
   "ENV_M_avg_homoatomic_dist_by_shortest_dist";
   "ENV_X_avg_homoatomic_dist_by_shortest_dist";
   "ENV_R_count_at_R_shortest_dist";
   "ENV_M_count_at_R_shortest_dist";
   "ENV_X_count_at_R_shortest_dist";
   "ENV_R_avg_count_at_R_shortest_dist";
   "ENV_M_avg_count_at_R_shortest_dist";
   "ENV_X_avg_count_at_R_shortest_dist";
   "ENV_R_count_at_M_shortest_dist";
   "ENV_M_count_at_M_shortest_dist";
   "ENV_X_count_at_M_shortest_dist";
   "ENV_R_avg_count_at_M_shortest_dist";
   "ENV_M_avg_count_at_M_shortest_dist";
   "ENV_X_avg_count_at_M_shortest_dist";
   "ENV_R_count_at_X_shortest_dist";
   "ENV_M_count_at_X_shortest_dist";
   "ENV_X_count_at_X_shortest_dist";
   "ENV_R_avg_count_at_X_shortest_dist";
   "ENV_M_avg_count_at_X_shortest_dist";
   "ENV_X_avg_count_at_X_shortest_dist"
  ].

(** The outputs of the role with letter [letter] that are read from the
    best site [of_role] of that role: the counts at the shortest and at the
    second shortest distance of the site, and the average count at the
    shortest distance. *)
Definition own_site_outputs (results : dict string num) (letter : string)
    (of_role : best_site) : Prop :=
  let details := best_label_details of_role in
  is_Some (dict_get (counts details) (shortest_dist details)) ∧
  is_Some (dict_get (counts details) (second_shortest_dist details)) ∧
  dict_get results ("ENV_" +:+ letter +:+ "_shortest_dist_count")
  = dict_get (counts details) (shortest_dist details) ∧
  dict_get results ("ENV_" +:+ letter +:+ "_second_shortest_dist_count")
  = dict_get (counts details) (second_shortest_dist details) ∧
  dict_get results ("ENV_" +:+ letter +:+ "_avg_shortest_dist_count")
  = Some (avg_shortest_dist of_role).

(** The outputs of the role with letter [letter] that are read from the
    three dicts keyed by element, at the element [role]. *)
Definition per_element_outputs (results : dict string num) (letter : string)
    (role : string) (tol_results : dict string tol_result)
    (avg_tol_results : dict string avg_tol_result)
    (avg_second_by_first_dist : dict string avg_ratio) : Prop :=
  dict_get results ("ENV_" +:+ letter +:+ "_shortest_tol_dist_count")
  = shortest_dist_count_within_tol <$> dict_get tol_results role ∧
  dict_get results ("ENV_" +:+ letter +:+ "_avg_shortest_dist_within_tol_count")
  = avg_shortest_dist_within_tol_count <$> dict_get avg_tol_results role ∧
  dict_get results ("ENV_" +:+ letter +:+ "_avg_second_by_first_shortest_dist")
  = avg_second_by_first_shortest_dist
    <$> dict_get avg_second_by_first_dist role ∧
  is_Some (dict_get tol_results role) ∧
  is_Some (dict_get avg_tol_results role) ∧
  is_Some (dict_get avg_second_by_first_dist role).

(** The local variables that are read from the best site [of_role] of a
    role: the two distances, the counts at these distances and the average
    count at the shortest distance. *)
Definition read_from_site (of_role : best_site) (dist second : Qc)
    (dist_count second_count avg_count : num) : Prop :=
  let details := best_label_details of_role in
  dist = shortest_dist details ∧
  second = second_shortest_dist details ∧
  dict_get (counts details) dist = Some dist_count ∧
  dict_get (counts details) second = Some second_count ∧
  avg_count = avg_shortest_dist of_role.

End TernaryExtraSpec.

(** ** Facts about dictionaries *)

Section dict_facts.
Context {K V : Type} `{EqDecision K}.
Implicit Types (d : dict K V) (k : K) (v : V).

Lemma dict_get_set_eq k v d : dict_get (dict_set k v d) k = Some v.
Proof.
  induction d as [|[k' v'] d IH]; simpl.
  - by rewrite decide_True.
  - destruct (decide (k = k')) as [->|Hne]; simpl.
    + by rewrite decide_True.
    + by rewrite decide_False.
Qed.

Lemma dict_get_set_ne k k' v d :
  k ≠ k' → dict_get (dict_set k v d) k' = dict_get d k'.
Proof.
  intros Hne. induction d as [|[k0 v0] d IH]; simpl.
  - by rewrite decide_False.
  - destruct (decide (k = k0)) as [->|Hne0]; simpl.
    + by rewrite !decide_False.
    + by rewrite IH.
Qed.

Lemma dict_get_set k k' v d :
  dict_get (dict_set k v d) k' =
  if decide (k = k') then Some v else dict_get d k'.
Proof.
  destruct (decide (k = k')) as [->|Hne].
  - apply dict_get_set_eq.
  - by apply dict_get_set_ne.
Qed.

Lemma dict_get_None d k : dict_get d k = None ↔ k ∉ keys d.
Proof.
  unfold keys. induction d as [|[k' v'] d IH]; simpl.
  - split; [intros _; apply not_elem_of_nil | done].
  - rewrite not_elem_of_cons. destruct (decide (k = k')) as [->|Hne].
    + split; [done | intros [? _]; done].
    + rewrite IH. tauto.
Qed.

Lemma dict_get_elem_of d k v : dict_get d k = Some v → (k, v) ∈ d.
Proof.
  induction d as [|[k' v'] d IH]; simpl; [done|].
  destruct (decide (k = k')) as [->|Hne].
  - intros [= ->]. apply list_elem_of_here.
  - intros H. apply list_elem_of_further. auto.
Qed.

Lemma dict_wf_get d k v : dict_wf d → (k, v) ∈ d → dict_get d k = Some v.
Proof.
  unfold dict_wf, keys. induction d as [|[k' v'] d IH]; simpl.
  - intros _ H. by apply elem_of_nil in H.
  - rewrite NoDup_cons. intros [Hnotin Hnd] Hin.
    apply elem_of_cons in Hin as [[= -> ->]|Hin].
    + by rewrite decide_True.
    + destruct (decide (k = k')) as [->|Hne]; [|by apply IH].
      exfalso. apply Hnotin.
      apply list_elem_of_fmap. by exists (k', v).
Qed.

Lemma keys_set k v d :
  keys (dict_set k v d) = if decide (k ∈ keys d) then keys d else keys d ++ [k].
Proof.
  unfold keys. induction d as [|[k' v'] d IH]; [done|].
  cbn [dict_set]. rewrite (fmap_cons fst (k', v') d). cbn [fst].
  destruct (decide (k = k')) as [->|Hne].
  - rewrite fmap_cons. cbn [fst].
    clear IH. case_decide as Hin; [done|]. exfalso. apply Hin, list_elem_of_here.
  - rewrite fmap_cons, IH. cbn [fst].
    destruct (decide (k ∈ d.*1)) as [Hin|Hnin]; case_decide as Hin'; try done.
    + exfalso. apply Hin'. by apply list_elem_of_further.
    + apply elem_of_cons in Hin' as [?|?]; done.
Qed.

Lemma dict_wf_set k v d : dict_wf d → dict_wf (dict_set k v d).
Proof.
  unfold dict_wf. rewrite keys_set. intros Hnd.
  destruct (decide (k ∈ keys d)) as [Hin|Hnin]; [done|].
  apply NoDup_app. split_and!; [done | | apply NoDup_singleton].
  intros x Hx Hx'. apply list_elem_of_singleton in Hx' as ->. done.
Qed.

Lemma dict_wf_nil : dict_wf ([] : dict K V).
Proof. apply NoDup_nil_2. Qed.
End dict_facts.

Section dict_relate.
Context {K V W : Type} `{EqDecision K}.

Lemma dict_set_fresh (k : K) (v : V) (d : dict K V) :
  k ∉ keys d → dict_set k v d = d ++ [(k, v)].
Proof.
  unfold keys. induction d as [|[k' v'] d IH]; [done|].
  rewrite fmap_cons. cbn [fst dict_set]. rewrite not_elem_of_cons.
  intros [Hne Hnin]. rewrite decide_False by done. by rewrite IH.
Qed.


Lemma dict_rel_keys (R : K → V → W → Prop) (d : dict K V) (d' : dict K W) :
  dict_rel R d d' → keys d' = keys d.
Proof.
  unfold keys. induction 1 as [|[k v] [k' w] d d' [Hk _] _ IH]; [done|].
  rewrite !fmap_cons. simpl in *. by rewrite IH, Hk.
Qed.

Lemma dict_rel_get (R : K → V → W → Prop) (d : dict K V) (d' : dict K W) k :
  dict_rel R d d' → option_Forall2 (R k) (dict_get d k) (dict_get d' k).
Proof.
  induction 1 as [|[k0 v] [k' w] d d' [Hk HR] _ IH]; simpl in *.
  - constructor.
  - subst k'. destruct (decide (k = k0)) as [->|Hne]; [by constructor | done].
Qed.
End dict_relate.

(** ** Facts about loops *)

Section loop_facts.
Context {A S : Type}.
Implicit Types (l : list A) (s : S) (body : S → A → res S).

Lemma for_res_ext l (f g : S → A → res S) s :
  (∀ s x, x ∈ l → f s x = g s x) → for_res l f s = for_res l g s.
Proof.
  revert s. induction l as [|x l IH]; intros s Hfg; simpl; [done|].
  rewrite Hfg by apply list_elem_of_here.
  destruct (g s x); [|done]. apply IH. intros s' y Hy.
  apply Hfg. by apply list_elem_of_further.
Qed.

(** A body that raises on some element, whatever the state, stops the
    loop with an exception. *)
Lemma for_res_raises l body s x :
  x ∈ l → (∀ s, is_Raise (body s x)) → is_Raise (for_res l body s).
Proof.
  intros Hin Hraise. revert s.
  induction Hin as [x l|x y l Hin IH]; intros s; simpl.
  - destruct (Hraise s) as [e He]. rewrite He. by exists e.
  - destruct (body s y) as [s'|e]; [by apply IH | by exists e].
Qed.

Lemma for_res_invariant (I : S → Prop) l body s s' :
  (∀ s x s', x ∈ l → I s → body s x = Ok s' → I s') →
  I s → for_res l body s = Ok s' → I s'.
Proof.
  revert s. induction l as [|x l IH]; intros s Hstep Hs; simpl.
  - by intros [= <-].
  - destruct (body s x) as [s1|e] eqn:Hb; [|done].
    apply IH.
    + intros s2 y s3 Hy. apply Hstep. by apply list_elem_of_further.
    + eapply Hstep; [apply list_elem_of_here | done..].
Qed.

Lemma for_res_is_Ok l body s :
  (∀ s x, x ∈ l → is_Ok (body s x)) → is_Ok (for_res l body s).
Proof.
  revert s. induction l as [|x l IH]; intros s Hstep; simpl.
  - by exists s.
  - destruct (Hstep s x) as [s1 ->]; [apply list_elem_of_here|].
    apply IH. intros s2 y Hy. apply Hstep. by apply list_elem_of_further.
Qed.

(** The invariant may mention the elements processed so far. *)
Lemma for_res_prefix (I : list A → S → Prop) l body s :
  I [] s →
  (∀ pre x s, x ∈ l → I pre s → ∃ s', body s x = Ok s' ∧ I (pre ++ [x]) s') →
  ∃ s', for_res l body s = Ok s' ∧ I l s'.
Proof.
  intros Hs Hstep.
  cut (∀ pre s, I pre s → (∀ x, x ∈ l → x ∈ l) →
         ∃ s', for_res l body s = Ok s' ∧ I (pre ++ l) s').
  { intros Hcut. apply (Hcut [] s); auto. }
  clear s Hs. induction l as [|x l IH]; intros pre s Hs _; simpl.
  - exists s. by rewrite app_nil_r.
  - destruct (Hstep pre x s) as (s1 & -> & Hs1); [apply list_elem_of_here | done |].
    destruct (IH (λ pre y s Hy, Hstep pre y s (list_elem_of_further _ _ _ Hy))
                (pre ++ [x]) s1 Hs1) as (s' & Hfor & Hs'); [done|].
    exists s'. by rewrite <- (assoc_L (++)) in Hs'.
Qed.
End loop_facts.

Section dict_loops.
Context {K V W : Type} `{EqDecision K}.

(** A loop over the items of a dict that stores one value per key builds
    a dict with the same keys, in the same order. *)
Lemma for_res_dict_build (R : K → V → W → Prop)
    (body : dict K W → K * V → res (dict K W)) (d : dict K V) acc out :
  (∀ acc k v acc', (k, v) ∈ d → body acc (k, v) = Ok acc' →
     ∃ w, acc' = dict_set k w acc ∧ R k v w) →
  dict_wf d → (∀ k, k ∈ keys d → k ∉ keys acc) →
  for_res d body acc = Ok out →
  ∃ ys, out = acc ++ ys ∧ dict_rel R d ys.
Proof.
  unfold dict_wf, keys. revert acc.
  induction d as [|[k v] d IH]; intros acc Hbody Hnd Hdisj; simpl.
  - intros [= <-]. exists []. rewrite app_nil_r. split; [done | constructor].
  - rewrite fmap_cons in Hnd, Hdisj. cbn [fst] in Hnd, Hdisj.
    apply NoDup_cons in Hnd as [Hk Hnd].
    destruct (body acc (k, v)) as [acc'|e] eqn:Hb; [|done].
    destruct (Hbody _ _ _ _ (list_elem_of_here _ _) Hb) as (w & -> & HR).
    rewrite dict_set_fresh by (apply Hdisj, list_elem_of_here).
    intros Hfor.
    destruct (IH (acc ++ [(k, w)])) as (ys & -> & Hys); [| done | | done |].
    + intros acc0 k0 v0 acc1 Hin. apply Hbody. by apply list_elem_of_further.
    + intros k0 Hk0. rewrite fmap_app, elem_of_app.
      intros [Hin|Hin%list_elem_of_singleton].
      * by apply (Hdisj k0); [apply list_elem_of_further|].
      * cbn in Hin. by subst.
    + exists ((k, w) :: ys). rewrite <- (assoc_L (++)). split; [done|].
      by constructor.
Qed.
End dict_loops.

Section io_loops.
Context {A S : Type}.

(** A loop in [io] whose body never raises: the output is the output of
    the iterations in order, the state is a left fold. *)
Lemma for_io_pure (l : list A) (body : S → A → io S) (w : A → list string)
    (g : S → A → S) s :
  (∀ s x, x ∈ l → body s x = (w x, Ok (g s x))) →
  for_io l body s = (x ← l; w x, Ok (foldl g s l)).
Proof.
  revert s. induction l as [|x l IH]; intros s Hbody; [done|].
  cbn [for_io]. rewrite Hbody by apply list_elem_of_here.
  unfold mbind at 1, io_bind. rewrite IH.
  - by rewrite bind_cons.
  - intros s' y Hy. apply Hbody. by apply list_elem_of_further.
Qed.
End io_loops.

Section dict_folds.
Context {K V W : Type} `{EqDecision K}.

(** A loop over the items of a dict that stores a value under some of the
    keys and leaves the others alone. *)
Lemma dict_get_foldl_set (h : K → V → option W) (d : dict K V) (acc : dict K W) k :
  dict_wf d →
  dict_get (foldl (λ acc kv, match h kv.1 kv.2 with
                             | Some w => dict_set kv.1 w acc
                             | None => acc
                             end) acc d) k =
  match dict_get d k ≫= h k with
  | Some w => Some w
  | None => dict_get acc k
  end.
Proof.
  unfold dict_wf, keys. revert acc.
  induction d as [|[k0 v0] d IH]; intros acc Hnd; [done|].
  rewrite fmap_cons in Hnd. apply NoDup_cons in Hnd as [Hk0 Hnd].
  cbn [foldl dict_get fst snd]. rewrite IH by done.
  destruct (decide (k = k0)) as [->|Hne].
  - assert (dict_get d k0 = None) as -> by by apply dict_get_None.
    simpl. destruct (h k0 v0) as [w|]; [|done]. apply dict_get_set_eq.
  - destruct (dict_get d k ≫= h k); [done|].
    destruct (h k0 v0) as [w|]; [|done]. by apply dict_get_set_ne.
Qed.

Lemma foldl_dict_set_fresh (g : K → V → W) (d : dict K V) (acc : dict K W) :
  dict_wf d → (∀ k, k ∈ keys d → k ∉ keys acc) →
  foldl (λ acc kv, dict_set kv.1 (g kv.1 kv.2) acc) acc d =
  acc ++ ((λ kv, (kv.1, g kv.1 kv.2)) <$> d).
Proof.
  unfold dict_wf, keys. revert acc.
  induction d as [|[k0 v0] d IH]; intros acc Hnd Hdisj.
  { by rewrite app_nil_r. }
  rewrite fmap_cons in Hnd, Hdisj. apply NoDup_cons in Hnd as [Hk0 Hnd].
  cbn [foldl fst snd]. rewrite dict_set_fresh by apply Hdisj, list_elem_of_here.
  rewrite IH; [by rewrite <- (assoc_L (++)) | done |].
  intros k Hk. rewrite fmap_app, elem_of_app.
  intros [Hin|Hin%list_elem_of_singleton].
  - by apply (Hdisj k); [apply list_elem_of_further|].
  - cbn in Hin. by subst.
Qed.
End dict_folds.

(** ** Facts about numbers *)

Section number_facts.
Local Open Scope Qc_scope.

Lemma num_val_add a b : num_val (num_add a b) = num_val a + num_val b.
Proof. destruct a, b; simpl; try done. apply Z2Qc_inj_add. Qed.

Lemma num_val_foldl_add a l :
  num_val (foldl num_add a l) = num_val a + Qc_sum (num_val <$> l).
Proof.
  revert a. induction l as [|x l IH]; intros a; simpl.
  - by rewrite Qcplus_0_r.
  - rewrite IH, num_val_add. by rewrite <- Qcplus_assoc.
Qed.

Lemma num_val_py_sum l : num_val (py_sum l) = Qc_sum (num_val <$> l).
Proof.
  unfold py_sum. rewrite num_val_foldl_add. simpl.
  rewrite Z2Qc_inj_0. ring.
Qed.









End number_facts.

(** ** Properties of [helper.py] *)

Module HelperProps.
Import Helper HelperSpec.

Ltac res_cases :=
  repeat match goal with
  | |- context [match ?x with (_, _) => _ end] => destruct x
  | |- context [match ?x with Ok _ => _ | Raise _ => _ end] =>
      destruct x eqn:?; simpl; try done
  | H : Ok _ = Ok _ |- _ => injection H as <-
  end.

Section counting.
Variable get_atom_type_from_label : string → res string.

Local Abbreviation binary :=
  (_compute_number_of_atoms_in_binary_CN get_atom_type_from_label).
Local Abbreviation ternary :=
  (_compute_number_of_atoms_in_ternary_CN get_atom_type_from_label).
Local Abbreviation quaternary :=
  (_compute_number_of_atoms_in_quaternary_CN get_atom_type_from_label).
Local Abbreviation parses :=
  (Forall (λ c, is_Ok (get_atom_type_from_label (conn_0 c)))).

Ltac shape :=
  apply for_res_ext; intros ? [? ?] _;
  match goal with
  | |- mbind _ ?a = mbind _ ?b => assert (a = b) as ->; [|done]
  end;
  apply for_res_ext; intros ? [? ?] _;
  unfold mbind, res_bind, mret, res_ret; res_cases; done.

Lemma binary_shape label_connections CN_metrics A B :
  binary label_connections CN_metrics A B =
  count_per_site_and_method (binary_record get_atom_type_from_label A B)
    label_connections CN_metrics.
Proof.
  unfold _compute_number_of_atoms_in_binary_CN, count_per_site_and_method,
    binary_record.
  shape.
Qed.

Lemma ternary_shape label_connections CN_metrics R M X :
  ternary label_connections CN_metrics R M X =
  count_per_site_and_method (ternary_record get_atom_type_from_label R M X)
    label_connections CN_metrics.
Proof.
  unfold _compute_number_of_atoms_in_ternary_CN, count_per_site_and_method,
    ternary_record.
  shape.
Qed.

Lemma quaternary_shape label_connections CN_metrics A B C D :
  quaternary label_connections CN_metrics A B C D =
  count_per_site_and_method (quaternary_record get_atom_type_from_label A B C D)
    label_connections CN_metrics.
Proof.
  unfold _compute_number_of_atoms_in_quaternary_CN, count_per_site_and_method,
    quaternary_record.
  shape.
Qed.

Lemma py_slice_to_Forall {A} (P : A → Prop) (l : list A) z :
  Forall P l → Forall P (py_slice_to l z).
Proof. unfold py_slice_to. intros Hl. case_match; by apply Forall_take. Qed.

Ltac record_is_Ok :=
  intros Hparse; unfold mbind, res_bind, mret, res_ret;
  match goal with
  | |- is_Ok (match for_res ?l ?body ?s with _ => _ end) =>
      destruct (for_res_is_Ok l body s) as [counters ->]
  end;
  [ intros counters c Hc; rewrite Forall_forall in Hparse;
    destruct (Hparse c Hc) as [parsed Hparsed];
    repeat match goal with p : (_ * _)%type |- _ => destruct p end;
    cbn beta iota zeta; rewrite Hparsed;
    repeat case_decide; by eexists
  | repeat match goal with p : (_ * _)%type |- _ => destruct p end;
    by eexists ].

Lemma binary_record_is_Ok A B cs :
  parses cs → is_Ok (binary_record get_atom_type_from_label A B cs).
Proof. unfold binary_record. record_is_Ok. Qed.

Lemma ternary_record_is_Ok R M X cs :
  parses cs → is_Ok (ternary_record get_atom_type_from_label R M X cs).
Proof. unfold ternary_record. record_is_Ok. Qed.

Lemma quaternary_record_is_Ok A B C D cs :
  parses cs → is_Ok (quaternary_record get_atom_type_from_label A B C D cs).
Proof. unfold quaternary_record. record_is_Ok. Qed.

(** One (site, method) step of the counting loops stores a record under
    the method, or raises. *)
Lemma count_step_inv (record_of : list connection → res (dict string num))
    (label_connections : dict string (list connection))
    (site_label method : string) (of_site of_site' : dict string pyval) data :
  (CN ← subscript data "number_of_vertices";
   of_label ← dict_item label_connections site_label;
   CN_connections ← slice_to of_label CN;
   counts ← record_of CN_connections;
   mret (dict_set method (PyDict counts) of_site)) = Ok of_site' →
  ∃ w : pyval, of_site' = dict_set method w of_site ∧ True.
Proof.
  unfold mbind, res_bind, mret, res_ret. res_cases.
  intros [= <-]. by eexists.
Qed.

Lemma count_shape_keys record_of label_connections CN_metrics :
  (∀ cs, parses cs → is_Ok (record_of cs)) →
  nested_wf CN_metrics →
  keeps_sites_and_methods get_atom_type_from_label label_connections CN_metrics
    (count_per_site_and_method record_of label_connections CN_metrics).
Proof.
  intros Hrecord [Hwf Hwf_in]. unfold count_per_site_and_method. split.
  - intros out Hout.
    eapply (for_res_dict_build (λ _ method_data of_site, keys of_site = keys method_data))
      in Hout as (ys & -> & Hrel); [| | done | intros ? _; apply not_elem_of_nil].
    + split; [by eapply dict_rel_keys|].
      intros site_label. simpl.
      destruct (dict_rel_get _ _ _ site_label Hrel) as [method_data of_site Hkeys|];
        simpl; [by rewrite Hkeys | done].
    + intros acc site_label method_data acc' Hsite.
      unfold mbind at 1, res_bind at 1.
      destruct (for_res method_data _ []) as [of_site|e] eqn:Hfor; [|done].
      intros [= <-]. exists of_site. split; [done|].
      eapply (for_res_dict_build (λ _ _ _, True))
        in Hfor as (ys & -> & Hrel); [| | by eapply Hwf_in | intros ? _; apply not_elem_of_nil].
      * by eapply dict_rel_keys.
      * intros of_site0 method data of_site' _. apply count_step_inv.
  - intros Hpresent Hcover. apply for_res_is_Ok.
    intros acc [site_label method_data] Hsite.
    match goal with |- is_Ok (mbind _ (for_res ?l ?body ?s)) =>
      destruct (for_res_is_Ok l body s) as [of_site ->]; [|by eexists]
    end.
    intros of_site [method data] Hmethod.
    destruct (Hpresent _ _ _ _ Hsite Hmethod) as (d & z & -> & Hz).
    destruct (Hcover _ _ Hsite) as (of_label & Hget & Hparse).
    unfold subscript, dict_item. rewrite Hz, Hget. simpl.
    destruct (Hrecord (py_slice_to of_label z)) as [counts Hcounts].
    { by apply py_slice_to_Forall. }
    unfold mbind, res_bind. rewrite Hcounts. by eexists.
Qed.

(** C9. For well-formed [CN_metrics] (unique keys), each of the three
    role-counting functions keeps the sites and the methods: whenever it
    returns, its output has exactly the site labels of [CN_metrics] and,
    under each site label, exactly its method keys, so that nothing is added
    or dropped; and it does return when every (site, method) entry is a
    present record (a mapping with an integer ["number_of_vertices"]), every
    site has its connections and the labels of the neighbours parse. *)
Theorem C9_counting_keeps_sites_and_methods
    label_connections CN_metrics (A B R M X A' B' C' D' : string) :
  nested_wf CN_metrics →
  keeps_sites_and_methods get_atom_type_from_label label_connections CN_metrics
    (binary label_connections CN_metrics A B) ∧
  keeps_sites_and_methods get_atom_type_from_label label_connections CN_metrics
    (ternary label_connections CN_metrics R M X) ∧
  keeps_sites_and_methods get_atom_type_from_label label_connections CN_metrics
    (quaternary label_connections CN_metrics A' B' C' D').
Proof.
  intros Hwf.
  rewrite binary_shape, ternary_shape, quaternary_shape.
  split_and!; apply count_shape_keys; try done; intros cs Hcs.
  - by apply binary_record_is_Ok.
  - by apply ternary_record_is_Ok.
  - by apply quaternary_record_is_Ok.
Qed.

Lemma count_shape_raises record_of label_connections CN_metrics
    site_label method_data method :
  (site_label, method_data) ∈ CN_metrics → (method, PyNone) ∈ method_data →
  is_Raise (count_per_site_and_method record_of label_connections CN_metrics).
Proof.
  intros Hsite Hmethod. unfold count_per_site_and_method.
  eapply for_res_raises; [done|]. intros acc. cbn beta iota.
  match goal with |- is_Raise (mbind _ (for_res ?l ?body ?s)) =>
    destruct (for_res_raises l body s (method, PyNone)) as [e ->];
      [done | | by exists e]
  end.
  intros of_site. by exists TypeError.
Qed.

(** C4, where the code departs from it. A (site, method) pair whose
    metrics are absent because the hull construction failed is stored as
    [None]; reading ["number_of_vertices"] from it raises, so no counting
    function returns on metrics that hold such a pair. *)
Theorem C4_counting_raises_on_absent_metrics
    label_connections CN_metrics site_label method_data method
    (A B R M X : string) :
  (site_label, method_data) ∈ CN_metrics → (method, PyNone) ∈ method_data →
  is_Raise (binary label_connections CN_metrics A B) ∧
  is_Raise (ternary label_connections CN_metrics R M X).
Proof.
  intros Hsite Hmethod. rewrite binary_shape, ternary_shape.
  split; by eapply count_shape_raises.
Qed.
End counting.

(** C3, where the code departs from it. An absent entry stored as [None] is
    not skipped by the per-site reduction: iterating over it raises, and the
    reduction of any data that holds such an entry returns nothing. *)
Theorem C3_per_site_reduction_raises_on_None site_data label of_label method :
  (label, of_label) ∈ site_data → (method, PyNone) ∈ of_label →
  is_Raise (_compute_min_max_avg_per_atomic_label site_data).
Proof.
  intros Hlabel Hmethod. unfold _compute_min_max_avg_per_atomic_label.
  eapply for_res_raises; [done|]. intros acc. cbn beta iota.
  match goal with |- is_Raise (mbind _ (for_res ?l ?body ?s)) =>
    destruct (for_res_raises l body s (method, PyNone)) as [e ->];
      [done | | by exists e]
  end.
  intros metrics. by exists TypeError.
Qed.

Section engine.
Context {hull : Type}.
Variable ConvexHull : list point → res hull.
Variable compute_polyhedron_metrics : list point → hull → res pyval.

Local Abbreviation CN_metrics_per_method :=
  (get_CN_metrics_per_method ConvexHull compute_polyhedron_metrics).

Lemma length_py_slice_to {A} (l : list A) z :
  0 ≤ z → Z.of_nat (length (py_slice_to l z)) ≤ z.
Proof.
  intros Hz. unfold py_slice_to.
  destruct (Z.leb_spec 0 z); [|lia]. rewrite length_take. lia.
Qed.

Lemma polyhedron_points_of_Ok (connection_data : list connection) :
  (3 < length connection_data)%nat →
  ∃ c, head connection_data = Some c ∧
       polyhedron_points_of connection_data
       = Ok ((conn_3 <$> connection_data) ++ [conn_2 c]).
Proof. destruct connection_data as [|c ?]; simpl; [lia|]. by exists c. Qed.

(** One iteration of the loop over the methods of a site. *)
Lemma CN_metrics_of_method_spec connections label site_data_label method
    CN_data of_label :
  dict_get connections label = Some of_label →
  (∀ pts h, is_Ok (compute_polyhedron_metrics pts h)) →
  CN_metrics_of_method ConvexHull compute_polyhedron_metrics connections label
    site_data_label (method, CN_data) =
  ((if decide (hull_fails ConvexHull (py_slice_to of_label (CN CN_data)))
    then [diagnostic label method] else []),
   Ok (match entry_of ConvexHull compute_polyhedron_metrics
               (py_slice_to of_label (CN CN_data)) with
       | Some polyhedron_metrics =>
           dict_set method polyhedron_metrics site_data_label
       | None => site_data_label
       end)).
Proof.
  intros Hget Htotal. unfold CN_metrics_of_method, dict_item, entry_of.
  rewrite Hget. unfold lift, mbind at 1, io_bind at 1. cbn [app].
  set (connection_data := py_slice_to of_label (CN CN_data)).
  destruct (decide (3 < length connection_data)%nat) as [Hlen|Hlen].
  - destruct (polyhedron_points_of_Ok _ Hlen) as (c & _ & Hpts).
    rewrite Hpts. unfold mbind at 1, io_bind at 1. cbn [app].
    destruct (ConvexHull _) as [h|e] eqn:Hhull.
    + destruct (Htotal ((conn_3 <$> connection_data) ++ [conn_2 c]) h)
        as [polyhedron_metrics Hmetrics].
      rewrite Hmetrics. rewrite decide_False; [done|].
      intros (_ & pts & Hpts' & e & He). congruence.
    + rewrite decide_True; [done|]. split; [done|].
      eexists. split; [done|]. by exists e.
  - rewrite decide_False; [done | unfold hull_fails; tauto].
Qed.

Lemma CN_metrics_of_site_spec connections label CN_data_per_method of_label :
  dict_get connections label = Some of_label →
  (∀ pts h, is_Ok (compute_polyhedron_metrics pts h)) →
  for_io CN_data_per_method
    (CN_metrics_of_method ConvexHull compute_polyhedron_metrics connections label) []
  = (diagnostics_of_site ConvexHull connections label CN_data_per_method,
     Ok (entries_of_site ConvexHull compute_polyhedron_metrics
           connections label CN_data_per_method)).
Proof.
  intros Hget Htotal. unfold diagnostics_of_site, entries_of_site.
  rewrite Hget. simpl.
  rewrite (for_io_pure _ _
    (λ item, if decide (hull_fails ConvexHull (py_slice_to of_label (CN item.2)))
             then [diagnostic label item.1] else [])
    (λ site_data_label item,
       match entry_of ConvexHull compute_polyhedron_metrics
               (py_slice_to of_label (CN item.2)) with
       | Some polyhedron_metrics =>
           dict_set item.1 polyhedron_metrics site_data_label
       | None => site_data_label
       end)).
  - f_equal. apply list_bind_ext; [|done]. intros [method CN_data]. simpl.
    by rewrite app_nil_r.
  - intros acc [method CN_data] _. by apply CN_metrics_of_method_spec.
Qed.

(** C2, amended. Provided that the keys of the input are unique, that every
    site has its connections and that the metrics primitive does not raise,
    the engine returns; it prints one diagnostic per pair whose hull
    construction fails and nothing else, keeps the site labels, and for
    every (site, method) pair: when the selected shell has at most three
    neighbours (in particular when 0 ≤ CN ≤ 3) the pair gets no entry at
    all; when the hull construction raises the pair is mapped to [None];
    otherwise it is mapped to what the metrics primitive returns. *)
Theorem C2_metrics_per_site_and_method cif :
  nested_wf (CN_max_gap_per_site cif) →
  (∀ label CN_data_per_method,
     (label, CN_data_per_method) ∈ CN_max_gap_per_site cif →
     is_Some (dict_get (connections cif) label)) →
  (∀ pts h, is_Ok (compute_polyhedron_metrics pts h)) →
  ∃ site_data,
    CN_metrics_per_method cif = (diagnostics ConvexHull cif, Ok site_data) ∧
    keys site_data = keys (CN_max_gap_per_site cif) ∧
    ∀ label CN_data_per_method method CN_data of_label,
      dict_get (CN_max_gap_per_site cif) label = Some CN_data_per_method →
      dict_get CN_data_per_method method = Some CN_data →
      dict_get (connections cif) label = Some of_label →
      ∃ site_data_label,
        dict_get site_data label = Some site_data_label ∧
        let connection_data := py_slice_to of_label (CN CN_data) in
        ((length connection_data ≤ 3)%nat →
           dict_get site_data_label method = None) ∧
        (0 ≤ CN CN_data ≤ 3 → dict_get site_data_label method = None) ∧
        (hull_fails ConvexHull connection_data →
           dict_get site_data_label method = Some PyNone) ∧
        (∀ polyhedron_points hull,
           (3 < length connection_data)%nat →
           polyhedron_points_of connection_data = Ok polyhedron_points →
           ConvexHull polyhedron_points = Ok hull →
           ∃ polyhedron_metrics,
             compute_polyhedron_metrics polyhedron_points hull
             = Ok polyhedron_metrics ∧
             dict_get site_data_label method = Some polyhedron_metrics).
Proof.
  intros [Hwf Hwf_in] Hconn Htotal.
  set (connections := Helper.connections cif).
  set (entries := entries_of_site ConvexHull compute_polyhedron_metrics connections).
  set (step := λ (site_data : dict string (dict string pyval))
                 (item : string * dict string CN_data),
                 dict_set item.1 (entries item.1 item.2) site_data).
  exists (foldl step [] (CN_max_gap_per_site cif)).
  split_and!.
  - unfold get_CN_metrics_per_method, diagnostics.
    erewrite for_io_pure; [done|].
    intros site_data [label CN_data_per_method] Hin.
    destruct (Hconn _ _ Hin) as [of_label Hget].
    rewrite (CN_metrics_of_site_spec _ _ _ of_label Hget Htotal).
    unfold mbind, io_bind, mret, io_ret. by rewrite app_nil_r.
  - unfold step.
    rewrite (foldl_dict_set_fresh entries);
      [|done | intros ? _; apply not_elem_of_nil].
    unfold keys. rewrite app_nil_l, <- list_fmap_compose.
    by apply list_fmap_ext.
  - intros label CN_data_per_method method CN_data of_label Hlabel Hmethod Hget.
    exists (entries label CN_data_per_method).
    split.
    { unfold step.
      rewrite (dict_get_foldl_set (λ k v, Some (entries k v))) by done.
      by rewrite Hlabel. }
    assert (dict_get (entries label CN_data_per_method) method
            = entry_of ConvexHull compute_polyhedron_metrics
                (py_slice_to of_label (CN CN_data))) as ->.
    { unfold entries, entries_of_site. fold connections in Hget.
      rewrite Hget. cbn [default].
      rewrite (dict_get_foldl_set
                 (λ _ CN_data, entry_of ConvexHull compute_polyhedron_metrics
                                 (py_slice_to of_label (CN CN_data)))).
      - rewrite Hmethod. simpl. by destruct (entry_of _ _ _).
      - eapply Hwf_in. by apply dict_get_elem_of. }
    cbn zeta. unfold entry_of.
    set (connection_data := py_slice_to of_label (CN CN_data)).
    split_and!.
    + intros Hlen. rewrite decide_False; [done | lia].
    + intros [H0 H3]. rewrite decide_False; [done|].
      pose proof (length_py_slice_to of_label (CN CN_data) H0) as Hle.
      fold connection_data in Hle. lia.
    + intros (Hlen & pts & Hpts & e & He).
      rewrite decide_True by done. by rewrite Hpts, He.
    + intros pts h Hlen Hpts Hhull. rewrite decide_True by done.
      rewrite Hpts, Hhull. destruct (Htotal pts h) as [v Hv].
      exists v. by rewrite Hv.
Qed.

End engine.

Section pipeline.
Context {hull : Type}.
Variable ConvexHull : list point → res hull.
Variable compute_polyhedron_metrics : list point → hull → res pyval.
Variable get_atom_type_from_label : string → res string.
Variable get_binary_AB_elements : list string → res (string * string).
Variable get_ternary_RMX_elements :
  list string → res (string * string * string).
Variable get_quaternary_ABCD_elements :
  list string → res (string * string * string * string).

Local Abbreviation CN_metrics_per_method :=
  (get_CN_metrics_per_method ConvexHull compute_polyhedron_metrics).
Local Abbreviation CN_atom_count_data :=
  (get_CN_atom_count_data ConvexHull compute_polyhedron_metrics
     get_atom_type_from_label get_binary_AB_elements
     get_ternary_RMX_elements get_quaternary_ABCD_elements).

Lemma py_slice_to_take {A} (l : list A) z :
  ∃ k, py_slice_to l z = take k l ∧ (0 ≤ z → k = Z.to_nat z).
Proof.
  unfold py_slice_to. destruct (Z.leb_spec 0 z).
  - by exists (Z.to_nat z).
  - eexists. split; [done | lia].
Qed.

(** The counters of the scenario over the first [k] neighbours. *)
Lemma scenario_record center p1 p2 p3 p4 p5 k :
  parses_scenario get_atom_type_from_label →
  binary_record get_atom_type_from_label "Th" "Sb"
    (take k (scenario_connections center p1 p2 p3 p4 p5))
  = Ok [("A_count", PyInt (if decide (5 ≤ k)%nat then 1 else 0));
        ("B_count", PyInt (Z.of_nat (k `min` 4)))].
Proof.
  intros (H1 & H2 & H3 & H4 & H5).
  unfold binary_record, mbind, res_bind, mret, res_ret.
  assert ("Sb" ≠ "Th") as Hne by done.
  do 5 (destruct k as [|k];
        [repeat (progress (simpl; rewrite ?H1, ?H2, ?H3, ?H4, ?H5, ?decide_True,
                             ?(decide_False _ _ Hne) by done));
         reflexivity|]).
  repeat (progress (simpl; rewrite ?H1, ?H2, ?H3, ?H4, ?H5, ?decide_True,
                      ?(decide_False _ _ Hne) by done)).
  rewrite ?take_nil. simpl. rewrite ?decide_True by lia. reflexivity.
Qed.

(** C6, amended. In the scenario the point set of (Th1, m1) has five
    points, the positions of the four nearest neighbours and then the
    central atom. When the hull construction succeeds and the metrics report
    [n] vertices, the engine stores the metrics and the role count is that of
    the first [n] neighbours: {A_count: 0, B_count: 4} when [n = 4], the
    four counted neighbours being Sb1 to Sb4; for no [n] is it
    {A_count: 1, B_count: 3}. *)
Theorem C6_scenario_point_set_and_role_count center p1 p2 p3 p4 p5 :
  parses_scenario get_atom_type_from_label →
  polyhedron_points_of
    (py_slice_to (scenario_connections center p1 p2 p3 p4 p5) 4)
  = Ok [p1; p2; p3; p4; center] ∧
  ∀ hull d n,
    ConvexHull [p1; p2; p3; p4; center] = Ok hull →
    compute_polyhedron_metrics [p1; p2; p3; p4; center] hull = Ok (PyDict d) →
    dict_get d "number_of_vertices" = Some (PyInt n) →
    CN_metrics_per_method (scenario center p1 p2 p3 p4 p5)
    = ([], Ok [("Th1", [("m1", PyDict d)])]) ∧
    ∃ A_count B_count,
      _compute_number_of_atoms_in_binary_CN get_atom_type_from_label
        (connections (scenario center p1 p2 p3 p4 p5))
        [("Th1", [("m1", PyDict d)])] "Th" "Sb"
      = Ok [("Th1", [("m1", role_count A_count B_count)])] ∧
      (A_count, B_count) ≠ (1, 3) ∧
      (n = 4 → (A_count, B_count) = (0, 4)).
Proof.
  intros Hparse. split; [done|]. intros h d n Hhull Hmetrics Hn. split.
  { unfold get_CN_metrics_per_method. simpl.
    unfold mbind, io_bind, lift. simpl. by rewrite Hhull, Hmetrics. }
  rewrite binary_shape. unfold count_per_site_and_method. simpl.
  unfold dict_item. rewrite Hn. unfold mbind, res_bind, mret, res_ret. simpl.
  destruct (py_slice_to_take (scenario_connections center p1 p2 p3 p4 p5) n)
    as (k & -> & Hk).
  rewrite scenario_record by done.
  eexists _, _. split; [reflexivity|]. split.
  - case_decide; intros ?; simplify_eq; lia.
  - intros ->. rewrite Hk by lia. by rewrite decide_False by lia.
Qed.

(** C1, amended. For a structure whose number of unique elements is not
    2, 3 or 4, the feature computation returns nothing: it ends with an
    exception. There is no dedicated condition for the arity: when the
    metrics stage and its per-site reduction have gone through, the
    exception is the [UnboundLocalError] of reading the count data that no
    branch has assigned. *)
Theorem C1_unsupported_arity_raises cif :
  length (unique_elements cif) ≠ 2%nat →
  length (unique_elements cif) ≠ 3%nat →
  length (unique_elements cif) ≠ 4%nat →
  is_Raise (outcome (CN_atom_count_data cif)) ∧
  (∀ CN_metrics min_max_avg,
     outcome (CN_metrics_per_method cif) = Ok CN_metrics →
     _compute_min_max_avg_per_atomic_label CN_metrics = Ok min_max_avg →
     outcome (CN_atom_count_data cif) = Raise UnboundLocalError).
Proof.
  intros H2 H3 H4. unfold get_CN_atom_count_data.
  destruct (CN_metrics_per_method cif) as [out [CN_metrics|e]];
    unfold outcome, mbind, io_bind, lift; simpl;
    [|split; [by exists e | done]].
  destruct (_compute_min_max_avg_per_atomic_label CN_metrics)
    as [min_max_avg|e] eqn:Hreduce; simpl.
  - do 3 (rewrite decide_False by done; simpl).
    split; [by exists UnboundLocalError | done].
  - split; [by exists e|]. intros ?? [= <-] ?. congruence.
Qed.
End pipeline.

End HelperProps.

(** ** Properties of the two reductions *)

Module ReducerProps.
Import Helper HelperSpec.

Lemma by_stat_item_set {A} st st' (a : A) (b : by_stat A) :
  by_stat_item (by_stat_set st a b) st' =
  if decide (st = st') then a else by_stat_item b st'.
Proof. destruct st, st'; by case_decide. Qed.

Lemma item_set_stat_metric st st' metric v (d : by_stat (dict string num)) :
  by_stat_item (set_stat_metric st metric v d) st' =
  if decide (st = st') then dict_set metric v (by_stat_item d st)
  else by_stat_item d st'.
Proof. apply by_stat_item_set. Qed.

Lemma contributions_snoc st metric items metric' values :
  contributions st metric (items ++ [(metric', values)]) =
  contributions st metric items ++
  (if decide (metric' = metric) then [stats_item values st] else []).
Proof.
  unfold contributions. rewrite filter_app, fmap_app. f_equal.
  rewrite filter_cons. simpl. case_decide; by rewrite filter_nil.
Qed.

Lemma sum_of_snoc l v :
  sum_of (l ++ [v]) = Some (num_add (default (PyInt 0) (sum_of l)) v).
Proof.
  unfold sum_of, py_sum. rewrite foldl_app. simpl.
  destruct l; by simpl.
Qed.

Lemma count_of_snoc l (v : num) :
  count_of (l ++ [v]) = Some (num_add (default (PyInt 0) (count_of l)) (PyInt 1)).
Proof.
  unfold count_of, py_len. rewrite length_app. simpl.
  destruct l; simpl; [done|]. do 3 f_equal. lia.
Qed.

(** One statistic of one item added to the running sums and counts. *)
Lemma add_to_global_spec metric values global_sums global_counts st items :
  sums_after st items (by_stat_item global_sums st) (by_stat_item global_counts st) →
  ∃ sums' counts',
    add_to_global metric values (global_sums, global_counts) st
    = Ok (sums', counts') ∧
    sums_after st (items ++ [(metric, values)])
      (by_stat_item sums' st) (by_stat_item counts' st) ∧
    ∀ st', st' ≠ st →
      by_stat_item sums' st' = by_stat_item global_sums st' ∧
      by_stat_item counts' st' = by_stat_item global_counts st'.
Proof.
  intros [Hwf Hget]. unfold add_to_global.
  set (known := contributions st metric items).
  destruct (Hget metric) as [Hsum Hcount]. fold known in Hsum, Hcount.
  (* after the initialisation, the metric has a sum and a count *)
  set (init := match dict_get (by_stat_item global_sums st) metric with
               | None => (set_stat_metric st metric (PyInt 0) global_sums,
                          set_stat_metric st metric (PyInt 0) global_counts)
               | Some _ => (global_sums, global_counts)
               end).
  assert (dict_wf (by_stat_item init.1 st) ∧
          dict_get (by_stat_item init.1 st) metric
          = Some (default (PyInt 0) (sum_of known)) ∧
          dict_get (by_stat_item init.2 st) metric
          = Some (default (PyInt 0) (count_of known)) ∧
          (∀ m, m ≠ metric →
             dict_get (by_stat_item init.1 st) m
             = dict_get (by_stat_item global_sums st) m ∧
             dict_get (by_stat_item init.2 st) m
             = dict_get (by_stat_item global_counts st) m) ∧
          (∀ st', st' ≠ st →
             by_stat_item init.1 st' = by_stat_item global_sums st' ∧
             by_stat_item init.2 st' = by_stat_item global_counts st'))
    as (Hwf1 & Hsum1 & Hcount1 & Hother1 & Hstat1).
  { unfold init. rewrite Hsum. destruct known as [|x known'] eqn:Hknown; simpl.
    - rewrite !item_set_stat_metric, !decide_True by done.
      split_and!; [by apply dict_wf_set | apply dict_get_set_eq..| |].
      + intros m Hm. by rewrite !dict_get_set_ne.
      + intros st' Hst'. by rewrite !item_set_stat_metric, !decide_False.
    - by rewrite Hsum, Hcount. }
  destruct init as [sums1 counts1]. simpl in *.
  unfold dict_item. rewrite Hsum1. unfold mbind, res_bind. rewrite Hcount1.
  eexists _, _. split; [done|].
  rewrite !item_set_stat_metric, !decide_True by done.
  split; [split|].
  - by apply dict_wf_set.
  - intros m. rewrite contributions_snoc, !dict_get_set.
    case_decide as Hm.
    + subst m. fold known. by rewrite sum_of_snoc, count_of_snoc.
    + rewrite app_nil_r. destruct (Hother1 m) as [-> ->]; [done|]. apply Hget.
  - intros st' Hst'. rewrite !item_set_stat_metric, !decide_False by done.
    by apply Hstat1.
Qed.

(** One item added for the three statistics. *)
Lemma add_item_spec metric values acc items :
  all_sums_after items acc →
  ∃ acc', for_res [Min; Max; Avg] (add_to_global metric values) acc = Ok acc' ∧
          all_sums_after (items ++ [(metric, values)]) acc'.
Proof.
  intros Hacc. destruct acc as [sums counts]. cbn [for_res].
  destruct (add_to_global_spec metric values sums counts Min items (Hacc Min))
    as (sums1 & counts1 & -> & HMin & Hrest1).
  destruct (add_to_global_spec metric values sums1 counts1 Max items)
    as (sums2 & counts2 & -> & HMax & Hrest2).
  { destruct (Hrest1 Max) as [-> ->]; [done|]. apply (Hacc Max). }
  destruct (add_to_global_spec metric values sums2 counts2 Avg items)
    as (sums3 & counts3 & -> & HAvg & Hrest3).
  { destruct (Hrest2 Avg) as [-> ->]; [done|].
    destruct (Hrest1 Avg) as [-> ->]; [done|]. apply (Hacc Avg). }
  eexists. split; [done|]. intros [| |]; cbn [fst snd].
  - destruct (Hrest3 Min) as [-> ->]; [done|].
    by destruct (Hrest2 Min) as [-> ->].
  - by destruct (Hrest3 Max) as [-> ->].
  - done.
Qed.

Lemma all_sums_after_nil : all_sums_after [] (no_stats, no_stats).
Proof.
  intros st. cbn [fst snd].
  assert (by_stat_item no_stats st = []) as -> by by destruct st.
  split; [apply dict_wf_nil | done].
Qed.

(** The summing loop goes through the items of all sites in order. *)
Lemma summing_loop_spec (min_max_avg_result : dict string (dict string stats)) :
  ∃ acc,
    for_res (values min_max_avg_result) (λ acc label_data,
      for_res label_data (λ acc '(metric, values),
        for_res [Min; Max; Avg] (add_to_global metric values) acc) acc)
      (no_stats, no_stats) = Ok acc ∧
    all_sums_after (mjoin (values min_max_avg_result)) acc.
Proof.
  apply (for_res_prefix (λ pre acc, all_sums_after (mjoin pre) acc)).
  { apply all_sums_after_nil. }
  intros pre label_data acc _ Hacc.
  destruct (for_res_prefix
              (λ pre' acc, all_sums_after (mjoin pre ++ pre') acc) label_data
              (λ acc '(metric, values),
                 for_res [Min; Max; Avg] (add_to_global metric values) acc) acc)
    as (acc' & Hloop & Hacc').
  - by rewrite app_nil_r.
  - intros pre' [metric values] acc0 _ Hacc0.
    rewrite (assoc_L (++)). by apply add_item_spec.
  - exists acc'. split; [done|].
    rewrite join_app. simpl. by rewrite app_nil_r.
Qed.

(** The averaging loop for one statistic. *)
Lemma averaging_loop_spec st items
    (global_sums global_counts global_avg : by_stat (dict string num)) :
  sums_after st items (by_stat_item global_sums st) (by_stat_item global_counts st) →
  by_stat_item global_avg st = [] →
  ∃ global_avg',
    for_res (by_stat_item global_sums st) (λ global_avg '(metric, sum_value),
      count ← dict_item (by_stat_item global_counts st) metric;
      quotient ← true_div sum_value count;
      mret (set_stat_metric st metric (float quotient) global_avg)) global_avg
    = Ok global_avg' ∧
    (∀ st', st' ≠ st → by_stat_item global_avg' st' = by_stat_item global_avg st') ∧
    ∀ metric,
      dict_get (by_stat_item global_avg' st) metric
      = mean_of (contributions st metric items).
Proof.
  intros [Hwf Hget] Hempty.
  destruct (for_res_prefix
    (λ (pre : dict string num) global_avg',
       (∀ st', st' ≠ st →
          by_stat_item global_avg' st' = by_stat_item global_avg st') ∧
       ∀ metric,
         dict_get (by_stat_item global_avg' st) metric
         = if decide (metric ∈ keys pre)
           then mean_of (contributions st metric items) else None)
    (by_stat_item global_sums st)
    (λ global_avg '(metric, sum_value),
      count ← dict_item (by_stat_item global_counts st) metric;
      quotient ← true_div sum_value count;
      mret (set_stat_metric st metric (float quotient) global_avg)) global_avg)
    as (global_avg' & Hloop & Hrest & Hmean).
  - split; [done|]. intros metric. by rewrite Hempty.
  - intros pre [metric sum_value] acc Hin [Hrest Hmean].
    apply (dict_wf_get _ _ _ Hwf) in Hin.
    destruct (Hget metric) as [Hsum Hcount]. rewrite Hin in Hsum.
    destruct (contributions st metric items) as [|x known] eqn:Hknown; [done|].
    injection Hsum as ->. unfold dict_item. rewrite Hcount. simpl.
    eexists. split; [done|]. split.
    + intros st' Hst'. rewrite item_set_stat_metric, decide_False by done.
      by apply Hrest.
    + intros m. rewrite item_set_stat_metric, decide_True, dict_get_set by done.
      assert (m ∈ keys (pre ++ [(metric, py_sum (x :: known))])
              ↔ m ∈ keys pre ∨ m = metric) as Hkeys.
      { unfold keys. rewrite fmap_app, elem_of_app. simpl.
        by rewrite list_elem_of_singleton. }
      destruct (decide (metric = m)) as [<-|Hne].
      * rewrite decide_True by (apply Hkeys; by right).
        rewrite Hknown. unfold mean_of, float, mean. simpl.
        by rewrite num_val_py_sum.
      * rewrite Hmean. destruct (decide (m ∈ keys pre)) as [Hm|Hm].
        -- by rewrite decide_True by (apply Hkeys; by left).
        -- rewrite decide_False; [done|]. rewrite Hkeys. intros [?|?]; done.
  - exists global_avg'. split_and!; [done..|]. intros metric.
    rewrite Hmean. case_decide as Hin; [done|].
    apply dict_get_None in Hin. destruct (Hget metric) as [Hsum _].
    rewrite Hin in Hsum. by destruct (contributions st metric items).
Qed.

(** The global reduction always returns, and what it holds for a statistic
    and a metric is the mean of the contributions of the items. *)
Lemma global_avg_spec (min_max_avg_result : dict string (dict string stats)) :
  ∃ global_avg,
    _compute_global_avg_for_min_max_avg_metrics min_max_avg_result
    = Ok global_avg ∧
    ∀ st metric,
      dict_get (by_stat_item global_avg st) metric
      = mean_of (contributions st metric (mjoin (values min_max_avg_result))).
Proof.
  unfold _compute_global_avg_for_min_max_avg_metrics.
  destruct (summing_loop_spec min_max_avg_result)
    as ([global_sums global_counts] & -> & Hsums).
  unfold mbind at 1, res_bind at 1. cbn [for_res].
  destruct (averaging_loop_spec Min _ global_sums global_counts no_stats (Hsums Min))
    as (avg1 & -> & Hrest1 & HMin); [done|].
  destruct (averaging_loop_spec Max _ global_sums global_counts avg1 (Hsums Max))
    as (avg2 & -> & Hrest2 & HMax); [by rewrite Hrest1|].
  destruct (averaging_loop_spec Avg _ global_sums global_counts avg2 (Hsums Avg))
    as (avg3 & -> & Hrest3 & HAvg); [by rewrite Hrest2, Hrest1|].
  exists avg3. split; [done|]. intros [| |] metric.
  - by rewrite Hrest3, Hrest2.
  - by rewrite Hrest3.
  - done.
Qed.

















End ReducerProps.

(** ** The statements at concrete inputs *)

Module HelperRuns.
Import Helper HelperSpec HelperProps ReducerProps Samples.

Ltac in_sample :=
  repeat match goal with
  | H : (_, _) = (_, _) |- _ => injection H as ??; subst
  | H : _ ∈ ?l |- _ =>
      let l' := eval hnf in l in
      match l' with
      | [] => by apply elem_of_nil in H
      | _ :: _ => change l with l' in H; apply elem_of_cons in H as [H|H]
      end
  end.

Ltac by_decide := apply (bool_decide_unpack _); vm_compute; exact I.

Lemma C9_witness :
  (∃ out, _compute_number_of_atoms_in_binary_CN atom_type
            Th1_label_connections (present_CN_metrics 4) "Th" "Sb" = Ok out
          ∧ same_keys (present_CN_metrics 4) out) ∧
  (∃ out, _compute_number_of_atoms_in_ternary_CN atom_type
            Th1_label_connections (present_CN_metrics 4) "Th" "Sb" "Te" = Ok out
          ∧ same_keys (present_CN_metrics 4) out) ∧
  (∃ out, _compute_number_of_atoms_in_quaternary_CN atom_type
            Th1_label_connections (present_CN_metrics 4) "Th" "Sb" "Te" "Se"
          = Ok out
          ∧ same_keys (present_CN_metrics 4) out).
Proof.
  assert (all_present (present_CN_metrics 4)) as Hpresent.
  { intros site_label method_data method data Hsite Hmethod. in_sample.
    eexists _, 4. split; reflexivity. }
  assert (connections_cover atom_type Th1_label_connections
            (present_CN_metrics 4)) as Hcover.
  { intros site_label method_data Hsite. in_sample.
    exists Th1_connections. split; [reflexivity|].
    repeat constructor; by eexists. }
  destruct (C9_counting_keeps_sites_and_methods atom_type
              Th1_label_connections (present_CN_metrics 4)
              "Th" "Sb" "Th" "Sb" "Te" "Th" "Sb" "Te" "Se")
    as ([Hkeys2 Hruns2] & [Hkeys3 Hruns3] & [Hkeys4 Hruns4]).
  { split; [by_decide|]. intros k inner Hin. in_sample. by_decide. }
  destruct (Hruns2 Hpresent Hcover) as [out2 Hout2].
  destruct (Hruns3 Hpresent Hcover) as [out3 Hout3].
  destruct (Hruns4 Hpresent Hcover) as [out4 Hout4].
  split_and!; eexists; (split; [done|]); auto.
Defined.

Lemma C4_witness :
  is_Raise (_compute_number_of_atoms_in_binary_CN atom_type
              Th1_label_connections absent_CN_metrics "Th" "Sb") ∧
  is_Raise (_compute_number_of_atoms_in_ternary_CN atom_type
              Th1_label_connections absent_CN_metrics "Th" "Sb" "Te").
Proof.
  eapply (C4_counting_raises_on_absent_metrics atom_type _ _ "Th1" _ "m1");
    apply list_elem_of_here.
Defined.

(** At the failing input the exception is the [TypeError] of subscripting
    [None]. *)
Example C4_failing_input :
  _compute_number_of_atoms_in_binary_CN atom_type
    Th1_label_connections absent_CN_metrics "Th" "Sb" = Raise TypeError.
Proof. reflexivity. Qed.

Lemma C3_witness :
  is_Raise (_compute_min_max_avg_per_atomic_label absent_CN_metrics).
Proof.
  eapply (C3_per_site_reduction_raises_on_None _ "Th1" _ "m1");
    apply list_elem_of_here.
Defined.

(** At the failing input the exception is the [TypeError] of iterating over
    [None]. *)
Example C3_failing_input :
  _compute_min_max_avg_per_atomic_label absent_CN_metrics = Raise TypeError.
Proof. reflexivity. Qed.

(** The whole computation on a two-element structure whose only hull
    construction fails: the diagnostic says that the pair is skipped, and the
    computation ends with the [TypeError]. *)
Example failed_hull_stops_the_pipeline :
  get_CN_atom_count_data hull_fail metrics_ok atom_type two three four
    (Th_Sb 4 ["Th"; "Sb"])
  = (["Error in determining polyhedron for Th1 using m1 - skipped"],
     Raise TypeError).
Proof. vm_compute. reflexivity. Qed.

Lemma C1_witness :
  is_Raise (outcome (get_CN_atom_count_data hull_ok metrics_ok atom_type
                       two three four
                       (Th_Sb 4 ["Th"; "Sb"; "Te"; "Se"; "As"]))) ∧
  (∀ CN_metrics min_max_avg,
     outcome (get_CN_metrics_per_method hull_ok metrics_ok
                (Th_Sb 4 ["Th"; "Sb"; "Te"; "Se"; "As"])) = Ok CN_metrics →
     _compute_min_max_avg_per_atomic_label CN_metrics = Ok min_max_avg →
     outcome (get_CN_atom_count_data hull_ok metrics_ok atom_type
                two three four
                (Th_Sb 4 ["Th"; "Sb"; "Te"; "Se"; "As"]))
     = Raise UnboundLocalError).
Proof.
  apply C1_unsupported_arity_raises; simpl; lia.
Defined.

(** C1 as stated fails: with five unique elements the exception that reaches
    the caller is not an [UnsupportedArity] condition. *)
Lemma C1_counterexample :
  length (unique_elements (Th_Sb 4 ["Th"; "Sb"; "Te"; "Se"; "As"])) = 5%nat ∧
  outcome (get_CN_atom_count_data hull_ok metrics_ok atom_type two three four
             (Th_Sb 4 ["Th"; "Sb"; "Te"; "Se"; "As"]))
  = Raise UnboundLocalError ∧
  outcome (get_CN_atom_count_data hull_ok metrics_ok atom_type two three four
             (Th_Sb 4 ["Th"; "Sb"; "Te"; "Se"; "As"]))
  ≠ Raise (CustomError "UnsupportedArity").
Proof.
  split; [reflexivity|]. split; [by vm_compute|]. vm_compute. discriminate.
Qed.

Lemma C2_witness :
  ∃ site_data,
    get_CN_metrics_per_method hull_fail metrics_ok (Th_Sb_two_methods 4 3)
    = (diagnostics hull_fail (Th_Sb_two_methods 4 3), Ok site_data) ∧
    keys site_data = ["Th1"] ∧
    ∃ site_data_label,
      dict_get site_data "Th1" = Some site_data_label ∧
      dict_get site_data_label "m1" = Some PyNone ∧
      dict_get site_data_label "m2" = None.
Proof.
  destruct (C2_metrics_per_site_and_method hull_fail metrics_ok
              (Th_Sb_two_methods 4 3)) as (site_data & Hrun & Hkeys & Hpairs).
  - split; [by_decide|]. intros k inner Hin. in_sample. by_decide.
  - intros label CN_data_per_method Hin. in_sample. by eexists.
  - intros pts h. by eexists.
  - exists site_data. split_and!; [done..|].
    destruct (Hpairs "Th1" _ "m1" _ _ eq_refl eq_refl eq_refl)
      as (site_data_label & Hlabel & _ & _ & Hfail & _).
    destruct (Hpairs "Th1" _ "m2" _ _ eq_refl eq_refl eq_refl)
      as (site_data_label' & Hlabel' & Hsmall & _).
    exists site_data_label. split_and!; [done | |].
    + apply Hfail. split; [simpl; lia|]. eexists. split; [reflexivity|].
      by eexists.
    + rewrite Hlabel in Hlabel'. injection Hlabel' as <-.
      apply Hsmall. simpl. lia.
Defined.

(** C2 as stated fails: a pair whose selected CN is 3 is not mapped to an
    explicit absent record, it is left without any entry. *)
Lemma C2_counterexample :
  CN {| CN := 3 |} ≤ 3 ∧
  ∃ site_data,
    get_CN_metrics_per_method hull_ok metrics_ok (Th_Sb 3 ["Th"; "Sb"])
    = ([], Ok site_data) ∧
    dict_get site_data "Th1" = Some [] ∧
    (dict_get site_data "Th1" ≫= λ site_data_label,
       dict_get site_data_label "m1") ≠ Some PyNone.
Proof.
  split; [simpl; lia|]. exists [("Th1", [])]. split_and!; [reflexivity..|].
  simpl. discriminate.
Qed.

Lemma C6_witness :
  polyhedron_points_of
    (py_slice_to (scenario_connections origin east north up west south) 4)
  = Ok [east; north; up; west; origin] ∧
  ∃ A_count B_count,
    _compute_number_of_atoms_in_binary_CN atom_type
      (connections (scenario origin east north up west south))
      [("Th1", [("m1", PyDict [("volume", PyFloat 1%Qc);
                               ("number_of_vertices", PyInt 4)])])] "Th" "Sb"
    = Ok [("Th1", [("m1", role_count A_count B_count)])] ∧
    (A_count, B_count) ≠ (1, 3) ∧
    (A_count, B_count) = (0, 4).
Proof.
  destruct (C6_scenario_point_set_and_role_count hull_ok metrics_ok atom_type
              origin east north up west south)
    as [Hpoints Hcount].
  - by repeat split.
  - split; [done|].
    destruct (Hcount tt _ 4 eq_refl eq_refl eq_refl)
      as (_ & A_count & B_count & Hrun & Hne & H4).
    exists A_count, B_count. split_and!; [done..|]. by apply H4.
Defined.

(** C6 as stated fails: with a successful hull construction and metrics
    that report four vertices, the role count of (Th1, m1) is
    {A_count: 0, B_count: 4}, not {A_count: 1, B_count: 3}. *)
Lemma C6_counterexample :
  get_CN_metrics_per_method hull_ok metrics_ok (Th_Sb 4 ["Th"; "Sb"])
  = ([], Ok (present_CN_metrics 4)) ∧
  _compute_number_of_atoms_in_binary_CN atom_type
    (connections (Th_Sb 4 ["Th"; "Sb"])) (present_CN_metrics 4) "Th" "Sb"
  = Ok [("Th1", [("m1", role_count 0 4)])] ∧
  role_count 0 4 ≠ role_count 1 3.
Proof. split_and!; [reflexivity..|]. discriminate. Qed.




End HelperRuns.

(** ** Properties of [ternary.py] *)

Module TernaryProps.
Import Helper Ternary TernarySpec.

Lemma dict_item_Ok {K V} `{EqDecision K} (d : dict K V) k v :
  dict_item d k = Ok v ↔ dict_get d k = Some v.
Proof. unfold dict_item. destruct (dict_get d k); split; congruence. Qed.

Lemma float_div_Ok a b q : float_div a b = Ok q ↔ b ≠ 0%Qc ∧ q = PyFloat (a / b)%Qc.
Proof.
  unfold float_div. case_decide; split; try done.
  - by intros [? _].
  - intros [= <-]. done.
  - by intros [_ ->].
Qed.

(** Going through the successful binds of a hypothesis, one at a time. *)
Ltac bind_inv H :=
  unfold mbind, res_bind, fmap, res_fmap, mret, res_ret in H;
  repeat match type of H with
  | context [match ?x with (_, _) => _ end] => destruct x
  | context [match ?x with Ok _ => _ | Raise _ => _ end] =>
      destruct x eqn:?; [|discriminate H]
  end.

Section ternary.
Context {first_second : Type}.
Variable get_ternary_RMX_elements :
  list string → res (string * string * string).
Variable compute_avg_homoatomic_dist_by_site_shortest_dist :
  dict string (list connection) → string → string → string → res num3.
Variable get_R_and_M_and_X_count_in_best_label_per_element :
  dict string (list connection) → string → string → string → res num9.
Variable get_avg_R_and_M_and_X_count_in_per_element :
  dict string (list connection) → string → string → string → res num9.
Variable count_first_second_min_dist :
  dict string (list connection) → res first_second.
Variable extract_best_labels : first_second → res (dict string best_site).
Variable extract_shortest_dist_with_tol :
  dict string best_site → dict string (list connection) →
  res (dict string tol_result).
Variable extract_avg_shortest_dist_with_tol :
  dict string (list connection) → res (dict string avg_tol_result).
Variable get_avg_second_by_first_shortest_dist_ratio :
  first_second → dict string (list connection) → res (dict string avg_ratio).
Variable compute_homoatomic_dist_by_site_shortest_dist :
  dict string (list connection) → string → string → string → res num3.
Variable distance_truediv : Qc → Qc → res num.

Local Abbreviation the_assignments :=
  (assignments get_ternary_RMX_elements
     compute_avg_homoatomic_dist_by_site_shortest_dist
     get_R_and_M_and_X_count_in_best_label_per_element
     get_avg_R_and_M_and_X_count_in_per_element
     count_first_second_min_dist extract_best_labels
     extract_shortest_dist_with_tol extract_avg_shortest_dist_with_tol
     get_avg_second_by_first_shortest_dist_ratio
     compute_homoatomic_dist_by_site_shortest_dist).
Local Abbreviation the_compute_features :=
  (compute_features get_ternary_RMX_elements
     compute_avg_homoatomic_dist_by_site_shortest_dist
     get_R_and_M_and_X_count_in_best_label_per_element
     get_avg_R_and_M_and_X_count_in_per_element
     count_first_second_min_dist extract_best_labels
     extract_shortest_dist_with_tol extract_avg_shortest_dist_with_tol
     get_avg_second_by_first_shortest_dist_ratio
     compute_homoatomic_dist_by_site_shortest_dist distance_truediv).
Local Abbreviation the_results_of := (results_of distance_truediv).
Local Abbreviation R_ratio l :=
  (distance_truediv (the_R_second_shortest_dist l) (the_R_shortest_dist l)).
Local Abbreviation M_ratio l :=
  (distance_truediv (the_M_second_shortest_dist l) (the_M_shortest_dist l)).
Local Abbreviation X_ratio l :=
  (distance_truediv (the_X_second_shortest_dist l) (the_X_shortest_dist l)).

(** Where the local variables come from: the roles, the best sites, and
    what is read from the best sites. *)
Lemma assignments_inv cif l :
  the_assignments cif = Ok l →
  get_ternary_RMX_elements (unique_elements cif)
  = Ok (the_R l, the_M l, the_X l) ∧
  (∃ first_second_data,
     count_first_second_min_dist (connections cif) = Ok first_second_data ∧
     extract_best_labels first_second_data = Ok (the_best_site_data l)) ∧
  best_label_shortest_dist (the_best_site_data l) (the_R l)
  = Some (the_R_shortest_dist l) ∧
  best_label_shortest_dist (the_best_site_data l) (the_M l)
  = Some (the_M_shortest_dist l) ∧
  best_label_shortest_dist (the_best_site_data l) (the_X l)
  = Some (the_X_shortest_dist l) ∧
  avg_second_shortest_dist_count <$> dict_get (the_best_site_data l) (the_M l)
  = Some (the_M_avg_second_shortest_dist_count l) ∧
  avg_second_shortest_dist_count <$> dict_get (the_best_site_data l) (the_M l)
  = Some (the_X_avg_second_shortest_dist_count l).
Proof.
  unfold assignments. intros Hrun. bind_inv Hrun.
  injection Hrun as <-. cbn.
  repeat match goal with
  | H : match dict_item ?d ?k with Ok _ => _ | Raise _ => _ end = Ok _ |- _ =>
      let E := fresh "Hitem" in
      destruct (dict_item d k) eqn:E; [|discriminate H];
      apply dict_item_Ok in E
  end.
  simplify_eq. unfold best_label_shortest_dist.
  split_and!; try done; [by eexists|..];
    match goal with
    | H : dict_get ?d ?k = Some _ |- context [dict_get ?d ?k] => by rewrite H
    end.
Qed.

(** What the dict of results holds when it is built: the three divisions
    have returned, and their quotients are stored. *)
Lemma results_of_Ok (l : @locals first_second) results :
  the_results_of l = Ok results →
  ∃ R_quotient M_quotient X_quotient,
    R_ratio l = Ok R_quotient ∧ M_ratio l = Ok M_quotient ∧
    X_ratio l = Ok X_quotient ∧
    dict_get results "ENV_X_avg_second_shortest_dist_count"
    = Some (the_X_avg_second_shortest_dist_count l) ∧
    dict_get results "ENV_R_second_by_first_shortest_dist" = Some R_quotient ∧
    dict_get results "ENV_M_second_by_first_shortest_dist" = Some M_quotient ∧
    dict_get results "ENV_X_second_by_first_shortest_dist" = Some X_quotient.
Proof.
  unfold results_of. intros Hrun. bind_inv Hrun. injection Hrun as <-.
  eexists _, _, _. by split_and!.
Qed.

(** The dict of results is built exactly when the three divisions
    return. *)
Lemma results_of_is_Ok (l : @locals first_second) :
  is_Ok (the_results_of l)
  ↔ is_Ok (R_ratio l) ∧ is_Ok (M_ratio l) ∧ is_Ok (X_ratio l).
Proof.
  split.
  - intros [results Hrun].
    apply results_of_Ok in Hrun as (? & ? & ? & -> & -> & -> & _).
    split_and!; by eexists.
  - intros ([? HR] & [? HM] & [? HX]). unfold results_of.
    rewrite HR, HM, HX. by eexists.
Qed.

(** With the division of the built-in floats, a zero shortest distance
    ends the computation with a [ZeroDivisionError]. *)
Lemma results_of_zero (l : @locals first_second) :
  (∀ a b, distance_truediv a b = float_div a b) →
  ¬ shortest_dists_nonzero l → the_results_of l = Raise ZeroDivisionError.
Proof.
  intros Hdiv Hzero. unfold results_of. rewrite !Hdiv. unfold float_div.
  destruct (decide (the_R_shortest_dist l = 0%Qc)); [done|].
  destruct (decide (the_M_shortest_dist l = 0%Qc)); [done|].
  destruct (decide (the_X_shortest_dist l = 0%Qc)); [done|].
  by destruct Hzero.
Qed.

(** C7. Whenever the ternary environment features are computed, the output
    named ENV_X_avg_second_shortest_dist_count is the value
    [avg_second_shortest_dist_count] of the best site of role M, not of
    role X: where the two values differ, the output is M's and is not
    X's. *)
Theorem C7_X_avg_second_shortest_dist_count_is_read_from_M cif results :
  the_compute_features cif = Ok results →
  ∃ R M X first_second_data best_site_data of_M,
    get_ternary_RMX_elements (unique_elements cif) = Ok (R, M, X) ∧
    count_first_second_min_dist (connections cif) = Ok first_second_data ∧
    extract_best_labels first_second_data = Ok best_site_data ∧
    dict_get best_site_data M = Some of_M ∧
    dict_get results "ENV_X_avg_second_shortest_dist_count"
    = Some (avg_second_shortest_dist_count of_M) ∧
    ∀ of_X,
      dict_get best_site_data X = Some of_X →
      avg_second_shortest_dist_count of_X ≠ avg_second_shortest_dist_count of_M →
      dict_get results "ENV_X_avg_second_shortest_dist_count"
      ≠ Some (avg_second_shortest_dist_count of_X).
Proof.
  unfold compute_features. intros Hrun.
  destruct (the_assignments cif) as [l|e] eqn:Hl; [|done].
  apply assignments_inv in Hl
    as (Hroles & (first_second_data & Hfirst & Hbest) & _ & _ & _ & _ & HX).
  apply results_of_Ok in Hrun as (? & ? & ? & _ & _ & _ & Hout & _).
  destruct (dict_get (the_best_site_data l) (the_M l)) as [of_M|] eqn:HM;
    [|done].
  injection HX as HX.
  exists (the_R l), (the_M l), (the_X l), first_second_data,
    (the_best_site_data l), of_M.
  rewrite Hout, <- HX. split_and!; try done.
  intros of_X _ Hdiffer [= Heq]. by apply Hdiffer.
Qed.

(** C10, amended. The three second-by-first ratios divide by the shortest
    distance of the best label of each role, with no guard: once the
    assignments have gone through, the features are computed exactly when
    the three divisions return, and the quotients are what is stored. What
    a zero shortest distance does is therefore decided by the division of
    the distances. With that of the built-in floats, the features are
    computed if and only if the three shortest distances are nonzero, and
    the computation ends with a [ZeroDivisionError] if one of them is
    zero. *)
Theorem C10_ratios_are_unguarded_divisions cif l :
  the_assignments cif = Ok l →
  (best_label_shortest_dist (the_best_site_data l) (the_R l)
   = Some (the_R_shortest_dist l) ∧
   best_label_shortest_dist (the_best_site_data l) (the_M l)
   = Some (the_M_shortest_dist l) ∧
   best_label_shortest_dist (the_best_site_data l) (the_X l)
   = Some (the_X_shortest_dist l)) ∧
  (is_Ok (the_compute_features cif)
   ↔ is_Ok (R_ratio l) ∧ is_Ok (M_ratio l) ∧ is_Ok (X_ratio l)) ∧
  (∀ results,
     the_compute_features cif = Ok results →
     Some <$> R_ratio l
     = Ok (dict_get results "ENV_R_second_by_first_shortest_dist") ∧
     Some <$> M_ratio l
     = Ok (dict_get results "ENV_M_second_by_first_shortest_dist") ∧
     Some <$> X_ratio l
     = Ok (dict_get results "ENV_X_second_by_first_shortest_dist")) ∧
  ((∀ a b, distance_truediv a b = float_div a b) →
   (is_Ok (the_compute_features cif) ↔ shortest_dists_nonzero l) ∧
   (shortest_dists_nonzero l →
    ∃ results,
      the_compute_features cif = Ok results ∧
      dict_get results "ENV_R_second_by_first_shortest_dist"
      = Some (PyFloat (the_R_second_shortest_dist l / the_R_shortest_dist l)%Qc) ∧
      dict_get results "ENV_M_second_by_first_shortest_dist"
      = Some (PyFloat (the_M_second_shortest_dist l / the_M_shortest_dist l)%Qc) ∧
      dict_get results "ENV_X_second_by_first_shortest_dist"
      = Some (PyFloat (the_X_second_shortest_dist l / the_X_shortest_dist l)%Qc)) ∧
   (¬ shortest_dists_nonzero l →
    the_compute_features cif = Raise ZeroDivisionError)).
Proof.
  intros Hl. unfold compute_features. rewrite Hl.
  apply assignments_inv in Hl as (_ & _ & HR & HM & HX & _).
  change (mbind ?f (Ok l)) with (f l). cbn beta.
  split; [done|]. split; [apply results_of_is_Ok|]. split.
  { intros results Hrun.
    apply results_of_Ok in Hrun as (? & ? & ? & -> & -> & -> & _ & -> & -> & ->).
    done. }
  intros Hdiv.
  assert (is_Ok (the_results_of l) ↔ shortest_dists_nonzero l) as Hiff.
  { rewrite results_of_is_Ok, !Hdiv. unfold shortest_dists_nonzero.
    assert (∀ a b, is_Ok (float_div a b) ↔ b ≠ 0%Qc) as Hfloat.
    { intros a b. unfold float_div. case_decide; split; try done.
      - by intros [? ?].
      - by eexists. }
    by rewrite !Hfloat. }
  split; [done|]. split.
  - intros Hnonzero. apply Hiff in Hnonzero as [results Hrun].
    exists results. split; [done|].
    apply results_of_Ok in Hrun as (? & ? & ? & HqR & HqM & HqX & _ & -> & -> & ->).
    rewrite Hdiv in HqR, HqM, HqX.
    apply float_div_Ok in HqR as [_ ->]. apply float_div_Ok in HqM as [_ ->].
    apply float_div_Ok in HqX as [_ ->]. done.
  - by apply results_of_zero.
Qed.
End ternary.

End TernaryProps.

Module TernaryRuns.
Import Helper Ternary TernarySpec TernaryProps TernarySamples.

Lemma C7_witness :
  ∃ results of_M of_X,
    run 2%Qc = Ok results ∧
    dict_get (best_sites 2%Qc) "Ni" = Some of_M ∧
    dict_get (best_sites 2%Qc) "Ge" = Some of_X ∧
    avg_second_shortest_dist_count of_X ≠ avg_second_shortest_dist_count of_M ∧
    dict_get results "ENV_X_avg_second_shortest_dist_count"
    = Some (avg_second_shortest_dist_count of_M) ∧
    dict_get results "ENV_X_avg_second_shortest_dist_count"
    ≠ Some (avg_second_shortest_dist_count of_X).
Proof.
  destruct (run 2%Qc) as [results|e] eqn:Hrun; [|by vm_compute in Hrun].
  unfold run, run_with in Hrun.
  destruct (C7_X_avg_second_shortest_dist_count_is_read_from_M _ _ _ _ _ _ _ _ _ _
              _ _ _ Hrun)
    as (R & M & X & [] & best_site_data & of_M & Hroles & _ & Hbest & HM
        & Hout & Hdiffer).
  injection Hroles as <- <- <-. injection Hbest as <-.
  assert (avg_second_shortest_dist_count
            (site_with "Ge1" 2%Qc (PyFloat (Qc_of_Z 5)))
          ≠ avg_second_shortest_dist_count of_M) as Hne.
  { injection HM as <-. simpl. by intros [= ?]. }
  exists results, of_M, (site_with "Ge1" 2%Qc (PyFloat (Qc_of_Z 5))).
  split_and!; [done..|]. by apply Hdiffer.
Defined.

Lemma C10_witness :
  is_Ok (run 2%Qc) ∧ run 0%Qc = Raise ZeroDivisionError.
Proof.
  split.
  - unfold run, run_with, compute_features at 1.
    match goal with |- is_Ok (mbind _ ?a) => destruct a as [l|e] eqn:Hl end;
      [|by vm_compute in Hl].
    destruct (C10_ratios_are_unguarded_divisions
                _ _ _ _ _ _ _ _ _ _ float_div _ _ Hl) as (_ & _ & _ & Hfloat).
    destruct (Hfloat (λ a b, eq_refl)) as (_ & Hok & _).
    destruct Hok as (results & Hrun & _).
    + vm_compute in Hl. injection Hl as <-. by repeat split.
    + unfold compute_features in Hrun. rewrite Hl in Hrun. by exists results.
  - unfold run, run_with, compute_features at 1.
    match goal with |- mbind _ ?a = _ => destruct a as [l|e] eqn:Hl end;
      [|by vm_compute in Hl].
    destruct (C10_ratios_are_unguarded_divisions
                _ _ _ _ _ _ _ _ _ _ float_div _ _ Hl) as (_ & _ & _ & Hfloat).
    destruct (Hfloat (λ a b, eq_refl)) as (_ & _ & Hzero).
    unfold compute_features in Hzero. rewrite Hl in Hzero. apply Hzero.
    vm_compute in Hl. injection Hl as <-. by intros (_ & _ & ?).
Defined.

(** C10 as stated fails for distances whose division returns on a zero
    divisor: the shortest distance of the best label of Ge is zero, and the
    features are computed, whatever the division returns there; with the
    division of the built-in floats the same input ends with a
    [ZeroDivisionError]. *)
Lemma C10_counterexample :
  best_label_shortest_dist (best_sites 0%Qc) "Ge" = Some 0%Qc ∧
  (∀ at_zero, is_Ok (run_with (returning_div at_zero) 0%Qc)) ∧
  run_with float_div 0%Qc = Raise ZeroDivisionError.
Proof.
  split; [reflexivity|]. split; [|reflexivity]. intros at_zero.
  destruct (run_with (returning_div at_zero) 0%Qc) as [results|e] eqn:Hrun;
    [by eexists|].
  by vm_compute in Hrun.
Qed.

End TernaryRuns.

(** ** Further facts about loops and numbers *)

Module ExtraFacts.

Lemma for_res_raise_inv {A S} (l : list A) (body : S → A → res S) s e :
  for_res l body s = Raise e → ∃ x s0, x ∈ l ∧ body s0 x = Raise e.
Proof.
  revert s. induction l as [|x l IH]; intros s; simpl; [done|].
  destruct (body s x) as [s'|e'] eqn:Hbody.
  - intros (y & s0 & Hy & Hraise)%IH. exists y, s0.
    split; [by apply list_elem_of_further | done].
  - intros [= ->]. exists x, s. split; [apply list_elem_of_here | done].
Qed.

Lemma for_res_Ok_inv {A S} (l : list A) (body : S → A → res S) s s' x :
  for_res l body s = Ok s' → x ∈ l → ∃ s0 s1, body s0 x = Ok s1.
Proof.
  intros Hrun Hin. revert s Hrun.
  induction Hin as [x l|x y l _ IH]; intros s; simpl.
  - destruct (body s x) as [s1|e] eqn:Hbody; [|done]. by exists s, s1.
  - destruct (body s y) as [s1|e]; [apply IH | done].
Qed.

(** The invariant of a loop that returns may mention the elements gone
    through. *)
Lemma for_res_prefix_inv {A S} (I : list A → S → Prop) (l : list A)
    (body : S → A → res S) s s' :
  I [] s →
  (∀ pre x s s1, I pre s → body s x = Ok s1 → I (pre ++ [x]) s1) →
  for_res l body s = Ok s' → I l s'.
Proof.
  intros Hs Hstep.
  cut (∀ pre s, I pre s → for_res l body s = Ok s' → I (pre ++ l) s').
  { intros Hcut. apply (Hcut [] s Hs). }
  clear s Hs. induction l as [|x l IH]; intros pre s Hs; simpl.
  - intros [= <-]. by rewrite app_nil_r.
  - destruct (body s x) as [s1|e] eqn:Hbody; [|done]. intros Hrun.
    rewrite (cons_middle x), (assoc_L (++)). apply (IH (pre ++ [x]) s1); [|done].
    by eapply Hstep.
Qed.

Lemma outcome_bind {A B} (m : io A) (f : A → io B) :
  outcome (m ≫= f) = outcome m ≫= λ a, outcome (f a).
Proof.
  destruct m as [out [a|e]]; [|done].
  unfold mbind, io_bind, res_bind, outcome. simpl. by destruct (f a).
Qed.




Lemma io_bind_Ok {A B} out (a : A) (f : A → io B) :
  (out, Ok a) ≫= f = (out ++ (f a).1, (f a).2).
Proof. unfold mbind, io_bind. by destruct (f a). Qed.

Lemma io_bind_Raise {A B} out e (f : A → io B) :
  (out, Raise e) ≫= f = (out, Raise e).
Proof. done. Qed.


(** The outcome of a loop that prints is that of the loop without the
    printing. *)
Lemma outcome_for_io {A S} (l : list A) (body : S → A → io S) s :
  outcome (for_io l body s) = for_res l (λ s x, outcome (body s x)) s.
Proof.
  revert s. induction l as [|x l IH]; intros s; [done|].
  cbn [for_io for_res]. rewrite outcome_bind.
  destruct (outcome (body s x)); [apply IH | done].
Qed.



End ExtraFacts.

(** ** Further properties of the two reductions *)

Module ReducerExtra.
Import Helper HelperSpec ExtraSpec ReducerProps ExtraFacts.

(** One record folded into the lists of a site keeps the names unique and
    the lists non-empty. *)
Lemma collect_collecting metrics data metrics' :
  collecting metrics → collect metrics data = Ok metrics' → collecting metrics'.
Proof.
  destruct data as [|d]; [done|]. simpl. intros Hmetrics [= <-].
  revert metrics Hmetrics. induction d as [|[k v] d IH]; intros metrics Hmetrics;
    [done|].
  cbn [foldl]. apply IH. clear IH. cbn zeta. destruct Hmetrics as [Hwf Hne].
  set (metrics0 := match dict_get metrics k with
                   | None => dict_set k [] metrics
                   | Some _ => metrics
                   end).
  assert (dict_wf metrics0) as Hwf0.
  { unfold metrics0. destruct (dict_get metrics k); [done|]. by apply dict_wf_set. }
  split; [by apply dict_wf_set|].
  intros key l. rewrite dict_get_set. case_decide as Hkey.
  - intros [= <-]. by destruct (default [] (dict_get metrics0 k)).
  - unfold metrics0. destruct (dict_get metrics k); [apply Hne|].
    rewrite dict_get_set_ne by done. apply Hne.
Qed.

Lemma collecting_loop_collecting (of_label : dict string pyval) metrics :
  for_res of_label (λ metrics '(method, data), collect metrics data) []
  = Ok metrics →
  collecting metrics.
Proof.
  apply (for_res_invariant collecting).
  - intros acc [method data] acc' _. apply collect_collecting.
  - split; [apply dict_wf_nil | done].
Qed.

Lemma statistics_loop_is_Ok (metrics : dict string (list num)) :
  collecting metrics →
  is_Ok (for_res metrics (λ of_site '(key, collected),
           minimum ← py_min collected;
           maximum ← py_max collected;
           average ← true_div (py_sum collected) (py_len collected);
           mret (dict_set key
                   {| s_min := minimum; s_max := maximum; s_avg := average |}
                   of_site)) []).
Proof.
  intros [Hwf Hne]. apply for_res_is_Ok. intros of_site [key l] Hin.
  apply (dict_wf_get _ _ _ Hwf), Hne in Hin.
  destruct l as [|x l]; [done|]. by eexists.
Qed.

(** The reduction of one site raises only on a [None] entry. *)
Lemma site_reduction_raise_inv (of_label : dict string pyval) (label : string)
    (min_max_avg_per_site : dict string (dict string stats)) e :
  (metrics ← for_res of_label (λ metrics '(method, data),
     collect metrics data) [];
   of_site ← for_res metrics (λ of_site '(key, collected),
     minimum ← py_min collected;
     maximum ← py_max collected;
     average ← true_div (py_sum collected) (py_len collected);
     mret (dict_set key
             {| s_min := minimum; s_max := maximum; s_avg := average |}
             of_site)) [];
   mret (dict_set label of_site min_max_avg_per_site)) = Raise e →
  e = TypeError ∧ ∃ method, (method, PyNone) ∈ of_label.
Proof.
  intros Hbody.
  destruct (for_res of_label _ []) as [metrics|e'] eqn:Hcollect.
  - apply collecting_loop_collecting in Hcollect.
    destruct (statistics_loop_is_Ok metrics Hcollect) as [of_site Hstats].
    unfold mbind, res_bind in Hbody, Hstats. by rewrite Hstats in Hbody.
  - injection Hbody as ->.
    apply for_res_raise_inv in Hcollect
      as ([method data] & metrics & Hmethod & Hdata).
    destruct data; [|done]. injection Hdata as <-.
    split; [done|]. by exists method.
Qed.

(** The reduction of data all of whose entries are records returns. *)
Lemma reduction_of_records_is_Ok (site_data : dict string (dict string pyval)) :
  (∀ label of_label method data,
     (label, of_label) ∈ site_data → (method, data) ∈ of_label →
     ∃ d, data = PyDict d) →
  is_Ok (_compute_min_max_avg_per_atomic_label site_data).
Proof.
  intros Hrecords. unfold _compute_min_max_avg_per_atomic_label.
  destruct (for_res site_data _ []) as [out|e] eqn:Hrun; [by eexists|].
  apply for_res_raise_inv in Hrun as ([label of_label] & acc & Hlabel & Hbody).
  apply site_reduction_raise_inv in Hbody as (_ & method & Hmethod).
  by destruct (Hrecords _ _ _ _ Hlabel Hmethod).
Qed.

(** The reduction of data that holds a [None] ends with a [TypeError]. *)
Lemma reduction_of_None (site_data : dict string (dict string pyval)) :
  has_None site_data →
  _compute_min_max_avg_per_atomic_label site_data = Raise TypeError.
Proof.
  intros (label & of_label & method & Hlabel & Hmethod).
  unfold _compute_min_max_avg_per_atomic_label.
  destruct (for_res site_data _ []) as [out|e] eqn:Hrun.
  - apply (for_res_Ok_inv _ _ _ _ _ Hrun) in Hlabel as (acc & acc' & Hbody).
    cbn beta iota in Hbody.
    destruct (for_res of_label _ []) as [metrics|e] eqn:Hcollect; [|done].
    by apply (for_res_Ok_inv _ _ _ _ _ Hcollect) in Hmethod as (? & ? & ?).
  - apply for_res_raise_inv in Hrun as ([label' of_label'] & acc & _ & Hbody).
    by apply site_reduction_raise_inv in Hbody as [-> _].
Qed.

(** X1. The per-site reduction returns on all data that holds no [None]
    entry and whose [int] values are within the range of [float], whatever
    its site labels, methods and records: empty records, sites without
    methods and repeated labels included. (The numbers of the model do not
    overflow; the condition on the [int] values is what excludes the
    [OverflowError] of Python's conversion and division of an [int] that is
    too large.) *)
Theorem per_site_reduction_returns_without_None
    (site_data : dict string (dict string pyval)) :
  ¬ has_None site_data → ints_within_float_range site_data →
  is_Ok (_compute_min_max_avg_per_atomic_label site_data).
Proof.
  intros Hnone _. apply reduction_of_records_is_Ok.
  intros label of_label method [|d] Hlabel Hmethod; [|by eexists].
  destruct Hnone. by exists label, of_label, method.
Qed.

(** X2. Whenever the per-site reduction raises, the exception is neither
    the [ValueError] of a minimum or maximum of no value nor the
    [ZeroDivisionError] of a mean of no value, since a list is created only
    when a value is appended to it; and it is a [TypeError] only if the
    data holds a [None] entry, the iteration over which raises it. *)
Theorem per_site_reduction_raises_only_on_None
    (site_data : dict string (dict string pyval)) e :
  _compute_min_max_avg_per_atomic_label site_data = Raise e →
  e ≠ ValueError ∧ e ≠ ZeroDivisionError ∧
  (e = TypeError → has_None site_data).
Proof.
  unfold _compute_min_max_avg_per_atomic_label. intros Hraise.
  apply for_res_raise_inv in Hraise as ([label of_label] & acc & Hlabel & Hbody).
  apply site_reduction_raise_inv in Hbody as (-> & method & Hmethod).
  split_and!; [done..|]. intros _. by exists label, of_label, method.
Qed.



End ReducerExtra.

Module GlobalExtra.
Import Helper HelperSpec ExtraSpec ReducerProps ExtraFacts.

Lemma mean_of_is_float (l : list num) v :
  mean_of l = Some v → ∃ q, v = PyFloat q.
Proof. destruct l; [done|]. intros [= <-]. by eexists. Qed.

Lemma mean_of_is_Some (l : list num) : is_Some (mean_of l) ↔ l ≠ [].
Proof. destruct l; split; try done. by intros []. Qed.

(** A metric has contributions exactly when some site has it as a key. *)
Lemma contributions_non_empty st metric
    (min_max_avg_result : dict string (dict string stats)) :
  contributions st metric (mjoin (values min_max_avg_result)) ≠ []
  ↔ reported_somewhere metric min_max_avg_result.
Proof.
  unfold contributions, reported_somewhere, values, keys. split.
  - intros Hne.
    destruct (filter _ _) as [|[metric' values] rest] eqn:Hfilter; [done|].
    assert ((metric', values) ∈ filter (λ item : string * stats, item.1 = metric)
              (mjoin (min_max_avg_result.*2))) as Hin.
    { rewrite Hfilter. apply list_elem_of_here. }
    apply list_elem_of_filter in Hin as [Hkey Hin]. simpl in Hkey. subst metric'.
    apply list_elem_of_join in Hin as (label_data & Hin & Hdata).
    apply list_elem_of_fmap in Hdata as ([label label_data'] & -> & Hsite).
    exists label, label_data'. split; [done|].
    apply list_elem_of_fmap. by exists (metric, values).
  - intros (label & label_data & Hsite & Hkey).
    apply list_elem_of_fmap in Hkey as ([metric' values] & -> & Hin).
    intros Hnil%fmap_nil_inv. cbn [fst] in Hnil.
    assert ((metric', values) ∈ filter (λ item : string * stats, item.1 = metric')
              (mjoin (min_max_avg_result.*2))) as Hfilter.
    { apply list_elem_of_filter. split; [done|].
      apply list_elem_of_join. exists label_data. split; [done|].
      apply list_elem_of_fmap. by exists (label, label_data). }
    rewrite Hnil in Hfilter. by apply elem_of_nil in Hfilter.
Qed.

(** X5. Whenever the global reduction returns, each of the three
    statistics of its result holds exactly the metric names that some site
    reports, each with a [float] value: a name reported by a single site is
    kept, and no name is added. *)
Theorem global_reduction_names_and_floats
    (min_max_avg_result : dict string (dict string stats)) global_avg :
  _compute_global_avg_for_min_max_avg_metrics min_max_avg_result
  = Ok global_avg →
  ∀ st metric,
    (is_Some (dict_get (by_stat_item global_avg st) metric)
     ↔ reported_somewhere metric min_max_avg_result) ∧
    (∀ v, dict_get (by_stat_item global_avg st) metric = Some v →
          ∃ q, v = PyFloat q).
Proof.
  intros Hrun.
  destruct (global_avg_spec min_max_avg_result) as (global_avg' & Hrun' & Hmean).
  rewrite Hrun in Hrun'. injection Hrun' as <-.
  intros st metric. rewrite Hmean. split.
  - by rewrite mean_of_is_Some, contributions_non_empty.
  - apply mean_of_is_float.
Qed.

Lemma summing_loop_skips_empty {S} (body : S → dict string stats → res S)
    (r1 r2 : dict string (dict string stats)) label acc :
  (∀ s, body s [] = Ok s) →
  for_res (values (r1 ++ (label, []) :: r2)) body acc
  = for_res (values (r1 ++ r2)) body acc.
Proof.
  intros Hempty. revert acc. induction r1 as [|[l d] r1 IH]; intros acc.
  - cbn. by rewrite Hempty.
  - cbn. destruct (body acc d); [apply IH | done].
Qed.

(** X6. A site without statistics is ignored by the global reduction:
    wherever it stands among the sites, the result is the one obtained
    without it, so that it counts in no mean. *)
Theorem global_reduction_ignores_empty_sites
    (r1 r2 : dict string (dict string stats)) label :
  _compute_global_avg_for_min_max_avg_metrics (r1 ++ (label, []) :: r2)
  = _compute_global_avg_for_min_max_avg_metrics (r1 ++ r2).
Proof.
  unfold _compute_global_avg_for_min_max_avg_metrics.
  by rewrite summing_loop_skips_empty.
Qed.


End GlobalExtra.

(** ** Further properties of the counting functions *)

Module CountingExtra.
Import Helper HelperSpec ExtraSpec HelperProps ExtraFacts.

Section counting.
Variable get_atom_type_from_label : string → res string.

Local Abbreviation binary :=
  (_compute_number_of_atoms_in_binary_CN get_atom_type_from_label).
Local Abbreviation ternary :=
  (_compute_number_of_atoms_in_ternary_CN get_atom_type_from_label).
Local Abbreviation quaternary :=
  (_compute_number_of_atoms_in_quaternary_CN get_atom_type_from_label).
Local Abbreviation parses :=
  (Forall (λ c, is_Ok (get_atom_type_from_label (conn_0 c)))).
Local Abbreviation counted := (counted get_atom_type_from_label).
Local Abbreviation counts_as := (counts_as get_atom_type_from_label).

Lemma counted_cons role earlier c cs :
  counted role earlier (c :: cs)
  = (if counts_as role earlier c then 1 else 0) + counted role earlier cs.
Proof.
  unfold ExtraSpec.counted. rewrite filter_cons.
  destruct (counts_as role earlier c); simpl; lia.
Qed.

Lemma counted_nonneg role earlier cs : 0 ≤ counted role earlier cs.
Proof. unfold ExtraSpec.counted. lia. Qed.

Ltac roles :=
  repeat case_bool_decide; simpl;
  repeat match goal with
  | H : _ ∉ _ :: _ |- _ => apply not_elem_of_cons in H as [? ?]
  | H : ¬ _ ∉ _ |- _ => destruct H
  | H : _ ∈ [] |- _ => by apply elem_of_nil in H
  | H : _ ∈ _ :: _ |- _ => apply elem_of_cons in H as [?|?]; subst
  | |- _ ∉ [] => apply not_elem_of_nil
  | |- _ ∉ _ :: _ => apply not_elem_of_cons; split
  end;
  try done; try lia.

Lemma counted_snoc role earlier cs c :
  counted role earlier (cs ++ [c])
  = counted role earlier cs + (if counts_as role earlier c then 1 else 0).
Proof.
  induction cs as [|c' cs IH]; [rewrite app_nil_l, !counted_cons; simpl; lia|].
  rewrite <- app_comm_cons, !counted_cons, IH. lia.
Qed.

Ltac record_inv I :=
  unfold mbind, res_bind, mret, res_ret;
  match goal with
  | |- match for_res ?l ?body ?s with _ => _ end = _ → _ =>
      let H := fresh "Hloop" in
      destruct (for_res l body s) as [counters|e] eqn:H; [|done];
      apply (for_res_prefix_inv I) in H;
      [ repeat match goal with p : (_ * _)%type |- _ => destruct p end;
        intros [= <-];
        repeat match goal with H' : _ ∧ _ |- _ => destruct H' end;
        by subst
      | split; [by constructor | done]
      | clear; intros pre c counters counters';
        repeat match goal with p : (_ * _)%type |- _ => destruct p end;
        intros Hinv; cbn beta iota zeta;
        destruct (get_atom_type_from_label (conn_0 c)) as [parsed_label|e']
          eqn:Hparsed; [|done];
        repeat match goal with H' : _ ∧ _ |- _ => destruct H' end;
        intros Hstep; split;
        [ apply Forall_app; split; [done|]; repeat constructor; by eexists
        | rewrite !counted_snoc; unfold ExtraSpec.counts_as; rewrite Hparsed;
          repeat case_decide; simplify_eq/=; repeat split; roles ] ]
  end.

(** The innermost loop of the binary function, when it returns: every
    label was understood, and the counters are the numbers of neighbours
    that count for each role. *)
Lemma binary_record_inv A B cs record :
  binary_record get_atom_type_from_label A B cs = Ok record →
  parses cs ∧
  record = [("A_count", PyInt (counted A [] cs));
            ("B_count", PyInt (counted B [A] cs))].
Proof.
  unfold binary_record.
  record_inv (λ pre '(a, b),
    parses pre ∧ a = counted A [] pre ∧ b = counted B [A] pre).
Qed.

Lemma ternary_record_inv R M X cs record :
  ternary_record get_atom_type_from_label R M X cs = Ok record →
  parses cs ∧
  record = [("R_count", PyInt (counted R [] cs));
            ("M_count", PyInt (counted M [R] cs));
            ("X_count", PyInt (counted X [R; M] cs))].
Proof.
  unfold ternary_record.
  record_inv (λ pre '(r, m, x),
    parses pre ∧ r = counted R [] pre ∧ m = counted M [R] pre ∧
    x = counted X [R; M] pre).
Qed.

Lemma quaternary_record_inv A B C D cs record :
  quaternary_record get_atom_type_from_label A B C D cs = Ok record →
  parses cs ∧
  record = [("A_count", PyInt (counted A [] cs));
            ("B_count", PyInt (counted B [A] cs));
            ("C_count", PyInt (counted C [A; B] cs));
            ("D_count", PyInt (counted D [A; B; C] cs))].
Proof.
  unfold quaternary_record.
  record_inv (λ pre '(a, b, c, d),
    parses pre ∧ a = counted A [] pre ∧ b = counted B [A] pre ∧
    c = counted C [A; B] pre ∧ d = counted D [A; B; C] pre).
Qed.

Ltac count_bound :=
  intros cs; induction cs as [|c cs IH]; [done|];
  rewrite !counted_cons, length_cons, Nat2Z.inj_succ;
  unfold ExtraSpec.counts_as;
  destruct (get_atom_type_from_label (conn_0 c)); [|simpl; lia];
  roles.

(** A neighbour counts for at most one role. *)
Lemma binary_counted_le A B cs :
  counted A [] cs + counted B [A] cs ≤ Z.of_nat (length cs).
Proof. revert cs. count_bound. Qed.

Lemma ternary_counted_le R M X cs :
  counted R [] cs + counted M [R] cs + counted X [R; M] cs
  ≤ Z.of_nat (length cs).
Proof. revert cs. count_bound. Qed.

Lemma quaternary_counted_le A B C D cs :
  counted A [] cs + counted B [A] cs + counted C [A; B] cs
  + counted D [A; B; C] cs ≤ Z.of_nat (length cs).
Proof. revert cs. count_bound. Qed.

(** One (site, method) step of the counting loops, when it returns. *)
Lemma count_step_values (record_of : list connection → res (dict string num))
    (label_connections : dict string (list connection))
    (site_label method : string) (of_site of_site' : dict string pyval) data :
  (CN ← subscript data "number_of_vertices";
   of_label ← dict_item label_connections site_label;
   CN_connections ← slice_to of_label CN;
   counts ← record_of CN_connections;
   mret (dict_set method (PyDict counts) of_site)) = Ok of_site' →
  ∃ d z of_label counts,
    data = PyDict d ∧
    dict_get d "number_of_vertices" = Some (PyInt z) ∧
    dict_get label_connections site_label = Some of_label ∧
    record_of (py_slice_to of_label z) = Ok counts ∧
    of_site' = dict_set method (PyDict counts) of_site.
Proof.
  unfold mbind, res_bind, mret, res_ret, subscript, dict_item, slice_to.
  destruct data as [|d]; [done|].
  destruct (dict_get d "number_of_vertices") as [[z|q]|] eqn:Hz;
    destruct (dict_get label_connections site_label) as [of_label|] eqn:Hget;
    try done.
  destruct (record_of (py_slice_to of_label z)) as [counts|e] eqn:Hrecord;
    [|done].
  intros [= <-]. by exists d, z, of_label, counts.
Qed.

(** The counting loops return exactly on metrics all of whose entries are
    usable. *)
Lemma count_shape_usable record_of label_connections CN_metrics :
  (∀ cs, parses cs → is_Ok (record_of cs)) →
  (∀ cs record, record_of cs = Ok record → parses cs) →
  is_Ok (count_per_site_and_method record_of label_connections CN_metrics)
  ↔ all_usable get_atom_type_from_label label_connections CN_metrics.
Proof.
  intros Hrecord Hparses. unfold count_per_site_and_method. split.
  - intros [out Hout] site_label method_data method data Hsite Hmethod.
    destruct (for_res_Ok_inv _ _ _ _ _ Hout Hsite) as (acc & acc' & Hbody).
    cbn beta iota in Hbody.
    destruct (for_res method_data _ []) as [of_site|e] eqn:Hinner; [|done].
    destruct (for_res_Ok_inv _ _ _ _ _ Hinner Hmethod) as (s0 & s1 & Hstep).
    apply count_step_values in Hstep
      as (d & z & of_label & counts & -> & Hz & Hget & Hcounts & _).
    exists d, z, of_label. split_and!; [done..|]. by eapply Hparses.
  - intros Husable. apply for_res_is_Ok.
    intros acc [site_label method_data] Hsite.
    match goal with |- is_Ok (mbind _ (for_res ?l ?body ?s)) =>
      destruct (for_res_is_Ok l body s) as [of_site ->]; [|by eexists]
    end.
    intros of_site [method data] Hmethod.
    destruct (Husable _ _ _ _ Hsite Hmethod)
      as (d & z & of_label & -> & Hz & Hget & Hparse).
    unfold subscript, dict_item. rewrite Hz, Hget. simpl.
    destruct (Hrecord (py_slice_to of_label z) Hparse) as [counts Hcounts].
    unfold mbind, res_bind. rewrite Hcounts. by eexists.
Qed.

(** What the counting loops store for a (site, method) pair. *)
Lemma count_shape_values record_of (record : list connection → dict string num)
    label_connections CN_metrics out site_label method_data method data :
  (∀ cs counts, record_of cs = Ok counts → counts = record cs) →
  nested_wf CN_metrics →
  count_per_site_and_method record_of label_connections CN_metrics = Ok out →
  dict_get CN_metrics site_label = Some method_data →
  dict_get method_data method = Some data →
  ∃ d z of_label of_site,
    data = PyDict d ∧
    dict_get d "number_of_vertices" = Some (PyInt z) ∧
    dict_get label_connections site_label = Some of_label ∧
    dict_get out site_label = Some of_site ∧
    dict_get of_site method = Some (PyDict (record (py_slice_to of_label z))).
Proof.
  intros Hrecord [Hwf Hwf_in] Hout Hsite Hmethod.
  unfold count_per_site_and_method in Hout.
  set (stored := λ (site_label method : string) (data w : pyval),
         ∃ d z of_label,
           data = PyDict d ∧
           dict_get d "number_of_vertices" = Some (PyInt z) ∧
           dict_get label_connections site_label = Some of_label ∧
           w = PyDict (record (py_slice_to of_label z))).
  eapply (for_res_dict_build
            (λ site_label method_data of_site,
               dict_rel (stored site_label) method_data of_site))
    in Hout as (ys & -> & Hrel); [| | done | intros ? _; apply not_elem_of_nil].
  - rewrite app_nil_l.
    pose proof (dict_rel_get _ _ _ site_label Hrel) as Hrel_site.
    rewrite Hsite in Hrel_site.
    inversion Hrel_site as [md of_site Hrel_in Hmd Hof_site|]; subst.
    pose proof (dict_rel_get _ _ _ method Hrel_in) as Hrel_method.
    rewrite Hmethod in Hrel_method.
    inversion Hrel_method as [dat w (d & z & of_label & -> & Hz & Hget & ->) Hd Hw|];
      subst.
    by exists d, z, of_label, of_site.
  - intros acc site_label' method_data' acc' Hin.
    unfold mbind at 1, res_bind at 1.
    destruct (for_res method_data' _ []) as [of_site|e] eqn:Hfor; [|done].
    intros [= <-]. exists of_site. split; [done|].
    eapply (for_res_dict_build (stored site_label'))
      in Hfor as (ys & -> & Hrel);
      [done | | by eapply Hwf_in | intros ? _; apply not_elem_of_nil].
    intros of_site0 method0 data0 of_site' _ Hstep.
    apply count_step_values in Hstep
      as (d & z & of_label & counts & -> & Hz & Hget & Hcounts & ->).
    eexists. split; [done|]. exists d, z, of_label.
    split_and!; [done..|]. f_equal. by apply Hrecord.
Qed.

(** X8. When the binary counting function returns on metrics with unique
    keys, every (site, method) entry was a record with an integer
    ["number_of_vertices"] at a site with connections, and the record stored
    for the pair counts the neighbours among [connections[:CN]]: under
    ["A_count"] those parsed as [A], under ["B_count"] those parsed as [B]
    and not as [A]. The counts are not negative, and their sum is at most
    the number of neighbours gone through, hence at most
    ["number_of_vertices"] when that is not negative. *)
Theorem binary_counts label_connections CN_metrics A B out
    site_label method_data method data :
  nested_wf CN_metrics →
  binary label_connections CN_metrics A B = Ok out →
  dict_get CN_metrics site_label = Some method_data →
  dict_get method_data method = Some data →
  ∃ d CN of_label of_site A_count B_count,
    data = PyDict d ∧
    dict_get d "number_of_vertices" = Some (PyInt CN) ∧
    dict_get label_connections site_label = Some of_label ∧
    dict_get out site_label = Some of_site ∧
    dict_get of_site method
    = Some (PyDict [("A_count", PyInt A_count); ("B_count", PyInt B_count)]) ∧
    A_count = counted A [] (py_slice_to of_label CN) ∧
    B_count = counted B [A] (py_slice_to of_label CN) ∧
    0 ≤ A_count ∧ 0 ≤ B_count ∧
    A_count + B_count ≤ Z.of_nat (length (py_slice_to of_label CN)) ∧
    (0 ≤ CN → A_count + B_count ≤ CN).
Proof.
  intros Hwf Hout Hsite Hmethod. rewrite binary_shape in Hout.
  destruct (count_shape_values _
              (λ cs, [("A_count", PyInt (counted A [] cs));
                      ("B_count", PyInt (counted B [A] cs))])
              _ _ _ _ _ _ _ (λ cs counts H, proj2 (binary_record_inv A B cs counts H))
              Hwf Hout Hsite Hmethod)
    as (d & CN & of_label & of_site & -> & HCN & Hget & Hof_site & Hrecord).
  exists d, CN, of_label, of_site. eexists _, _.
  split_and!; try done; try apply counted_nonneg.
  - apply binary_counted_le.
  - intros HCN0. pose proof (binary_counted_le A B (py_slice_to of_label CN)).
    pose proof (length_py_slice_to of_label CN HCN0). lia.
Qed.

(** X9. When the ternary counting function returns on metrics with unique
    keys, every (site, method) entry was a record with an integer
    ["number_of_vertices"] at a site with connections, and the record stored
    for the pair counts the neighbours among [connections[:CN]]: under
    ["R_count"] those parsed as [R], under ["M_count"] those parsed as [M]
    and not as [R], under ["X_count"] those parsed as [X] and as neither [R]
    nor [M]. The counts are not negative, and their sum is at most the
    number of neighbours gone through, hence at most ["number_of_vertices"]
    when that is not negative. *)
Theorem ternary_counts label_connections CN_metrics R M X out
    site_label method_data method data :
  nested_wf CN_metrics →
  ternary label_connections CN_metrics R M X = Ok out →
  dict_get CN_metrics site_label = Some method_data →
  dict_get method_data method = Some data →
  ∃ d CN of_label of_site R_count M_count X_count,
    data = PyDict d ∧
    dict_get d "number_of_vertices" = Some (PyInt CN) ∧
    dict_get label_connections site_label = Some of_label ∧
    dict_get out site_label = Some of_site ∧
    dict_get of_site method
    = Some (PyDict [("R_count", PyInt R_count); ("M_count", PyInt M_count);
                    ("X_count", PyInt X_count)]) ∧
    R_count = counted R [] (py_slice_to of_label CN) ∧
    M_count = counted M [R] (py_slice_to of_label CN) ∧
    X_count = counted X [R; M] (py_slice_to of_label CN) ∧
    0 ≤ R_count ∧ 0 ≤ M_count ∧ 0 ≤ X_count ∧
    R_count + M_count + X_count
    ≤ Z.of_nat (length (py_slice_to of_label CN)) ∧
    (0 ≤ CN → R_count + M_count + X_count ≤ CN).
Proof.
  intros Hwf Hout Hsite Hmethod. rewrite ternary_shape in Hout.
  destruct (count_shape_values _
              (λ cs, [("R_count", PyInt (counted R [] cs));
                      ("M_count", PyInt (counted M [R] cs));
                      ("X_count", PyInt (counted X [R; M] cs))])
              _ _ _ _ _ _ _
              (λ cs counts H, proj2 (ternary_record_inv R M X cs counts H))
              Hwf Hout Hsite Hmethod)
    as (d & CN & of_label & of_site & -> & HCN & Hget & Hof_site & Hrecord).
  exists d, CN, of_label, of_site. eexists _, _, _.
  split_and!; try done; try apply counted_nonneg.
  - apply ternary_counted_le.
  - intros HCN0. pose proof (ternary_counted_le R M X (py_slice_to of_label CN)).
    pose proof (length_py_slice_to of_label CN HCN0). lia.
Qed.

(** X10. When the quaternary counting function returns on metrics with
    unique keys, every (site, method) entry was a record with an integer
    ["number_of_vertices"] at a site with connections, and the record stored
    for the pair counts the neighbours among [connections[:CN]], the roles
    being tested in the order [A], [B], [C], [D] and a neighbour counting
    for the first role that its parsed label equals. The counts are not
    negative, and their sum is at most the number of neighbours gone
    through, hence at most ["number_of_vertices"] when that is not
    negative. *)
Theorem quaternary_counts label_connections CN_metrics A B C D out
    site_label method_data method data :
  nested_wf CN_metrics →
  quaternary label_connections CN_metrics A B C D = Ok out →
  dict_get CN_metrics site_label = Some method_data →
  dict_get method_data method = Some data →
  ∃ d CN of_label of_site A_count B_count C_count D_count,
    data = PyDict d ∧
    dict_get d "number_of_vertices" = Some (PyInt CN) ∧
    dict_get label_connections site_label = Some of_label ∧
    dict_get out site_label = Some of_site ∧
    dict_get of_site method
    = Some (PyDict [("A_count", PyInt A_count); ("B_count", PyInt B_count);
                    ("C_count", PyInt C_count); ("D_count", PyInt D_count)]) ∧
    A_count = counted A [] (py_slice_to of_label CN) ∧
    B_count = counted B [A] (py_slice_to of_label CN) ∧
    C_count = counted C [A; B] (py_slice_to of_label CN) ∧
    D_count = counted D [A; B; C] (py_slice_to of_label CN) ∧
    0 ≤ A_count ∧ 0 ≤ B_count ∧ 0 ≤ C_count ∧ 0 ≤ D_count ∧
    A_count + B_count + C_count + D_count
    ≤ Z.of_nat (length (py_slice_to of_label CN)) ∧
    (0 ≤ CN → A_count + B_count + C_count + D_count ≤ CN).
Proof.
  intros Hwf Hout Hsite Hmethod. rewrite quaternary_shape in Hout.
  destruct (count_shape_values _
              (λ cs, [("A_count", PyInt (counted A [] cs));
                      ("B_count", PyInt (counted B [A] cs));
                      ("C_count", PyInt (counted C [A; B] cs));
                      ("D_count", PyInt (counted D [A; B; C] cs))])
              _ _ _ _ _ _ _
              (λ cs counts H, proj2 (quaternary_record_inv A B C D cs counts H))
              Hwf Hout Hsite Hmethod)
    as (d & CN & of_label & of_site & -> & HCN & Hget & Hof_site & Hrecord).
  exists d, CN, of_label, of_site. eexists _, _, _, _.
  split_and!; try done; try apply counted_nonneg.
  - apply quaternary_counted_le.
  - intros HCN0.
    pose proof (quaternary_counted_le A B C D (py_slice_to of_label CN)).
    pose proof (length_py_slice_to of_label CN HCN0). lia.
Qed.

(** X11. Each of the three counting functions returns exactly when every
    (site, method) entry is usable: a record with an integer
    ["number_of_vertices"], at a site that has connections, such that the
    labels of the neighbours among [connections[:CN]] are understood by the
    label parser. A [None] entry, a record without ["number_of_vertices"], a
    site with a method and without connections, or a counted label that the
    parser rejects each make the function raise; the labels of neighbours
    beyond [CN] are never parsed. *)
Theorem counting_returns_iff_all_usable
    label_connections CN_metrics (A B R M X A' B' C' D' : string) :
  (is_Ok (binary label_connections CN_metrics A B)
   ↔ all_usable get_atom_type_from_label label_connections CN_metrics) ∧
  (is_Ok (ternary label_connections CN_metrics R M X)
   ↔ all_usable get_atom_type_from_label label_connections CN_metrics) ∧
  (is_Ok (quaternary label_connections CN_metrics A' B' C' D')
   ↔ all_usable get_atom_type_from_label label_connections CN_metrics).
Proof.
  rewrite binary_shape, ternary_shape, quaternary_shape.
  split_and!; apply count_shape_usable.
  - apply binary_record_is_Ok.
  - intros cs record H. by apply binary_record_inv in H as [? _].
  - apply ternary_record_is_Ok.
  - intros cs record H. by apply ternary_record_inv in H as [? _].
  - apply quaternary_record_is_Ok.
  - intros cs record H. by apply quaternary_record_inv in H as [? _].
Qed.


End counting.

End CountingExtra.

(** ** Further properties of the metrics engine *)

Module EngineExtra.
Import Helper HelperSpec ExtraSpec HelperProps ExtraFacts.

Section engine.
Context {hull : Type}.
Variable ConvexHull : list point → res hull.
Variable compute_polyhedron_metrics : list point → hull → res pyval.

Local Abbreviation CN_metrics_per_method :=
  (get_CN_metrics_per_method ConvexHull compute_polyhedron_metrics).
Local Abbreviation method_step :=
  (CN_metrics_of_method ConvexHull compute_polyhedron_metrics).
Local Abbreviation computable :=
  (computable ConvexHull compute_polyhedron_metrics).

(** One iteration of the loop over the methods gets through exactly for a
    computable pair. *)
Lemma method_step_is_Ok connections label site_data_label method CN_data :
  is_Ok (outcome (method_step connections label site_data_label
                    (method, CN_data)))
  ↔ computable connections label CN_data.
Proof.
  unfold CN_metrics_of_method, ExtraSpec.computable, dict_item.
  destruct (dict_get connections label) as [of_label|]; simpl.
  2: { split; [by intros [? ?] | by intros (? & ? & _)]. }
  set (connection_data := py_slice_to of_label (CN CN_data)).
  destruct (decide (3 < length connection_data)%nat) as [Hlen|Hlen].
  - destruct (polyhedron_points_of_Ok _ Hlen) as (c & _ & Hpts). rewrite Hpts.
    destruct (ConvexHull _) as [h|e] eqn:Hhull.
    + destruct (compute_polyhedron_metrics _ h) as [v|e] eqn:Hmetrics; simpl.
      * split; [|by eexists]. intros _. exists of_label. split; [done|].
        intros pts h' _ Hpts' Hh'. fold connection_data in Hpts'.
        rewrite Hpts in Hpts'. injection Hpts' as <-.
        rewrite Hhull in Hh'. injection Hh' as <-. by eexists.
      * split; [by intros [? ?]|]. intros (of_label' & [= <-] & Hm).
        destruct (Hm _ h Hlen Hpts Hhull) as [v Hv]. congruence.
    + split; [|by eexists]. intros _. exists of_label. split; [done|].
      intros pts h' _ Hpts' Hh'. fold connection_data in Hpts'.
      rewrite Hpts in Hpts'. injection Hpts' as <-. congruence.
  - split; [|by eexists]. intros _. exists of_label. split; [done|].
    intros pts h' Hlen'. fold connection_data in Hlen'. lia.
Qed.

(** X12. The metrics engine returns exactly when every (site, method) pair
    is computable: the site has connections, and the metrics primitive
    returns on the shells whose hull is built. So a site that has a method
    and no connections makes it raise, and so does an exception of the
    metrics primitive, which, unlike one of the hull construction, is not
    caught; a failed hull construction, a shell of at most three neighbours
    and a site without methods never make it raise. *)
Theorem engine_returns_iff_all_computable cif :
  is_Ok (outcome (CN_metrics_per_method cif))
  ↔ all_computable ConvexHull compute_polyhedron_metrics cif.
Proof.
  unfold get_CN_metrics_per_method, all_computable. rewrite outcome_for_io.
  split.
  - intros [site_data Hrun] label CN_data_per_method method CN_data Hsite Hmethod.
    destruct (for_res_Ok_inv _ _ _ _ _ Hrun Hsite)
      as (acc & acc' & Hbody).
    cbn beta iota in Hbody. rewrite outcome_bind, outcome_for_io in Hbody.
    destruct (for_res CN_data_per_method _ []) as [site_data_label|e] eqn:Hinner;
      [|done].
    destruct (for_res_Ok_inv _ _ _ _ _ Hinner Hmethod)
      as (s0 & s1 & Hstep).
    eapply method_step_is_Ok. by eexists.
  - intros Hall. apply for_res_is_Ok.
    intros acc [label CN_data_per_method] Hsite.
    rewrite outcome_bind, outcome_for_io.
    match goal with |- is_Ok (mbind _ (for_res ?l ?body ?s)) =>
      destruct (for_res_is_Ok l body s) as [site_data_label ->]; [|by eexists]
    end.
    intros s [method CN_data] Hmethod. apply method_step_is_Ok. by eapply Hall.
Qed.

(** X13. Sites without methods: the engine reads no connections and prints
    nothing, and gives each site an empty entry. In particular it returns
    the empty dict for a structure without sites. *)
Theorem engine_on_sites_without_methods cif :
  dict_wf (CN_max_gap_per_site cif) →
  (∀ label CN_data_per_method,
     (label, CN_data_per_method) ∈ CN_max_gap_per_site cif →
     CN_data_per_method = []) →
  CN_metrics_per_method cif
  = ([], Ok ((λ item, (item.1, [])) <$> CN_max_gap_per_site cif)).
Proof.
  intros Hwf Hempty. unfold get_CN_metrics_per_method.
  rewrite (for_io_pure _ _ (λ _, [])
             (λ site_data item, dict_set item.1 [] site_data)).
  - f_equal.
    + clear. induction (CN_max_gap_per_site cif) as [|x l IH]; [done|].
      by rewrite bind_cons, IH.
    + f_equal.
      rewrite (foldl_dict_set_fresh (λ _ _, [])); [done..|].
      intros ? _. apply not_elem_of_nil.
  - intros site_data [label CN_data_per_method] Hin.
    by rewrite (Hempty _ _ Hin).
Qed.

End engine.

End EngineExtra.

(** ** Further properties of [get_CN_atom_count_data] *)

Module PipelineExtra.
Import Helper HelperSpec ExtraSpec HelperProps ReducerProps ExtraFacts.

Section pipeline.
Context {hull : Type}.
Variable ConvexHull : list point → res hull.
Variable compute_polyhedron_metrics : list point → hull → res pyval.
Variable get_atom_type_from_label : string → res string.
Variable get_binary_AB_elements : list string → res (string * string).
Variable get_ternary_RMX_elements :
  list string → res (string * string * string).
Variable get_quaternary_ABCD_elements :
  list string → res (string * string * string * string).

Local Abbreviation CN_metrics_per_method :=
  (get_CN_metrics_per_method ConvexHull compute_polyhedron_metrics).
Local Abbreviation CN_atom_count_data :=
  (get_CN_atom_count_data ConvexHull compute_polyhedron_metrics
     get_atom_type_from_label get_binary_AB_elements
     get_ternary_RMX_elements get_quaternary_ABCD_elements).
Local Abbreviation parses :=
  (Forall (λ c, is_Ok (get_atom_type_from_label (conn_0 c)))).




(** The engine on well-formed input when the metrics primitive does not
    raise: the diagnostics, and the entry of every pair. *)
Lemma engine_entries cif :
  nested_wf (CN_max_gap_per_site cif) →
  (∀ label CN_data_per_method,
     (label, CN_data_per_method) ∈ CN_max_gap_per_site cif →
     is_Some (dict_get (connections cif) label)) →
  (∀ pts h, is_Ok (compute_polyhedron_metrics pts h)) →
  ∃ site_data,
    CN_metrics_per_method cif = (diagnostics ConvexHull cif, Ok site_data) ∧
    ∀ label CN_data_per_method method CN_data of_label,
      dict_get (CN_max_gap_per_site cif) label = Some CN_data_per_method →
      dict_get CN_data_per_method method = Some CN_data →
      dict_get (connections cif) label = Some of_label →
      ∃ site_data_label,
        dict_get site_data label = Some site_data_label ∧
        dict_get site_data_label method
        = entry_of ConvexHull compute_polyhedron_metrics
            (py_slice_to of_label (CN CN_data)).
Proof.
  intros [Hwf Hwf_in] Hconn Htotal.
  set (connections := Helper.connections cif).
  set (entries := entries_of_site ConvexHull compute_polyhedron_metrics connections).
  set (step := λ (site_data : dict string (dict string pyval))
                 (item : string * dict string CN_data),
                 dict_set item.1 (entries item.1 item.2) site_data).
  exists (foldl step [] (CN_max_gap_per_site cif)). split.
  - unfold get_CN_metrics_per_method, diagnostics.
    erewrite for_io_pure; [done|].
    intros site_data [label CN_data_per_method] Hin.
    destruct (Hconn _ _ Hin) as [of_label Hget].
    rewrite (CN_metrics_of_site_spec _ _ _ _ _ of_label Hget Htotal).
    unfold mbind, io_bind, mret, io_ret. by rewrite app_nil_r.
  - intros label CN_data_per_method method CN_data of_label Hlabel Hmethod Hget.
    exists (entries label CN_data_per_method). split.
    { unfold step.
      rewrite (dict_get_foldl_set (λ k v, Some (entries k v))) by done.
      by rewrite Hlabel. }
    unfold entries, entries_of_site. fold connections in Hget.
    rewrite Hget. cbn [default].
    rewrite (dict_get_foldl_set
               (λ _ CN_data, entry_of ConvexHull compute_polyhedron_metrics
                               (py_slice_to of_label (CN CN_data)))).
    + rewrite Hmethod. simpl. by destruct (entry_of _ _ _).
    + eapply Hwf_in. by apply dict_get_elem_of.
Qed.

(** X15. A failed hull construction ends the feature computation. On
    well-formed input whose sites have connections, and with a metrics
    primitive that does not raise: when the hull construction fails for some
    (site, method) pair, the diagnostic that says that the pair is skipped
    is among those printed, and the computation then ends with the
    [TypeError] of the per-site reduction; it returns no features. *)
Theorem failed_hull_ends_the_feature_computation
    cif label CN_data_per_method method CN_data of_label :
  nested_wf (CN_max_gap_per_site cif) →
  (∀ label CN_data_per_method,
     (label, CN_data_per_method) ∈ CN_max_gap_per_site cif →
     is_Some (dict_get (connections cif) label)) →
  (∀ pts h, is_Ok (compute_polyhedron_metrics pts h)) →
  dict_get (CN_max_gap_per_site cif) label = Some CN_data_per_method →
  dict_get CN_data_per_method method = Some CN_data →
  dict_get (connections cif) label = Some of_label →
  hull_fails ConvexHull (py_slice_to of_label (CN CN_data)) →
  CN_atom_count_data cif = (diagnostics ConvexHull cif, Raise TypeError) ∧
  diagnostic label method ∈ diagnostics ConvexHull cif.
Proof.
  intros Hwf Hconn Htotal Hlabel Hmethod Hget Hfails.
  destruct (engine_entries cif Hwf Hconn Htotal) as (site_data & Hengine & Hentries).
  destruct (Hentries _ _ _ _ _ Hlabel Hmethod Hget)
    as (site_data_label & Hsite & Hentry).
  assert (dict_get site_data_label method = Some PyNone) as HNone.
  { rewrite Hentry. unfold entry_of.
    destruct Hfails as (Hlen & pts & Hpts & e & He).
    rewrite decide_True by done. by rewrite Hpts, He. }
  split.
  - unfold get_CN_atom_count_data. rewrite Hengine, io_bind_Ok. cbn beta.
    rewrite (ReducerExtra.reduction_of_None site_data).
    + unfold lift. rewrite io_bind_Raise. cbn [fst snd]. by rewrite app_nil_r.
    + exists label, site_data_label, method.
      split; by apply dict_get_elem_of.
  - unfold diagnostics. apply list_elem_of_bind.
    exists (label, CN_data_per_method).
    split; [|by apply dict_get_elem_of].
    unfold diagnostics_of_site. apply list_elem_of_bind.
    exists (method, CN_data). split; [|by apply dict_get_elem_of].
    rewrite Hget. cbn [option_list]. apply list_elem_of_bind.
    exists of_label. split; [|apply list_elem_of_here].
    rewrite decide_True by done. apply list_elem_of_here.
Qed.

End pipeline.

End PipelineExtra.

(** ** Further properties of [compute_features] *)

Module TernaryExtra.
Import Helper Ternary TernarySpec TernaryExtraSpec TernaryProps.

Section ternary.
Context {first_second : Type}.
Variable get_ternary_RMX_elements :
  list string → res (string * string * string).
Variable compute_avg_homoatomic_dist_by_site_shortest_dist :
  dict string (list connection) → string → string → string → res num3.
Variable get_R_and_M_and_X_count_in_best_label_per_element :
  dict string (list connection) → string → string → string → res num9.
Variable get_avg_R_and_M_and_X_count_in_per_element :
  dict string (list connection) → string → string → string → res num9.
Variable count_first_second_min_dist :
  dict string (list connection) → res first_second.
Variable extract_best_labels : first_second → res (dict string best_site).
Variable extract_shortest_dist_with_tol :
  dict string best_site → dict string (list connection) →
  res (dict string tol_result).
Variable extract_avg_shortest_dist_with_tol :
  dict string (list connection) → res (dict string avg_tol_result).
Variable get_avg_second_by_first_shortest_dist_ratio :
  first_second → dict string (list connection) → res (dict string avg_ratio).
Variable compute_homoatomic_dist_by_site_shortest_dist :
  dict string (list connection) → string → string → string → res num3.
Variable distance_truediv : Qc → Qc → res num.

Local Abbreviation the_assignments :=
  (assignments get_ternary_RMX_elements
     compute_avg_homoatomic_dist_by_site_shortest_dist
     get_R_and_M_and_X_count_in_best_label_per_element
     get_avg_R_and_M_and_X_count_in_per_element
     count_first_second_min_dist extract_best_labels
     extract_shortest_dist_with_tol extract_avg_shortest_dist_with_tol
     get_avg_second_by_first_shortest_dist_ratio
     compute_homoatomic_dist_by_site_shortest_dist).
Local Abbreviation the_compute_features :=
  (compute_features get_ternary_RMX_elements
     compute_avg_homoatomic_dist_by_site_shortest_dist
     get_R_and_M_and_X_count_in_best_label_per_element
     get_avg_R_and_M_and_X_count_in_per_element
     count_first_second_min_dist extract_best_labels
     extract_shortest_dist_with_tol extract_avg_shortest_dist_with_tol
     get_avg_second_by_first_shortest_dist_ratio
     compute_homoatomic_dist_by_site_shortest_dist distance_truediv).

(** Where the local variables come from: the results of the helpers, and
    what is read from them for each role. *)
Lemma assignments_sources cif l :
  the_assignments cif = Ok l →
  get_ternary_RMX_elements (unique_elements cif)
  = Ok (the_R l, the_M l, the_X l) ∧
  count_first_second_min_dist (connections cif)
  = Ok (the_first_second_dist_per_site_data l) ∧
  extract_best_labels (the_first_second_dist_per_site_data l)
  = Ok (the_best_site_data l) ∧
  extract_shortest_dist_with_tol (the_best_site_data l) (connections cif)
  = Ok (the_tol_results l) ∧
  extract_avg_shortest_dist_with_tol (connections cif)
  = Ok (the_avg_tol_results l) ∧
  get_avg_second_by_first_shortest_dist_ratio
    (the_first_second_dist_per_site_data l) (connections cif)
  = Ok (the_avg_second_by_first_dist l) ∧
  (shortest_dist_count_within_tol <$> dict_get (the_tol_results l) (the_R l)
   = Some (the_R_shortest_dist_count_within_tol l) ∧
   shortest_dist_count_within_tol <$> dict_get (the_tol_results l) (the_M l)
   = Some (the_M_shortest_dist_count_within_tol l) ∧
   shortest_dist_count_within_tol <$> dict_get (the_tol_results l) (the_X l)
   = Some (the_X_shortest_dist_count_within_tol l)) ∧
  (avg_shortest_dist_within_tol_count
   <$> dict_get (the_avg_tol_results l) (the_R l)
   = Some (the_R_avg_shortest_dist_within_tol_count l) ∧
   avg_shortest_dist_within_tol_count
   <$> dict_get (the_avg_tol_results l) (the_M l)
   = Some (the_M_avg_shortest_dist_within_tol_count l) ∧
   avg_shortest_dist_within_tol_count
   <$> dict_get (the_avg_tol_results l) (the_X l)
   = Some (the_X_avg_shortest_dist_within_tol_count l)) ∧
  (avg_second_by_first_shortest_dist
   <$> dict_get (the_avg_second_by_first_dist l) (the_R l)
   = Some (the_R_avg_second_by_first_shortest_dist l) ∧
   avg_second_by_first_shortest_dist
   <$> dict_get (the_avg_second_by_first_dist l) (the_M l)
   = Some (the_M_avg_second_by_first_shortest_dist l) ∧
   avg_second_by_first_shortest_dist
   <$> dict_get (the_avg_second_by_first_dist l) (the_X l)
   = Some (the_X_avg_second_by_first_shortest_dist l)) ∧
  ∃ of_R of_M of_X,
    dict_get (the_best_site_data l) (the_R l) = Some of_R ∧
    dict_get (the_best_site_data l) (the_M l) = Some of_M ∧
    dict_get (the_best_site_data l) (the_X l) = Some of_X ∧
    read_from_site of_R (the_R_shortest_dist l) (the_R_second_shortest_dist l)
      (the_R_shortest_dist_count l) (the_R_second_shortest_dist_count l)
      (the_R_avg_shortest_dist_count l) ∧
    read_from_site of_M (the_M_shortest_dist l) (the_M_second_shortest_dist l)
      (the_M_shortest_dist_count l) (the_M_second_shortest_dist_count l)
      (the_M_avg_shortest_dist_count l) ∧
    read_from_site of_X (the_X_shortest_dist l) (the_X_second_shortest_dist l)
      (the_X_shortest_dist_count l) (the_X_second_shortest_dist_count l)
      (the_X_avg_shortest_dist_count l) ∧
    the_R_avg_second_shortest_dist_count l
    = avg_second_shortest_dist_count of_R ∧
    the_M_avg_second_shortest_dist_count l
    = avg_second_shortest_dist_count of_M.
Proof.
  unfold assignments. intros Hrun. bind_inv Hrun.
  injection Hrun as <-. cbn.
  repeat match goal with
  | H : match dict_item ?d ?k with Ok _ => _ | Raise _ => _ end = Ok _ |- _ =>
      let E := fresh "Hitem" in
      destruct (dict_item d k) eqn:E; [|discriminate H];
      apply dict_item_Ok in E
  | H : dict_item _ _ = Ok _ |- _ => apply dict_item_Ok in H
  end.
  simplify_eq.
  repeat match goal with
  | H1 : ?x = Some ?a, H2 : ?x = Some ?b |- _ =>
      rewrite H1 in H2; injection H2 as <-
  end.
  split_and!; try done;
    try match goal with
    | H : dict_get ?d ?k = Some _ |- context [dict_get ?d ?k] => by rewrite H
    end.
  eexists _, _, _. split_and!; try done; by repeat split.
Qed.

(** X16. Whenever the ternary environment features are computed, the
    result has exactly the 48 feature names of the source, in that order
    and without repetition, whatever the structure. *)
Theorem features_have_the_48_names cif results :
  the_compute_features cif = Ok results →
  keys results = feature_names ∧ NoDup (keys results) ∧
  length results = 48%nat.
Proof.
  unfold compute_features. intros Hrun.
  destruct (the_assignments cif) as [l|e]; [|done].
  unfold results_of in Hrun. bind_inv Hrun. injection Hrun as <-.
  split; [done|]. split; [|done].
  apply (bool_decide_unpack _). vm_compute. exact I.
Qed.

(** X17. The features are computed only if each of the three roles is a
    key of the best sites and of the three dicts keyed by element, the
    lookups having no default; then the outputs of a role that come from
    these three dicts are the entries of the role's own element. *)
Theorem features_need_every_role cif results :
  the_compute_features cif = Ok results →
  ∃ R M X first_second_data best_site_data tol_results avg_tol_results
    avg_second_by_first_dist,
    get_ternary_RMX_elements (unique_elements cif) = Ok (R, M, X) ∧
    count_first_second_min_dist (connections cif) = Ok first_second_data ∧
    extract_best_labels first_second_data = Ok best_site_data ∧
    extract_shortest_dist_with_tol best_site_data (connections cif)
    = Ok tol_results ∧
    extract_avg_shortest_dist_with_tol (connections cif) = Ok avg_tol_results ∧
    get_avg_second_by_first_shortest_dist_ratio first_second_data
      (connections cif) = Ok avg_second_by_first_dist ∧
    (is_Some (dict_get best_site_data R) ∧
     is_Some (dict_get best_site_data M) ∧
     is_Some (dict_get best_site_data X)) ∧
    per_element_outputs results "R" R tol_results avg_tol_results
      avg_second_by_first_dist ∧
    per_element_outputs results "M" M tol_results avg_tol_results
      avg_second_by_first_dist ∧
    per_element_outputs results "X" X tol_results avg_tol_results
      avg_second_by_first_dist.
Proof.
  unfold compute_features. intros Hrun.
  destruct (the_assignments cif) as [l|e] eqn:Hl; [|done].
  apply assignments_sources in Hl
    as (Hroles & Hfirst & Hbest & Htol & Havg_tol & Hratio
        & (HtR & HtM & HtX) & (HaR & HaM & HaX) & (HrR & HrM & HrX)
        & of_R & of_M & of_X & HR & HM & HX & _).
  unfold results_of in Hrun. bind_inv Hrun. injection Hrun as <-.
  exists (the_R l), (the_M l), (the_X l),
    (the_first_second_dist_per_site_data l), (the_best_site_data l),
    (the_tol_results l), (the_avg_tol_results l),
    (the_avg_second_by_first_dist l).
  split_and!; try done; try by eexists.
  - unfold per_element_outputs. rewrite HtR, HaR, HrR.
    split_and!; try reflexivity;
      match goal with
      | H : _ <$> ?o = Some _ |- is_Some ?o => by destruct o
      end.
  - unfold per_element_outputs. rewrite HtM, HaM, HrM.
    split_and!; try reflexivity;
      match goal with
      | H : _ <$> ?o = Some _ |- is_Some ?o => by destruct o
      end.
  - unfold per_element_outputs. rewrite HtX, HaX, HrX.
    split_and!; try reflexivity;
      match goal with
      | H : _ <$> ?o = Some _ |- is_Some ?o => by destruct o
      end.
Qed.

(** X18. Whenever the features are computed, the counts at the shortest
    and at the second shortest distance and the average count at the
    shortest distance of each role are read from the best site of that
    role, the two distances being keys of the counts of the site; and the
    average count at the second shortest distance of the roles R and M is
    read from the role's own best site. *)
Theorem best_site_outputs_are_read_from_own_role cif results :
  the_compute_features cif = Ok results →
  ∃ R M X first_second_data best_site_data of_R of_M of_X,
    get_ternary_RMX_elements (unique_elements cif) = Ok (R, M, X) ∧
    count_first_second_min_dist (connections cif) = Ok first_second_data ∧
    extract_best_labels first_second_data = Ok best_site_data ∧
    dict_get best_site_data R = Some of_R ∧
    dict_get best_site_data M = Some of_M ∧
    dict_get best_site_data X = Some of_X ∧
    own_site_outputs results "R" of_R ∧
    own_site_outputs results "M" of_M ∧
    own_site_outputs results "X" of_X ∧
    dict_get results "ENV_R_avg_second_shortest_dist_count"
    = Some (avg_second_shortest_dist_count of_R) ∧
    dict_get results "ENV_M_avg_second_shortest_dist_count"
    = Some (avg_second_shortest_dist_count of_M).
Proof.
  unfold compute_features. intros Hrun.
  destruct (the_assignments cif) as [l|e] eqn:Hl; [|done].
  apply assignments_sources in Hl
    as (Hroles & Hfirst & Hbest & _ & _ & _ & _ & _ & _
        & of_R & of_M & of_X & HR & HM & HX
        & (HR1 & HR2 & HR3 & HR4 & HR5) & (HM1 & HM2 & HM3 & HM4 & HM5)
        & (HX1 & HX2 & HX3 & HX4 & HX5) & HRavg & HMavg).
  unfold results_of in Hrun. bind_inv Hrun. injection Hrun as <-.
  exists (the_R l), (the_M l), (the_X l),
    (the_first_second_dist_per_site_data l), (the_best_site_data l),
    of_R, of_M, of_X.
  unfold own_site_outputs. cbn zeta.
  rewrite <- HR1, <- HR2, <- HM1, <- HM2, <- HX1, <- HX2.
  rewrite HR3, HR4, HM3, HM4, HX3, HX4.
  rewrite <- HR5, <- HM5, <- HX5, <- HRavg, <- HMavg.
  by split_and!.
Qed.

End ternary.

End TernaryExtra.

(** ** The further properties at concrete inputs *)

Module ExtraRuns.
Import Helper HelperSpec ExtraSpec Samples ExtraSamples HelperRuns.



Lemma engine_on_sites_without_methods_witness :
  get_CN_metrics_per_method hull_ok metrics_ok no_methods
  = ([], Ok [("Th1", []); ("Sb1", [])]).
Proof.
  apply (EngineExtra.engine_on_sites_without_methods hull_ok metrics_ok
           no_methods).
  - by_decide.
  - intros label CN_data_per_method Hin. in_sample; reflexivity.
Defined.

Lemma per_site_reduction_returns_without_None_witness :
  is_Ok (_compute_min_max_avg_per_atomic_label two_sites).
Proof.
  apply (ReducerExtra.per_site_reduction_returns_without_None two_sites).
  - intros (label & of_label & method & Hlabel & Hmethod).
    in_sample; discriminate.
  - intros label of_label method d key z Hlabel Hmethod Hkey.
    in_sample; first [discriminate | reflexivity].
Defined.

Lemma per_site_reduction_raises_only_on_None_witness :
  _compute_min_max_avg_per_atomic_label absent_CN_metrics = Raise TypeError ∧
  TypeError ≠ ValueError ∧ TypeError ≠ ZeroDivisionError ∧
  (TypeError = TypeError → has_None absent_CN_metrics).
Proof.
  split; [reflexivity|].
  apply (ReducerExtra.per_site_reduction_raises_only_on_None
           absent_CN_metrics TypeError).
  reflexivity.
Defined.

Lemma global_reduction_names_and_floats_witness :
  ∃ global_avg,
    _compute_global_avg_for_min_max_avg_metrics two_sites_min_max_avg
    = Ok global_avg ∧
    ∀ st metric,
      (is_Some (dict_get (by_stat_item global_avg st) metric)
       ↔ reported_somewhere metric two_sites_min_max_avg) ∧
      (∀ v, dict_get (by_stat_item global_avg st) metric = Some v →
            ∃ q, v = PyFloat q).
Proof.
  destruct (_compute_global_avg_for_min_max_avg_metrics two_sites_min_max_avg)
    as [global_avg|e] eqn:Hrun; [|by vm_compute in Hrun].
  exists global_avg. split; [done|].
  apply (GlobalExtra.global_reduction_names_and_floats _ _ Hrun).
Defined.




Lemma present_CN_metrics_wf z : nested_wf (present_CN_metrics z).
Proof. split; [by_decide|]. intros k inner Hin. in_sample. by_decide. Qed.

Lemma binary_counts_witness :
  ∃ out of_site,
    _compute_number_of_atoms_in_binary_CN atom_type Th1_label_connections
      (present_CN_metrics 5) "Th" "Sb" = Ok out ∧
    dict_get out "Th1" = Some of_site ∧
    dict_get of_site "m1"
    = Some (PyDict [("A_count", PyInt 1); ("B_count", PyInt 4)]).
Proof.
  destruct (_compute_number_of_atoms_in_binary_CN atom_type
              Th1_label_connections (present_CN_metrics 5) "Th" "Sb")
    as [out|e] eqn:Hout; [|by vm_compute in Hout].
  destruct (CountingExtra.binary_counts atom_type Th1_label_connections
              (present_CN_metrics 5) "Th" "Sb" out "Th1" _ "m1" _
              (present_CN_metrics_wf 5) Hout eq_refl eq_refl)
    as (d & CN & of_label & of_site & A_count & B_count
        & Hd & HCN & Hget & Hsite & Hrecord & -> & -> & _).
  injection Hd as <-. injection HCN as <-. injection Hget as <-.
  by exists out, of_site.
Defined.

Lemma ternary_counts_witness :
  ∃ out of_site,
    _compute_number_of_atoms_in_ternary_CN atom_type Th1_label_connections
      (present_CN_metrics 5) "Te" "Sb" "Th" = Ok out ∧
    dict_get out "Th1" = Some of_site ∧
    dict_get of_site "m1"
    = Some (PyDict [("R_count", PyInt 0); ("M_count", PyInt 4);
                    ("X_count", PyInt 1)]).
Proof.
  destruct (_compute_number_of_atoms_in_ternary_CN atom_type
              Th1_label_connections (present_CN_metrics 5) "Te" "Sb" "Th")
    as [out|e] eqn:Hout; [|by vm_compute in Hout].
  destruct (CountingExtra.ternary_counts atom_type Th1_label_connections
              (present_CN_metrics 5) "Te" "Sb" "Th" out "Th1" _ "m1" _
              (present_CN_metrics_wf 5) Hout eq_refl eq_refl)
    as (d & CN & of_label & of_site & R_count & M_count & X_count
        & Hd & HCN & Hget & Hsite & Hrecord & -> & -> & -> & _).
  injection Hd as <-. injection HCN as <-. injection Hget as <-.
  by exists out, of_site.
Defined.

Lemma quaternary_counts_witness :
  ∃ out of_site,
    _compute_number_of_atoms_in_quaternary_CN atom_type Th1_label_connections
      (present_CN_metrics 3) "Sb" "Sb" "Th" "Te" = Ok out ∧
    dict_get out "Th1" = Some of_site ∧
    dict_get of_site "m1"
    = Some (PyDict [("A_count", PyInt 3); ("B_count", PyInt 0);
                    ("C_count", PyInt 0); ("D_count", PyInt 0)]).
Proof.
  destruct (_compute_number_of_atoms_in_quaternary_CN atom_type
              Th1_label_connections (present_CN_metrics 3)
              "Sb" "Sb" "Th" "Te")
    as [out|e] eqn:Hout; [|by vm_compute in Hout].
  destruct (CountingExtra.quaternary_counts atom_type Th1_label_connections
              (present_CN_metrics 3) "Sb" "Sb" "Th" "Te" out "Th1" _ "m1" _
              (present_CN_metrics_wf 3) Hout eq_refl eq_refl)
    as (d & CN & of_label & of_site & A_count & B_count & C_count & D_count
        & Hd & HCN & Hget & Hsite & Hrecord & -> & -> & -> & -> & _).
  injection Hd as <-. injection HCN as <-. injection Hget as <-.
  by exists out, of_site.
Defined.


Lemma failed_hull_ends_the_feature_computation_witness :
  get_CN_atom_count_data hull_fail metrics_ok atom_type two three four
    (Th_Sb 4 ["Th"; "Sb"])
  = (diagnostics hull_fail (Th_Sb 4 ["Th"; "Sb"]), Raise TypeError) ∧
  diagnostic "Th1" "m1" ∈ diagnostics hull_fail (Th_Sb 4 ["Th"; "Sb"]).
Proof.
  apply (PipelineExtra.failed_hull_ends_the_feature_computation hull_fail
           metrics_ok atom_type two three four (Th_Sb 4 ["Th"; "Sb"])
           "Th1" [("m1", {| CN := 4 |})] "m1" {| CN := 4 |} Th1_connections).
  - split; [by_decide|]. intros k inner Hin. in_sample. by_decide.
  - intros label CN_data_per_method Hin. in_sample. by eexists.
  - intros pts h. by eexists.
  - reflexivity.
  - reflexivity.
  - reflexivity.
  - split; [simpl; lia|]. eexists. split; [reflexivity|]. by eexists.
Defined.

End ExtraRuns.

Module TernaryExtraRuns.
Import Helper Ternary TernarySpec TernaryExtraSpec TernarySamples.

Lemma features_have_the_48_names_witness :
  ∃ results,
    run 2%Qc = Ok results ∧
    keys results = feature_names ∧ NoDup (keys results) ∧
    length results = 48%nat.
Proof.
  destruct (run 2%Qc) as [results|e] eqn:Hrun; [|by vm_compute in Hrun].
  unfold run, run_with in Hrun. exists results. split; [done|].
  apply (TernaryExtra.features_have_the_48_names _ _ _ _ _ _ _ _ _ _ _ _ _ Hrun).
Defined.

Lemma features_need_every_role_witness :
  ∃ results,
    run 2%Qc = Ok results ∧
    per_element_outputs results "X" "Ge"
      (per_element {| shortest_dist_count_within_tol := PyInt 4 |})
      (per_element {| avg_shortest_dist_within_tol_count := PyFloat 1%Qc |})
      (per_element {| avg_second_by_first_shortest_dist := PyFloat 1%Qc |}).
Proof.
  destruct (run 2%Qc) as [results|e] eqn:Hrun; [|by vm_compute in Hrun].
  unfold run, run_with in Hrun. exists results. split; [done|].
  destruct (TernaryExtra.features_need_every_role _ _ _ _ _ _ _ _ _ _ _ _ _ Hrun)
    as (R & M & X & [] & best_site_data & tol_results & avg_tol_results
        & avg_second_by_first_dist & Hroles & _ & _ & Htol & Havg & Hratio
        & _ & _ & _ & HX).
  injection Hroles as <- <- <-. injection Htol as <-. injection Havg as <-.
  injection Hratio as <-. exact HX.
Defined.

Lemma best_site_outputs_are_read_from_own_role_witness :
  ∃ results,
    run 2%Qc = Ok results ∧
    own_site_outputs results "X" (site_with "Ge1" 2%Qc (PyFloat (Qc_of_Z 5))) ∧
    dict_get results "ENV_M_avg_second_shortest_dist_count"
    = Some (PyFloat 2%Qc).
Proof.
  destruct (run 2%Qc) as [results|e] eqn:Hrun; [|by vm_compute in Hrun].
  unfold run, run_with in Hrun. exists results. split; [done|].
  destruct (TernaryExtra.best_site_outputs_are_read_from_own_role
              _ _ _ _ _ _ _ _ _ _ _ _ _ Hrun)
    as (R & M & X & [] & best_site_data & of_R & of_M & of_X & Hroles & _
        & Hbest & _ & HM & HX & _ & _ & HoutX & _ & HoutM).
  injection Hroles as <- <- <-. injection Hbest as <-.
  injection HM as <-. injection HX as <-. by split.
Defined.

End TernaryExtraRuns.

